(** * SageMaker customer-churn pipeline notebook: a shallow embedding

    The notebook [Notebooks/SageMaker_Customer_Churn_XGB_Pipeline.ipynb]
    writes two scripts ([preprocess.py], [evaluate.py]), assembles a
    SageMaker pipeline, creates and runs it, approves the newest model
    package and waits for an endpoint.  Each part is embedded below as an
    executable Rocq function, in the order of the notebook cells, and the
    properties of the specification are proved about those functions.

    Conventions.
    - Python exceptions are values of [exn]; a computation that may raise
      has type [result A].
    - Calls into the managed platform (boto3 / SageMaker SDK) are inputs of
      the model: the outcome of a call is an argument of the embedded cell.
    - A polling loop takes the sequence of responses the platform gives
      (the [k]-th response to the [k]-th call) and an amount of fuel; it
      returns [None] when the fuel is used up before the loop exits.
    - Numbers in tables are exact rationals ([Qc]).  The boundaries of the
      split, [int(0.7 * n)] and [int(0.9 * n)], and the two metrics of the
      evaluation are computed in double precision: a double is the
      rational it stands for, and each operation rounds to 53 significant
      bits, ties to even.
    - What a script finds outside its own code (the model archive, the
      pickled model and its predictions, the output file) is an input of
      the model: the outcome of each such step is a field of the
      environment the script runs in.
    - pandas, numpy and scikit-learn calls are embedded by what they do on
      the values the scripts pass (pandas 1.x, as in the scikit-learn
      0.23-1 processing image: indicator columns have dtype [uint8]). *)

From Stdlib Require Import ZArith QArith Qcanon String Ascii List Lia Permutation.
From Stdlib Require Import DecimalString Qround Qpower Sorted Lqa.
From stdpp Require Import base gmap strings list.

Import ListNotations.
Local Open Scope string_scope.
Local Open Scope list_scope.

(** ** Python exceptions and results *)

Module Py.

(** The [Error] member of a botocore [ClientError] response. *)
Record client_error := ClientErr { Code : string; Message : string }.

Inductive exn :=
| ClientError (e : client_error)
| KeyError (key : string)
| IndexError
| OverflowError
| EmptyDataError
| ParserError (expected line saw : nat)
| ValueError (msg : string)
| Exception (msg : string).

Inductive result (A : Type) :=
| Ok (a : A)
| Raise (e : exn).
Arguments Ok {A} a.
Arguments Raise {A} e.

Definition bind {A B} (r : result A) (k : A -> result B) : result B :=
  match r with
  | Ok a => k a
  | Raise e => Raise e
  end.

Notation "'let*' x ':=' r 'in' k" := (bind r (fun x => k))
  (at level 10, x name, r at level 100, k at level 200).

(** [needle in hay] on Python strings. *)
Fixpoint str_in (needle hay : string) : bool :=
  String.prefix needle hay
  || match hay with
     | EmptyString => false
     | String _ hay' => str_in needle hay'
     end.

(** [s.split(sep)] for a one-character separator. *)
Fixpoint split_on (sep : ascii) (s : string) : list string :=
  match s with
  | EmptyString => [EmptyString]
  | String c s' =>
      if Ascii.eqb c sep then EmptyString :: split_on sep s'
      else match split_on sep s' with
           | [] => [String c EmptyString]
           | w :: ws => String c w :: ws
           end
  end.

End Py.
Import Py.

(** ** JSON documents (the evaluation report) *)

#[warnings="-register-all"]
Inductive json :=
| JNum (q : Qc)
| JStr (s : string)
| JObj (fields : list (string * json)).

Fixpoint assoc {A} (k : string) (l : list (string * A)) : option A :=
  match l with
  | [] => None
  | (k', v) :: l' => if String.eqb k k' then Some v else assoc k l'
  end.

(** Follow a path of keys into a document. *)
Fixpoint json_get (j : json) (path : list string) : option json :=
  match path with
  | [] => Some j
  | k :: path' =>
      match j with
      | JObj fields =>
          match assoc k fields with
          | Some v => json_get v path'
          | None => None
          end
      | _ => None
      end
  end.

(** All leaves of a document with their paths, in document order. *)
Fixpoint json_leaves (j : json) : list (list string * json) :=
  match j with
  | JObj fields =>
      (fix go (fs : list (string * json)) : list (list string * json) :=
         match fs with
         | [] => []
         | (k, v) :: fs' =>
             List.map (fun pl => (k :: fst pl, snd pl)) (json_leaves v) ++ go fs'
         end) fields
  | leaf => [([], leaf)]
  end.

Definition is_number (j : json) : bool :=
  match j with JNum _ => true | _ => false end.

(** The leaves that hold a number. *)
Definition json_numbers (j : json) : list (list string * json) :=
  List.filter (fun pl => is_number (snd pl)) (json_leaves j).

Definition Qc_geb (x y : Qc) : bool :=
  match (x ?= y)%Qc with
  | Lt => false
  | _ => true
  end.

(** ** The pipeline definition (cell "Define Model Building Pipeline") *)

Record PropertyFile :=
  { pf_name : string; pf_output_name : string; pf_path : string }.

Record JsonGet :=
  { jg_step_name : string; jg_property_file : PropertyFile; jg_json_path : string }.

Inductive condition :=
| ConditionGreaterThanOrEqualTo (left : JsonGet) (right : Qc).

#[warnings="-register-all"]
Inductive step :=
| ProcessingStep (name : string) (code : string) (outputs : list string)
    (property_files : list PropertyFile)
| TrainingStep (name : string) (inputs : list string)
| RegisterModel (name : string) (model_package_group_name : string)
| ConditionStep (name : string) (conditions : list condition)
    (if_steps else_steps : list step).

Record Pipeline :=
  { pipeline_name : string; parameters : list string; steps : list step }.

Definition step_name (s : step) : string :=
  match s with
  | ProcessingStep name _ _ _ => name
  | TrainingStep name _ => name
  | RegisterModel name _ => name
  | ConditionStep name _ _ _ => name
  end.

Definition step_if_steps (s : step) : list step :=
  match s with
  | ConditionStep _ _ ifs _ => ifs
  | _ => []
  end.

Definition step_else_steps (s : step) : list step :=
  match s with
  | ConditionStep _ _ _ els => els
  | _ => []
  end.

Definition step_conditions (s : step) : list condition :=
  match s with
  | ConditionStep _ cs _ _ => cs
  | _ => []
  end.

Definition model_package_group_name : string := "CustomerChurnPackageGroup".

Definition step_process : step :=
  ProcessingStep "CustomerChurnProcess" "preprocess.py"
    ["train"; "validation"; "test"] [].

Definition step_train : step :=
  TrainingStep "CustomerChurnTrain" ["train"; "validation"].

Definition evaluation_report : PropertyFile :=
  {| pf_name := "EvaluationReport";
     pf_output_name := "evaluation";
     pf_path := "evaluation.json" |}.

Definition step_eval : step :=
  ProcessingStep "CustomerChurnEval" "evaluate.py"
    ["evaluation"] [evaluation_report].

Definition step_register : step :=
  RegisterModel "CustomerChurnRegisterModel" model_package_group_name.

(** The threshold literal [0.8]. *)
Definition threshold : Qc := Q2Qc (8 # 10).

Definition cond_lte : condition :=
  ConditionGreaterThanOrEqualTo
    {| jg_step_name := step_name step_eval;
       jg_property_file := evaluation_report;
       jg_json_path := "binary_classification_metrics.accuracy.value" |}
    threshold.

Definition step_cond : step :=
  ConditionStep "CustomerChurnAccuracyCond" [cond_lte] [step_register] [].

Definition pipeline (name : string) : Pipeline :=
  {| pipeline_name := name;
     parameters := ["ProcessingInstanceType"; "ProcessingInstanceCount";
                    "TrainingInstanceType"; "ModelApprovalStatus";
                    "InputDataUrl"];
     steps := [step_process; step_train; step_eval; step_cond] |}.

(** The keys of [binary_classification_metrics.accuracy.value]. *)
Definition accuracy_path : list string :=
  ["binary_classification_metrics"; "accuracy"; "value"].

(** *** How the platform runs a pipeline definition

    The property files written so far, by step name and property-file
    name. *)
Definition property_store := string -> string -> option json.

(** A [JsonGet] reads the number at a dotted path of a property file. *)
Definition eval_json_get (files : property_store) (g : JsonGet) : option Qc :=
  match files (jg_step_name g) (pf_name (jg_property_file g)) with
  | Some doc =>
      match json_get doc (split_on "." (jg_json_path g)) with
      | Some (JNum q) => Some q
      | _ => None
      end
  | None => None
  end.

Definition eval_condition (files : property_store) (c : condition) : option bool :=
  match c with
  | ConditionGreaterThanOrEqualTo l r =>
      match eval_json_get files l with
      | Some v => Some (Qc_geb v r)
      | None => None
      end
  end.

(** All conditions of a condition step: [Some true] when each holds,
    [Some false] when each can be read and one fails, [None] when one
    cannot be read (the step fails). *)
Fixpoint eval_conditions (files : property_store) (cs : list condition) : option bool :=
  match cs with
  | [] => Some true
  | c :: cs' =>
      match eval_condition files c, eval_conditions files cs' with
      | Some b, Some b' => Some (b && b')
      | _, _ => None
      end
  end.

(** The names of the steps that run, in order.  A condition step runs its
    [if_steps] when its conditions hold, its [else_steps] when they do
    not, and nothing more when it fails. *)
Fixpoint run_step (files : property_store) (s : step) : list string :=
  match s with
  | ConditionStep name cs ifs els =>
      name ::
      match eval_conditions files cs with
      | Some true => List.flat_map (run_step files) ifs
      | Some false => List.flat_map (run_step files) els
      | None => []
      end
  | _ => [step_name s]
  end.

Definition run_pipeline (files : property_store) (p : Pipeline) : list string :=
  List.flat_map (run_step files) (steps p).

(** The property store once [step_eval] has written [report]. *)
Definition files_with_report (report : json) : property_store :=
  fun step file =>
    if String.eqb step "CustomerChurnEval" && String.eqb file "EvaluationReport"
    then Some report else None.

(** ** Effects of notebook cells *)

Inductive event :=
| Print (line : string)
| LogInfo (line : string)
| Sleep (seconds : nat).

(** The durations of the sleeps of a trace, in order. *)
Fixpoint sleeps (tr : list event) : list nat :=
  match tr with
  | [] => []
  | Sleep n :: tr' => n :: sleeps tr'
  | _ :: tr' => sleeps tr'
  end.

(** ** Creating the pipeline (cell "Create Pipeline") *)

Definition is_duplicate_name (error : client_error) : bool :=
  String.eqb (Code error) "ValidationError"
  && str_in "Pipeline names must be unique within" (Message error).

(** The [try] / [except ClientError] block.  [create] and [describe] are
    the outcomes of [pipeline.create(role_arn=role)] and of
    [pipeline.describe()]; the result is the value bound to [response],
    or the exception that leaves the block. *)
Definition create_pipeline {R} (create describe : result R)
  : list event * result R :=
  match create with
  | Ok response => ([], Ok response)
  | Raise (ClientError error) =>
      if is_duplicate_name error
      then ([Print (Message error)], describe)
      else ([], Raise (ClientError error))
  | Raise e => ([], Raise e)
  end.

(** ** Waiting for the pipeline execution (cell "Run Pipeline") *)

Record execution_description := { PipelineExecutionStatus : string }.

(** The [while True] loop.  [describe k] is the response of the [k]-th
    call of [describe_pipeline_execution]; the loop is entered with [k]
    calls already made. *)
Fixpoint poll_execution (fuel : nat) (describe : nat -> execution_description)
  (pipeline_execution_arn : string) (k : nat) : option (list event * string) :=
  match fuel with
  | O => None
  | S fuel' =>
      let resp := describe k in
      if String.eqb (PipelineExecutionStatus resp) "Executing"
      then
        match poll_execution fuel' describe pipeline_execution_arn (S k) with
        | Some (tr, st) => Some (Print "Running..." :: Sleep 15 :: tr, st)
        | None => None
        end
      else
        Some ([Print (PipelineExecutionStatus resp ++ " " ++ pipeline_execution_arn)],
              PipelineExecutionStatus resp)
  end.

(** The statuses [describe_pipeline_execution] reports (SageMaker API
    reference).  An execution that is being stopped reports "Stopping"
    until it has stopped; the statuses in which an execution stays are the
    other three. *)
Definition execution_statuses : list string :=
  ["Executing"; "Stopping"; "Stopped"; "Failed"; "Succeeded"].

Definition is_terminal_execution_status (status : string) : bool :=
  List.existsb (String.eqb status) ["Stopped"; "Failed"; "Succeeded"].

(** ** Approving the newest model package (cells "Approve the model") *)

Record ModelPackageSummary :=
  { ModelPackageArn : string;
    CreationTime : Z;
    ModelApprovalStatus : string }.

(** [sorted(l, key=key, reverse=True)]: a stable sort into descending
    order of the key (equal keys keep their original order). *)
Fixpoint insert_desc {A} (key : A -> Z) (x : A) (l : list A) : list A :=
  match l with
  | [] => [x]
  | y :: l' =>
      if (key x <? key y)%Z then y :: insert_desc key x l'
      else x :: y :: l'
  end.

Definition sorted_reverse {A} (key : A -> Z) (l : list A) : list A :=
  List.fold_right (insert_desc key) [] l.

(** [packages] is the [ModelPackageSummaryList] that
    [list_model_packages] returned. *)
Definition latest_model_package_arn (packages : list ModelPackageSummary)
  : result string :=
  match sorted_reverse CreationTime packages with
  | [] => Raise IndexError
  | p :: _ => Ok (ModelPackageArn p)
  end.

Definition set_approval (status : string) (p : ModelPackageSummary)
  : ModelPackageSummary :=
  {| ModelPackageArn := ModelPackageArn p;
     CreationTime := CreationTime p;
     ModelApprovalStatus := status |}.

(** The registry after [update_model_package(ModelPackageArn=arn,
    ModelApprovalStatus=status)]; packages are keyed by their ARN. *)
Definition update_model_package (arn status : string)
  (registry : gmap string ModelPackageSummary) : gmap string ModelPackageSummary :=
  alter (set_approval status) arn registry.

(** Both cells: pick the newest listed package and approve it. *)
Definition approve_latest (packages : list ModelPackageSummary)
  (registry : gmap string ModelPackageSummary)
  : result (string * gmap string ModelPackageSummary) :=
  let* arn := latest_model_package_arn packages in
  Ok (arn, update_model_package arn "Approved" registry).

(** What the group lists after a pipeline run that executed the steps
    [ran]: the register step adds one package. *)
Definition packages_after_run (ran : list string) (registered : ModelPackageSummary)
  (before : list ModelPackageSummary) : list ModelPackageSummary :=
  if List.existsb (String.eqb (step_name step_register)) ran
  then registered :: before
  else before.

(** ** Waiting for the endpoint (cell [wait_for_response]) *)

Record endpoint_description :=
  { EndpointStatus : string; FailureReason : option string }.

(** The [while (status == 'Creating')] loop; it is entered with
    [status = 'Creating'].  [describe k] is the response of the [k]-th
    call of [describe_endpoint].  The result is the status the loop ends
    with, or the exception raised inside it. *)
Fixpoint wait_loop (fuel : nat) (describe : nat -> endpoint_description)
  (poll_interval : nat) (k : nat) : option (list event * result string) :=
  match fuel with
  | O => None
  | S fuel' =>
      let response := describe k in
      let status := EndpointStatus response in
      let tr1 := [Print ("Creating job is still in status: " ++ status ++ " ...")] in
      if String.eqb status "Failed" then
        match FailureReason response with
        | None => Some (tr1, Raise (KeyError "FailureReason"))
        | Some message =>
            Some (tr1 ++
                  [LogInfo ("Endpoint Creation failed with the following error: " ++ message);
                   Print ("Endpoint failed with the following error: " ++ message)],
                  Raise (Exception "Creating Endpoint failed"))
        end
      else
        let tr2 :=
          tr1 ++ [LogInfo ("Creating job is still in status: " ++ status);
                  Sleep poll_interval] in
        if String.eqb status "Creating" then
          match wait_loop fuel' describe poll_interval (S k) with
          | Some (tr, r) => Some (tr2 ++ tr, r)
          | None => None
          end
        else Some (tr2, Ok status)
  end.

Definition wait_for_response (fuel : nat) (describe : nat -> endpoint_description)
  (poll_interval : nat) : option (list event * result unit) :=
  match wait_loop fuel describe poll_interval 0 with
  | None => None
  | Some (tr, Raise e) => Some (tr, Raise e)
  | Some (tr, Ok status) =>
      if String.eqb status "InService" then
        Some (tr ++ [LogInfo ("Creating job ended with status: " ++ status);
                     Print ("Creating job ended with status: " ++ status)],
              Ok tt)
      else Some (tr, Raise (Exception "Creating job stopped"))
  end.

(** What one pass of the loop emits while the endpoint is still being
    created, and what the pass that sees the failure emits. *)
Definition creating_trace (poll_interval : nat) : list event :=
  [Print "Creating job is still in status: Creating ...";
   LogInfo "Creating job is still in status: Creating";
   Sleep poll_interval].

Definition failure_trace (message : string) : list event :=
  [Print "Creating job is still in status: Failed ...";
   LogInfo ("Endpoint Creation failed with the following error: " ++ message);
   Print ("Endpoint failed with the following error: " ++ message)].

(** The default of the [poll_interval] argument, also the value the
    notebook passes. *)
Definition default_poll_interval : nat := 30.

Definition str_of_Z (z : Z) : string :=
  DecimalString.NilZero.string_of_int (Z.to_int z).

Definition str_of_nat (n : nat) : string := str_of_Z (Z.of_nat n).

(** The text an exception carries ([str(e)] for [Exception(msg)]). *)
Definition exn_text (e : exn) : string :=
  match e with
  | Exception msg => msg
  | ValueError msg => msg
  | KeyError key => key
  | ClientError err => Message err
  | IndexError => "list index out of range"
  | OverflowError => "int too large to convert to float"
  | EmptyDataError => "No columns to parse from file"
  | ParserError expected line saw =>
      "Error tokenizing data. C error: Expected " ++ str_of_nat expected
      ++ " fields in line " ++ str_of_nat line ++ ", saw " ++ str_of_nat saw
      ++ String (ascii_of_nat 10) EmptyString
  end.

(** ** Tables: the pandas objects the two scripts handle *)

Inductive value :=
| VInt (z : Z)
| VFloat (q : Qc)
| VBool (b : bool)
| VStr (s : string)
| VNaN.

Inductive dtype := int64 | float64 | bool_ | uint8 | object.

#[global] Instance value_eq_dec : EqDecision value.
Proof. solve_decision. Defined.

(** A frame is kept row by row: the column labels with their dtypes, and
    for each row its index label and its cells, one per column. *)
Record DataFrame :=
  { columns : list (string * dtype);
    rows : list (nat * list value) }.

Definition len (df : DataFrame) : nat := length (rows df).

Definition column_names (df : DataFrame) : list string := List.map fst (columns df).

(** The cell of a row at a column position. *)
Definition cell (j : nat) (r : nat * list value) : value := nth j (snd r) VNaN.

Definition column_values (df : DataFrame) (j : nat) : list value :=
  List.map (cell j) (rows df).

(** Keep the entries of [l] whose position is marked in [mask]. *)
Fixpoint select {A} (mask : list bool) (l : list A) : list A :=
  match mask, l with
  | b :: mask', x :: l' => if b then x :: select mask' l' else select mask' l'
  | _, _ => []
  end.

Definition select_columns (mask : list bool) (df : DataFrame) : DataFrame :=
  {| columns := select mask (columns df);
     rows := List.map (fun r => (fst r, select mask (snd r))) (rows df) |}.

Definition has_column (df : DataFrame) (label : string) : bool :=
  List.existsb (fun c => String.eqb (fst c) label) (columns df).

Definition mem_label (labels : list string) (c : string * dtype) : bool :=
  List.existsb (String.eqb (fst c)) labels.

(** [sep.join(parts)]. *)
Fixpoint join (sep : string) (parts : list string) : string :=
  match parts with
  | [] => EmptyString
  | p :: ps =>
      match ps with
      | [] => p
      | _ => (p ++ sep ++ join sep ps)%string
      end
  end.

(** [repr] of a [str]: single quotes, unless the text holds a single
    quote and no double quote; the quote in use, the backslash and the
    ASCII control characters are escaped. *)
Definition hex_digit (n : nat) : ascii :=
  if Nat.ltb n 10 then ascii_of_nat (48 + n) else ascii_of_nat (87 + n).

Definition repr_char (quote c : ascii) : string :=
  let n := nat_of_ascii c in
  if Ascii.eqb c quote || Ascii.eqb c "\" then String "\" (String c EmptyString)
  else if Nat.eqb n 10 then "\n"
  else if Nat.eqb n 13 then "\r"
  else if Nat.eqb n 9 then "\t"
  else if Nat.ltb n 32 || Nat.eqb n 127
       then String "\" (String "x" (String (hex_digit (n / 16))
                                      (String (hex_digit (n mod 16)) EmptyString)))
  else String c EmptyString.

Fixpoint repr_chars (quote : ascii) (s : string) : string :=
  match s with
  | EmptyString => EmptyString
  | String c s' => (repr_char quote c ++ repr_chars quote s')%string
  end.

Definition py_repr (s : string) : string :=
  let squote := "'"%char in
  let dquote := ascii_of_nat 34 in
  let quote :=
    if str_in (String squote EmptyString) s && negb (str_in (String dquote EmptyString) s)
    then dquote else squote in
  String quote (repr_chars quote s ++ String quote EmptyString).

(** [str] of a numpy array of labels that fits on one line (numpy breaks
    lines after 75 characters; the label lists of the script are
    shorter). *)
Definition labels_str (labels : list string) : string :=
  ("[" ++ join " " (List.map py_repr labels) ++ "]")%string.

Definition not_found_in_axis (labels : list string) : string :=
  (labels_str labels ++ " not found in axis")%string.

(** [Index.is_unique]. *)
Fixpoint is_unique (names : list string) : bool :=
  match names with
  | [] => true
  | n :: names' => negb (List.existsb (String.eqb n) names') && is_unique names'
  end.

(** [df.drop(labels, axis=1)].  When a label names no column, pandas 1.1
    raises [KeyError("[...] not found in axis")]: over unique column
    labels the message lists the labels that are missing, over repeated
    ones it lists all the labels passed. *)
Definition drop_columns (labels : list string) (df : DataFrame) : result DataFrame :=
  match List.filter (fun l => negb (has_column df l)) labels with
  | [] =>
      Ok (select_columns (List.map (fun c => negb (mem_label labels c)) (columns df)) df)
  | missing =>
      Raise (KeyError (not_found_in_axis
                         (if is_unique (column_names df) then missing else labels)))
  end.

(** [df[label]]. *)
Definition getitem (label : string) (df : DataFrame) : result DataFrame :=
  if has_column df label
  then Ok (select_columns (List.map (fun c => String.eqb (fst c) label) (columns df)) df)
  else Raise (KeyError label).

Definition relabel_object (label : string) (c : string * dtype) : string * dtype :=
  if String.eqb (fst c) label then (fst c, object) else c.

(** [df[label] = df[label].astype(object)]. *)
Definition astype_object (label : string) (df : DataFrame) : result DataFrame :=
  if has_column df label
  then Ok {| columns := List.map (relabel_object label) (columns df);
             rows := rows df |}
  else Raise (KeyError label).

(** [pd.concat([a, b], axis=1)] for two frames over the same index. *)
Definition concat_columns (a b : DataFrame) : DataFrame :=
  {| columns := columns a ++ columns b;
     rows := zip_with (fun ra rb => (fst ra, snd ra ++ snd rb)) (rows a) (rows b) |}.

(** [l[start:stop]] for indices that are not negative. *)
Definition slice {A} (start stop : nat) (l : list A) : list A :=
  take (stop - start) (drop start l).

Definition slice_rows (start stop : nat) (df : DataFrame) : DataFrame :=
  {| columns := columns df; rows := slice start stop (rows df) |}.

(** [np.split(df, [a, b])]. *)
Definition np_split (df : DataFrame) (a b : nat) : DataFrame * DataFrame * DataFrame :=
  (slice_rows 0 a df, slice_rows a b df, slice_rows b (len df) df).

(** [df.to_csv(path, header=False, index=False)]: the file holds the
    cells of each row. *)
Definition to_csv (df : DataFrame) : list (list value) := List.map snd (rows df).

(** Every row has one cell per column. *)
Definition well_formed (df : DataFrame) : Prop :=
  Forall (fun r => length (snd r) = length (columns df)) (rows df).

(** The index labels of the rows. *)
Definition index (df : DataFrame) : list nat := List.map fst (rows df).

(** [x] is in one of the three lists and in no other. *)
Definition in_exactly_one {A} (x : A) (l1 l2 l3 : list A) : Prop :=
  (In x l1 /\ ~ In x l2 /\ ~ In x l3)
  \/ (~ In x l1 /\ In x l2 /\ ~ In x l3)
  \/ (~ In x l1 /\ ~ In x l2 /\ In x l3).

(** The labels the script drops before encoding. *)
Definition dropped_features : list string :=
  ["Phone"; "Day Charge"; "Eve Charge"; "Night Charge"; "Intl Charge"].

Definition is_object (c : string * dtype) : bool :=
  match snd c with
  | object => true
  | _ => false
  end.

Definition notna (v : value) : bool :=
  match v with
  | VNaN => false
  | _ => true
  end.

Fixpoint insert_by {A} (leb : A -> A -> bool) (x : A) (l : list A) : list A :=
  match l with
  | [] => [x]
  | y :: l' => if leb x y then x :: y :: l' else y :: insert_by leb x l'
  end.

Definition sort_by {A} (leb : A -> A -> bool) (l : list A) : list A :=
  List.fold_right (insert_by leb) [] l.

(** *** Double-precision arithmetic on row counts

    A finite double that is not negative is written as an integer with at
    most 53 significant bits, times a power of two.  [round53 P] is the
    nearest such integer to [P], ties going to the even significand. *)
Definition round53 (P : Z) : Z :=
  let s := (Z.log2 P - 52)%Z in
  if (s <=? 0)%Z then P
  else
    let q := (P / 2 ^ s)%Z in
    let r := (P mod 2 ^ s)%Z in
    let h := (2 ^ (s - 1))%Z in
    if (r <? h)%Z then (q * 2 ^ s)%Z
    else if (h <? r)%Z then ((q + 1) * 2 ^ s)%Z
    else if Z.even q then (q * 2 ^ s)%Z
    else ((q + 1) * 2 ^ s)%Z.

(** [float(n)] for an [int] that is not negative. *)
Definition float_of_int (n : Z) : result Z :=
  let x := round53 n in
  if (2 ^ 1024 <=? x)%Z then Raise OverflowError else Ok x.

(** The literals [0.7] and [0.9] are the doubles [m07 / 2^53] and
    [m09 / 2^53]. *)
Definition m07 : Z := 6305039478318694.
Definition m09 : Z := 8106479329266893.

(** [int(c * n)] for the double [c = m / 2^53] and a row count [n]. *)
Definition int_of_product (m : Z) (n : nat) : result nat :=
  let* x := float_of_int (Z.of_nat n) in
  Ok (Z.to_nat (round53 (m * x) / 2 ^ 53)).

Section Pandas.

(** [repr] of a float, the order pandas sorts category levels in, and the
    order [RandomState(1729)] draws the positions of [n] rows in. *)
Variable float_repr : Qc -> string.
Variable value_leb : value -> value -> bool.
Variable sample_order : nat -> list nat.

Definition py_str (v : value) : string :=
  match v with
  | VInt z => str_of_Z z
  | VFloat q => float_repr q
  | VBool b => if b then "True" else "False"
  | VStr s => s
  | VNaN => "nan"
  end.

(** The category levels of a column: its distinct values that are not
    missing, sorted. *)
Definition levels (vs : list value) : list value :=
  sort_by value_leb (remove_dups (List.filter notna vs)).

Definition dummy_columns (prefix : string) (lv : list value) : list (string * dtype) :=
  List.map (fun l => ((prefix ++ "_" ++ py_str l)%string, uint8)) lv.

Definition dummy_cells (lv : list value) (v : value) : list value :=
  List.map (fun l => VInt (if decide (v = l) then 1 else 0)) lv.

(** The columns to encode, each with its position and its levels. *)
Definition encoded (df : DataFrame) : list (nat * string * list value) :=
  List.map (fun jc => (fst jc, fst (snd jc), levels (column_values df (fst jc))))
    (List.filter (fun jc => is_object (snd jc))
       (combine (seq 0 (length (columns df))) (columns df))).

(** [pd.get_dummies(df)]: the columns that are not of dtype [object] stay,
    in order; after them each [object] column gives one indicator column
    per level, labelled [column_level], holding 1 in the rows of that
    level and 0 in the others (a missing value sets no indicator). *)
Definition get_dummies (df : DataFrame) : DataFrame :=
  let mask := List.map (fun c => negb (is_object c)) (columns df) in
  let enc := encoded df in
  {| columns :=
       select mask (columns df)
       ++ List.flat_map (fun e => dummy_columns (snd (fst e)) (snd e)) enc;
     rows :=
       List.map
         (fun r =>
            (fst r,
             select mask (snd r)
             ++ List.flat_map (fun e => dummy_cells (snd e) (cell (fst (fst e)) r)) enc))
         (rows df) |}.

(** [df.sample(frac=1, random_state=1729)]. *)
Definition sample (df : DataFrame) : DataFrame :=
  {| columns := columns df;
     rows := omap (fun i => rows df !! i) (sample_order (len df)) |}.

(** *** [preprocess.py], from the frame [pd.read_csv] returned *)

Definition drop_features (df : DataFrame) : result DataFrame :=
  let* df := drop_columns ["Phone"] df in
  let* df := astype_object "Area Code" df in
  drop_columns ["Day Charge"; "Eve Charge"; "Night Charge"; "Intl Charge"] df.

(** The label column first, then the other columns. *)
Definition label_first (model_data : DataFrame) : result DataFrame :=
  let* label := getitem "Churn?_True." model_data in
  let* features := drop_columns ["Churn?_False."; "Churn?_True."] model_data in
  Ok (concat_columns label features).

Definition model_data_of (df : DataFrame) : result DataFrame :=
  let* df := drop_features df in
  label_first (get_dummies df).

Definition split_data (model_data : DataFrame)
  : result (DataFrame * DataFrame * DataFrame) :=
  let shuffled := sample model_data in
  let* a := int_of_product m07 (len model_data) in
  let* b := int_of_product m09 (len model_data) in
  Ok (np_split shuffled a b).

Record csv_files :=
  { train_csv : list (list value);
    validation_csv : list (list value);
    test_csv : list (list value) }.

Definition preprocess (df : DataFrame) : result csv_files :=
  let* model_data := model_data_of df in
  let* parts := split_data model_data in
  Ok {| train_csv := to_csv (fst (fst parts));
        validation_csv := to_csv (snd (fst parts));
        test_csv := to_csv (snd parts) |}.

End Pandas.

(** ** [evaluate.py] *)

(** *** Reading [test.csv]

    A file is the list of its lines, a line the list of its fields, a
    field the value that was written there.
    [pd.read_csv(path, header=None)] skips blank lines; the first line
    that is not blank sets the number of columns; a later line with more
    fields is a [ParserError] (with the number of the line in the file),
    a line with fewer fields is filled up with missing values.  A file
    without a line that is not blank is an [EmptyDataError].

    [to_csv] writes a float as the shortest decimal that determines it.
    The parser of [read_csv] is fast rather than correctly rounded, so
    the float it makes of that text can differ from the float written:
    [strtod q] is the float read where [q] was written.  Every other
    field is read as the value written. *)
Definition read_value (strtod : Qc -> Qc) (v : value) : value :=
  match v with
  | VFloat q => VFloat (strtod q)
  | _ => v
  end.

Definition is_blank (line : list value) : bool :=
  match line with
  | [] => true
  | _ => false
  end.

Definition pad (width : nat) (line : list value) : list value :=
  line ++ repeat VNaN (width - length line).

Fixpoint parse_lines (strtod : Qc -> Qc) (width : option nat) (number : nat)
  (file : list (list value)) : result (list (list value)) :=
  match file with
  | [] => Ok []
  | line :: file' =>
      if is_blank line then parse_lines strtod width (S number) file'
      else
        match width with
        | None =>
            let* rest := parse_lines strtod (Some (length line)) (S number) file' in
            Ok (List.map (read_value strtod) line :: rest)
        | Some w =>
            if Nat.ltb w (length line) then Raise (ParserError w number (length line))
            else
              let* rest := parse_lines strtod width (S number) file' in
              Ok (pad w (List.map (read_value strtod) line) :: rest)
        end
  end.

Definition read_csv_headerless (strtod : Qc -> Qc) (file : list (list value))
  : result (list (list value)) :=
  let* df := parse_lines strtod None 1 file in
  match df with
  | [] => Raise EmptyDataError
  | _ => Ok df
  end.

(** [df.iloc[:, 0]] and the frame after [df.drop(df.columns[0], axis=1)]. *)
Definition first_column (df : list (list value)) : list value :=
  List.map (fun r => nth 0 r VNaN) df.

Definition drop_first_column (df : list (list value)) : list (list value) :=
  List.map (fun r => tail r) df.

(** [y_test] and [df.values] as the script has them before it predicts. *)
Definition load_test (strtod : Qc -> Qc) (file : list (list value))
  : result (list value * list (list value)) :=
  let* df := read_csv_headerless strtod file in
  Ok (first_column df, drop_first_column df).

(** [numpy.round]: to the nearest integer, halves to the even one. *)
Definition np_round (p : Qc) : Z :=
  let f := Qfloor p in
  match ((p - Q2Qc (inject_Z f)) ?= Q2Qc (1 # 2))%Qc with
  | Lt => f
  | Gt => (f + 1)%Z
  | Eq => if Z.even f then f else (f + 1)%Z
  end.

(** *** Double-precision arithmetic on the metrics

    The metrics are computed in [float64].  A double is kept as the
    rational it stands for; an operation of numpy gives the double nearest
    to the exact result: 53 significant bits, ties to the even
    significand.  The range of the exponent is not modelled: with row
    counts below [2^53] every value of the script lies between [2^-107]
    and 2. *)

(** [floor (log2 q)] for a positive rational. *)
Definition Qilog2 (q : Q) : Z :=
  let e := (Z.log2 (Qnum q) - Z.log2 (Z.pos (Qden q)))%Z in
  if Qle_bool (2 ^ e)%Q q then e else (e - 1)%Z.

Definition Qfl_pos (q : Q) : Q :=
  let s := (52 - Qilog2 q)%Z in
  (inject_Z (np_round (Q2Qc (q * 2 ^ s))) * 2 ^ (- s))%Q.

Definition Qfl (q : Q) : Q :=
  match Qnum q with
  | Z0 => 0%Q
  | Zpos _ => Qfl_pos q
  | Zneg _ => (- Qfl_pos (- q))%Q
  end.

(** The double nearest to a rational. *)
Definition fl (q : Qc) : Qc := Q2Qc (Qfl q).

Definition Zfrac (a b : Z) : Qc := Q2Qc (Qmake a (Z.to_pos b)).

(** *** The metrics *)

(** [y_test] is the first column as pandas types it.  A column of whole
    numbers, floats and missing values is an array of numbers, a column of
    [True] and [False] an array of booleans: for these targets the two
    metrics are embedded below.  (Whole numbers of [2^53] and more are
    left out: numpy compares them with the predictions as doubles.)  Any
    other column is an array of Python objects; what scikit-learn makes of
    such a target is not embedded, it is an input of the model. *)
Definition is_whole (q : Qc) : bool :=
  bool_decide (Q2Qc (inject_Z (Qfloor q)) = q).

Definition is_numeric (v : value) : bool :=
  match v with
  | VInt z => (Z.abs z <? 2 ^ 53)%Z
  | VFloat q => negb (is_whole q) || (Z.abs (Qfloor q) <? 2 ^ 53)%Z
  | VNaN => true
  | VBool _ | VStr _ => false
  end.

Definition is_boolean (v : value) : bool :=
  match v with
  | VBool _ => true
  | _ => false
  end.

Definition numeric_target (y_true : list value) : bool :=
  List.forallb is_numeric y_true || List.forallb is_boolean y_true.

(** A metric on the target [y_true]: [numbers] for an array of numbers or
    of booleans, [objects] for an array of objects. *)
Definition on_target (numbers objects : list value -> list Z -> result Qc)
  (y_true : list value) (y_pred : list Z) : result Qc :=
  if numeric_target y_true then numbers y_true y_pred else objects y_true y_pred.

(** The class label a cell of a numeric target stands for; scikit-learn
    rejects a target with a missing value or with a number that is not
    whole with a [ValueError] (its message is given here in short). *)
Definition label_of_value (v : value) : result Z :=
  match v with
  | VInt z => Ok z
  | VBool b => Ok (if b then 1 else 0)%Z
  | VFloat q =>
      if decide (Q2Qc (inject_Z (Qfloor q)) = q) then Ok (Qfloor q)
      else Raise (ValueError "continuous targets")
  | VStr _ => Raise (ValueError "mix of label input types")
  | VNaN => Raise (ValueError "Input contains NaN")
  end.

Fixpoint labels_of (vs : list value) : result (list Z) :=
  match vs with
  | [] => Ok []
  | v :: vs' =>
      let* z := label_of_value v in
      let* zs := labels_of vs' in
      Ok (z :: zs)
  end.

(** How many positions hold equal entries. *)
Fixpoint matches (y_true y_pred : list Z) : nat :=
  match y_true, y_pred with
  | y :: ys, p :: ps => (if (y =? p)%Z then 1 else 0) + matches ys ps
  | _, _ => 0
  end.

(** [check_consistent_length]. *)
Definition inconsistent_lengths (n m : nat) : exn :=
  ValueError ("Found input variables with inconsistent numbers of samples: ["
              ++ str_of_nat n ++ ", " ++ str_of_nat m ++ "]").

(** [sklearn.metrics.accuracy_score] for a target of numbers: the share
    of samples predicted right, [np.average] of the array of agreements:
    their number divided, in double precision, by the number of
    samples. *)
Definition accuracy_score (y_true : list value) (y_pred : list Z) : result Qc :=
  if negb (Nat.eqb (length y_true) (length y_pred))
  then Raise (inconsistent_lengths (length y_true) (length y_pred))
  else
    let* ys := labels_of y_true in
    Ok (fl (Zfrac (Z.of_nat (matches ys y_pred)) (Z.of_nat (length ys)))).

(** The scores of the samples of class [c]. *)
Definition scores_of (c : Z) (ys scores : list Z) : list Z :=
  List.map snd (List.filter (fun ys => (fst ys =? c)%Z) (combine ys scores)).

(** [roc_curve]: the thresholds are the distinct scores, from the
    greatest down; at each, the numbers of negatives ([fps]) and of
    positives ([tps]) scored at least that much. *)
Definition thresholds (scores : list Z) : list Z :=
  sorted_reverse (fun s => s) (remove_dups scores).

Definition count_at_least (t : Z) (scores : list Z) : Z :=
  Z.of_nat (length (List.filter (fun s => (t <=? s)%Z) scores)).

Definition binary_clf_curve (pos neg : list Z) : list (Z * Z) :=
  List.map (fun t => (count_at_least t neg, count_at_least t pos))
    (thresholds (pos ++ neg)).

(** [drop_intermediate=True]: of more than two points, one between the
    first and the last stays only where the curve turns (a second
    difference of [fps] or of [tps] is not zero). *)
Fixpoint corners (prev : Z * Z) (l : list (Z * Z)) : list (Z * Z) :=
  match l with
  | [] => []
  | cur :: rest =>
      match rest with
      | [] => [cur]
      | next :: _ =>
          if ((fst next - 2 * fst cur + fst prev =? 0)
              && (snd next - 2 * snd cur + snd prev =? 0))%Z
          then corners cur rest
          else cur :: corners cur rest
      end
  end.

Definition drop_intermediate (l : list (Z * Z)) : list (Z * Z) :=
  match l with
  | first :: ((_ :: _ :: _) as rest) => first :: corners first rest
  | _ => l
  end.

(** The points [(fpr, tpr)] of the curve: the origin, then each point
    kept, its counts divided by the number of negatives and of
    positives. *)
Definition roc_curve (pos neg : list Z) : list (Qc * Qc) :=
  List.map
    (fun p => (fl (Zfrac (fst p) (Z.of_nat (length neg))),
               fl (Zfrac (snd p) (Z.of_nat (length pos)))))
    ((0%Z, 0%Z) :: drop_intermediate (binary_clf_curve pos neg)).

(** [np.trapz(y, x)] is [(diff(x) * (y[1:] + y[:-1]) / 2.0).sum()]; one
    term of it: *)
Definition trapezoid (p0 p1 : Qc * Qc) : Qc :=
  fl (fl (fl (fst p1 - fst p0) * fl (snd p1 + snd p0)) / Q2Qc 2).

Fixpoint trapezoids (points : list (Qc * Qc)) : list Qc :=
  match points with
  | [] => []
  | p0 :: rest =>
      match rest with
      | [] => []
      | p1 :: _ => trapezoid p0 p1 :: trapezoids rest
      end
  end.

(** The sum of a [float64] array (numpy's pairwise summation): fewer than
    8 terms are added one after the other, from 0; up to 128 terms go to 8
    running sums, which are added in pairs, and the terms left over are
    added to the result; a longer array is cut near its middle, at a
    multiple of 8. *)
Definition add (a b : Qc) : Qc := fl (a + b).

Fixpoint running_sums (r l : list Qc) (blocks : nat) : list Qc * list Qc :=
  match blocks with
  | O => (r, l)
  | S blocks' => running_sums (zip_with add r (firstn 8 l)) (skipn 8 l) blocks'
  end.

Definition block_sum (l : list Qc) : Qc :=
  let rest := skipn 8 l in
  match running_sums (firstn 8 l) rest (length rest / 8) with
  | ([r0; r1; r2; r3; r4; r5; r6; r7], left_over) =>
      List.fold_left add left_over
        (add (add (add r0 r1) (add r2 r3)) (add (add r4 r5) (add r6 r7)))
  | _ => Q2Qc 0
  end.

Fixpoint pairwise (fuel : nat) (l : list Qc) : Qc :=
  let n := length l in
  if Nat.ltb n 8 then List.fold_left add l (Q2Qc 0)
  else if Nat.leb n 128 then block_sum l
  else
    match fuel with
    | O => Q2Qc 0
    | S fuel' =>
        let n2 := n / 2 - (n / 2) mod 8 in
        add (pairwise fuel' (firstn n2 l)) (pairwise fuel' (skipn n2 l))
    end.

Definition pairwise_sum (l : list Qc) : Qc := pairwise (length l) l.

(** [sklearn.metrics.auc]: the area under the points by the trapezoidal
    rule. *)
Definition auc (points : list (Qc * Qc)) : Qc := pairwise_sum (trapezoids points).

(** [sklearn.metrics.roc_auc_score] for a target of numbers.  For two
    classes: the area under the ROC curve; the greater label is the
    positive class. *)
Definition roc_auc_score (y_true : list value) (y_score : list Z) : result Qc :=
  let* ys := labels_of y_true in
  match remove_dups ys with
  | [c; c'] =>
      if negb (Nat.eqb (length y_true) (length y_score))
      then Raise (inconsistent_lengths (length y_true) (length y_score))
      else
        let pos := scores_of (Z.max c c') ys y_score in
        let neg := scores_of (Z.min c c') ys y_score in
        Ok (auc (roc_curve pos neg))
  | [] | [_] =>
      Raise (ValueError "Only one class present in y_true. ROC AUC score is not defined in that case.")
  | _ => Raise (ValueError "multi_class must be in ('ovo', 'ovr')")
  end.

(** The area, in doubles, under the curve through the origin, [(x, y)]
    and [(1, 1)]. *)
Definition three_point (x y : Qc) : Qc :=
  fl (fl (x * y) / Q2Qc 2 + fl (fl (1 - x) * fl (1 + y)) / Q2Qc 2).

(** Scores that are 0 or 1. *)
Definition binary (scores : list Z) : Prop := Forall (fun s => s = 0 \/ s = 1)%Z scores.

Definition report_dict (acc auc : Qc) : json :=
  JObj
    [("binary_classification_metrics",
      JObj
        [("accuracy", JObj [("value", JNum acc); ("standard_deviation", JStr "NaN")]);
         ("auc", JObj [("value", JNum auc); ("standard_deviation", JStr "NaN")])])].

(** *** The script

    What the script finds when it runs: the outcome of unpacking
    [model.tar.gz] into the parent directory, the outcome of unpickling
    the file [xgboost-model] of the working directory, the lines of
    [test.csv] and the floats pandas reads from their text, what
    [xgboost.DMatrix] makes of an array, what the two metrics of
    scikit-learn return for a target that is an array of objects, and the
    outcome of opening [evaluation.json] and writing to it.  A loaded model is what
    its [predict] returns for a matrix: the predictions, or an
    exception. *)
Section Evaluate.

Context {DMatrix : Type}.

Record Booster := { predict : DMatrix -> result (list Qc) }.

Record environment :=
  { extract_model : result unit;
    load_model : result Booster;
    test_file : list (list value);
    float_parser : Qc -> Qc;
    xgboost_DMatrix : list (list value) -> result DMatrix;
    accuracy_score_objects : list value -> list Z -> result Qc;
    roc_auc_score_objects : list value -> list Z -> result Qc;
    write_report : result unit }.

(** The script; the result is the document written to
    [evaluation.json]. *)
Definition evaluate (env : environment) : result json :=
  let* _ := extract_model env in
  let* model := load_model env in
  let* test := load_test (float_parser env) (test_file env) in
  let y_test := fst test in
  let* X_test := xgboost_DMatrix env (snd test) in
  let* predictions := predict model X_test in
  let rounded := List.map np_round predictions in
  let* acc := on_target accuracy_score (accuracy_score_objects env) y_test rounded in
  let* auc := on_target roc_auc_score (roc_auc_score_objects env) y_test rounded in
  let* _ := write_report env in
  Ok (report_dict acc auc).

End Evaluate.

Arguments Booster : clear implicits.
Arguments environment : clear implicits.

(** A run in which the archive unpacks, the model scores each row by
    itself, floats are read as they were written, every array makes a
    matrix, a target of objects is refused and the report can be
    written. *)
Definition row_model (model : list value -> Qc) : Booster (list (list value)) :=
  {| predict := fun X_test => Ok (List.map model X_test) |}.

Definition plain_run (model : list value -> Qc) (file : list (list value))
  : environment (list (list value)) :=
  {| extract_model := Ok tt;
     load_model := Ok (row_model model);
     test_file := file;
     float_parser := fun q => q;
     xgboost_DMatrix := fun values => Ok values;
     accuracy_score_objects := fun _ _ => Raise (ValueError "unknown is not supported");
     roc_auc_score_objects := fun _ _ => Raise (ValueError "unknown format is not supported");
     write_report := Ok tt |}.

(** ** More of the notebook and of the scripts *)

(** *** The input location ([preprocess.py]) *)

(** How often a character occurs in a string. *)
Fixpoint count_char (c : ascii) (s : string) : nat :=
  match s with
  | EmptyString => 0
  | String d s' => (if Ascii.eqb d c then 1 else 0) + count_char c s'
  end.

(** [bucket = input_data.split("/")[2]] and
    [key = "/".join(input_data.split("/")[3:])]. *)
Definition parse_input_data (input_data : string) : result (string * string) :=
  match nth_error (split_on "/" input_data) 2 with
  | None => Raise IndexError
  | Some bucket => Ok (bucket, join "/" (skipn 3 (split_on "/" input_data)))
  end.

(** *** Names made from the clock *)

Definition digit (n : Z) : ascii := ascii_of_nat (48 + Z.to_nat n).

Definition two_digits (n : Z) : string :=
  String (digit (n / 10)) (String (digit (n mod 10)) EmptyString).

(** [strftime("%M%S", gmtime())] at [t] seconds since the epoch. *)
Definition strftime_MS (t : Z) : string :=
  (two_digits ((t / 60) mod 60) ++ two_digits (t mod 60))%string.

(** [pipeline_name] and [model_name] when the cell runs at time [t]. *)
Definition pipeline_name_at (t : Z) : string :=
  ("CustomerChurn-Pipe-" ++ strftime_MS t)%string.

Definition model_name_at (t : Z) : string :=
  ("CustomerChurn-model-" ++ strftime_MS t)%string.

(** *** A cell by the label of its column *)

(** The cell of a row under the first column with the given label. *)
Fixpoint lookup_cell (cols : list (string * dtype)) (cells : list value)
  (label : string) : option value :=
  match cols, cells with
  | c :: cols', v :: cells' =>
      if String.eqb (fst c) label then Some v else lookup_cell cols' cells' label
  | _, _ => None
  end.

(** 1 for a customer whose "Churn?" reads "True.", 0 for any other. *)
Definition churn_indicator (df : DataFrame) (r : nat * list value) : value :=
  VInt (if decide (lookup_cell (columns df) (snd r) "Churn?" = Some (VStr "True."))
        then 1 else 0).

(** *** Counts behind the metrics ([evaluate.py]) *)

(** How many scores equal [s]. *)
Definition count_score (s : Z) (scores : list Z) : Z :=
  Z.of_nat (count_occ Z.eq_dec scores s).

(** ** A small churn table, for examples

    Ten customers with some of the columns of the churn data set. *)

Definition sample_columns : list (string * dtype) :=
  [("State", object); ("Area Code", int64); ("Phone", object);
   ("Int'l Plan", object); ("Day Mins", float64); ("Day Charge", float64);
   ("Eve Charge", float64); ("Night Charge", float64); ("Intl Charge", float64);
   ("CustServ Calls", int64); ("Churn?", object)].

Definition sample_row (i : nat) (state : string) (area : Z) (phone plan : string)
  (mins : Z) (calls : Z) (churn : string) : nat * list value :=
  (i,
   [VStr state; VInt area; VStr phone; VStr plan;
    VFloat (Q2Qc (mins # 10)); VFloat (Q2Qc (17 * mins # 1000));
    VFloat (Q2Qc (1678 # 100)); VFloat (Q2Qc (1101 # 100)); VFloat (Q2Qc (27 # 10));
    VInt calls; VStr churn]).

Definition churn_sample : DataFrame :=
  {| columns := sample_columns;
     rows :=
       [sample_row 0 "KS" 415 "382-4657" "no" 2651 1 "False.";
        sample_row 1 "OH" 415 "371-7191" "no" 1616 1 "False.";
        sample_row 2 "NJ" 415 "358-1921" "no" 2434 0 "False.";
        sample_row 3 "OH" 408 "375-9999" "yes" 2994 2 "False.";
        sample_row 4 "OK" 415 "330-6626" "yes" 1667 3 "True.";
        sample_row 5 "AL" 510 "391-8027" "yes" 2234 0 "False.";
        sample_row 6 "MA" 510 "355-9993" "no" 2184 3 "False.";
        sample_row 7 "MO" 415 "329-9001" "yes" 1571 0 "True.";
        sample_row 8 "LA" 408 "335-4719" "no" 1845 1 "False.";
        sample_row 9 "WV" 415 "330-8173" "yes" 2587 4 "True."] |}.

(** Two customers, neither of whom left. *)
Definition loyal_sample : DataFrame :=
  {| columns := sample_columns;
     rows :=
       [sample_row 0 "KS" 415 "382-4657" "no" 2651 1 "False.";
        sample_row 1 "OH" 408 "371-7191" "yes" 1616 1 "False."] |}.

(** Two customers of a table in which a numeric column of the raw data
    is labelled "Churn?_True." already. *)
Definition relabelled_sample : DataFrame :=
  {| columns :=
       [("Churn?_True.", int64); ("Area Code", int64); ("Phone", object);
        ("Day Charge", float64); ("Eve Charge", float64); ("Night Charge", float64);
        ("Intl Charge", float64); ("Churn?", object)];
     rows :=
       [(0, [VInt 9; VInt 415; VStr "382-4657"; VFloat (Q2Qc (4507 # 100));
             VFloat (Q2Qc (1678 # 100)); VFloat (Q2Qc (1101 # 100));
             VFloat (Q2Qc (27 # 10)); VStr "False."]);
        (1, [VInt 7; VInt 408; VStr "371-7191"; VFloat (Q2Qc (2747 # 100));
             VFloat (Q2Qc (1662 # 100)); VFloat (Q2Qc (1145 # 100));
             VFloat (Q2Qc (37 # 10)); VStr "True."])] |}.

(** Parameters for the examples: floats shown as a ratio, levels ordered
    within their type, rows drawn last to first. *)
Definition ratio_repr (q : Qc) : string :=
  (str_of_Z (Qnum (this q)) ++ "/" ++ str_of_Z (Z.pos (Qden (this q))))%string.

Definition level_leb (a b : value) : bool :=
  match a, b with
  | VInt x, VInt y => (x <=? y)%Z
  | VStr x, VStr y => String.leb x y
  | VInt _, _ => true
  | _, _ => false
  end.

Definition reversed_order (n : nat) : list nat := rev (seq 0 n).

(** * Properties *)

(** ** Strings and numbers *)

Lemma append_String (c : ascii) (a b : string) :
  (String c a ++ b)%string = String c (a ++ b)%string.
Proof. reflexivity. Qed.

Lemma prefix_iff_append (a b : string) :
  String.prefix a b = true <-> exists post, b = (a ++ post)%string.
Proof.
  revert b. induction a as [|c a IH]; intros b.
  - destruct b; simpl; (split; [intros _; eexists; reflexivity | reflexivity]).
  - destruct b as [|d b]; simpl.
    + split; [discriminate | intros [post H]; discriminate].
    + destruct (ascii_dec c d) as [->|Hne].
      * rewrite IH. split; intros [post H]; exists post;
          rewrite append_String in *; congruence.
      * split; [discriminate | intros [post H]; rewrite append_String in H; congruence].
Qed.

(** [str_in] is Python's substring test. *)
Lemma str_in_iff (needle hay : string) :
  str_in needle hay = true <->
  exists pre post, hay = (pre ++ needle ++ post)%string.
Proof.
  induction hay as [|c hay IH]; cbn [str_in].
  - rewrite orb_false_r, prefix_iff_append. split.
    + intros [post H]. exists EmptyString, post. exact H.
    + intros [pre [post H]]. destruct pre; [exists post; exact H | discriminate].
  - rewrite orb_true_iff, prefix_iff_append, IH. split.
    + intros [[post H] | [pre [post H]]].
      * exists EmptyString, post. exact H.
      * exists (String c pre), post. rewrite append_String. now rewrite H.
    + intros [pre [post H]]. destruct pre as [|d pre].
      * left. exists post. exact H.
      * right. rewrite append_String in H. inversion H. exists pre, post. reflexivity.
Qed.

Lemma Qc_geb_spec (x y : Qc) : Qc_geb x y = true <-> (y <= x)%Qc.
Proof.
  unfold Qc_geb. destruct (x ?= y)%Qc eqn:E.
  - apply Qceq_alt in E. subst. split; [intros _; apply Qcle_refl | reflexivity].
  - apply Qclt_alt in E. split; [discriminate | intros H].
    exfalso. exact (Qcle_not_lt _ _ H E).
  - apply Qcgt_alt in E. split; [intros _; apply Qclt_le_weak; exact E | reflexivity].
Qed.

(** *** Splitting and joining *)

Lemma append_EmptyString_r (s : string) : (s ++ EmptyString)%string = s.
Proof.
  induction s as [|c s IH]; [reflexivity|]. now rewrite append_String, IH.
Qed.

Lemma split_on_nonempty (sep : ascii) (s : string) : split_on sep s <> [].
Proof.
  destruct s as [|c s]; cbn [split_on]; [discriminate|].
  destruct (Ascii.eqb c sep); [discriminate|].
  destruct (split_on sep s); discriminate.
Qed.

Lemma length_split_on (sep : ascii) (s : string) :
  length (split_on sep s) = S (count_char sep s).
Proof.
  induction s as [|c s IH]; [reflexivity|].
  cbn [split_on count_char]. destruct (Ascii.eqb c sep).
  - cbn [length]. rewrite IH. reflexivity.
  - pose proof (split_on_nonempty sep s) as Hne.
    destruct (split_on sep s) as [|w ws]; [contradiction|].
    cbn [length] in *. lia.
Qed.

(** A part that holds no separator is split off whole. *)
Lemma split_on_part (sep : ascii) (a b : string) :
  count_char sep a = 0 ->
  split_on sep (a ++ String sep b) = a :: split_on sep b.
Proof.
  induction a as [|c a IH]; intros H.
  - cbn [split_on]. change (EmptyString ++ String sep b)%string with (String sep b).
    cbn [split_on]. now rewrite Ascii.eqb_refl.
  - rewrite append_String. cbn [count_char] in H. cbn [split_on].
    destruct (Ascii.eqb c sep); [discriminate|]. rewrite IH by exact H. reflexivity.
Qed.

Lemma split_on_parts_clean (sep : ascii) (s : string) :
  Forall (fun part => count_char sep part = 0) (split_on sep s).
Proof.
  induction s as [|c s IH]; cbn [split_on]; [repeat constructor|].
  destruct (Ascii.eqb c sep) eqn:E; [constructor; [reflexivity | exact IH]|].
  destruct (split_on sep s) as [|w ws]; [repeat constructor; cbn; now rewrite E|].
  apply Forall_cons in IH as [Hw Hws]. constructor; [|exact Hws].
  cbn [count_char]. now rewrite E, Hw.
Qed.

(** Joining the parts with the separator gives the string back. *)
Lemma join_split_on (sep : ascii) (s : string) :
  join (String sep EmptyString) (split_on sep s) = s.
Proof.
  induction s as [|c s IH]; [reflexivity|].
  pose proof (split_on_nonempty sep s) as Hne. cbn [split_on].
  destruct (Ascii.eqb c sep) eqn:E.
  - apply Ascii.eqb_eq in E. subst c. cbn [join].
    destruct (split_on sep s) as [|w ws]; [contradiction|].
    rewrite IH. reflexivity.
  - destruct (split_on sep s) as [|w ws]; [contradiction|].
    cbn [join] in *. destruct ws as [|w' ws].
    + now rewrite IH.
    + rewrite append_String, IH. reflexivity.
Qed.

(** ** The pipeline *)

Lemma eval_conditions_step_cond (report : json) (acc : Qc) :
  json_get report accuracy_path = Some (JNum acc) ->
  eval_conditions (files_with_report report) (step_conditions step_cond)
  = Some (Qc_geb acc threshold).
Proof.
  intros H. cbn [step_conditions step_cond eval_conditions eval_condition cond_lte].
  unfold eval_json_get. cbn [jg_step_name jg_property_file jg_json_path pf_name
    step_name step_eval evaluation_report files_with_report].
  change (split_on "." "binary_classification_metrics.accuracy.value")
    with accuracy_path.
  change (files_with_report report "CustomerChurnEval" "EvaluationReport")
    with (Some report).
  cbv iota beta. rewrite H. now rewrite andb_true_r.
Qed.

Lemma run_pipeline_with_accuracy (name : string) (report : json) (acc : Qc) :
  json_get report accuracy_path = Some (JNum acc) ->
  run_pipeline (files_with_report report) (pipeline name)
  = ["CustomerChurnProcess"; "CustomerChurnTrain"; "CustomerChurnEval";
     "CustomerChurnAccuracyCond"]
    ++ (if Qc_geb acc threshold then ["CustomerChurnRegisterModel"] else []).
Proof.
  intros H. unfold run_pipeline, pipeline. cbn [steps List.flat_map].
  change (run_step (files_with_report report) step_cond)
    with ("CustomerChurnAccuracyCond" ::
          match eval_conditions (files_with_report report) (step_conditions step_cond) with
          | Some true => List.flat_map (run_step (files_with_report report)) [step_register]
          | Some false => List.flat_map (run_step (files_with_report report)) []
          | None => []
          end).
  rewrite (eval_conditions_step_cond _ _ H).
  destruct (Qc_geb acc threshold); reflexivity.
Qed.

(** C1. The pipeline has the steps process, train, evaluate, condition in
    this order.  The condition compares the number at
    [binary_classification_metrics.accuracy.value] of the evaluation
    report with 0.8 by "greater than or equal"; its [if_steps] hold the
    register step alone and its [else_steps] are empty, so the register
    step runs exactly when the accuracy is at least 0.8, and nothing runs
    in its place otherwise. *)
Theorem pipeline_registers_only_above_threshold (name : string) :
  List.map step_name (steps (pipeline name))
  = ["CustomerChurnProcess"; "CustomerChurnTrain"; "CustomerChurnEval";
     "CustomerChurnAccuracyCond"]
  /\ steps (pipeline name) = [step_process; step_train; step_eval; step_cond]
  /\ step_conditions step_cond
     = [ConditionGreaterThanOrEqualTo
          {| jg_step_name := "CustomerChurnEval";
             jg_property_file := evaluation_report;
             jg_json_path := "binary_classification_metrics.accuracy.value" |}
          (Q2Qc (8 # 10))]
  /\ step_if_steps step_cond = [step_register]
  /\ step_else_steps step_cond = []
  /\ forall (report : json) (acc : Qc),
       json_get report (split_on "." "binary_classification_metrics.accuracy.value")
       = Some (JNum acc) ->
       (In "CustomerChurnRegisterModel"
          (run_pipeline (files_with_report report) (pipeline name))
        <-> (Q2Qc (8 # 10) <= acc)%Qc)
       /\ (~ (Q2Qc (8 # 10) <= acc)%Qc ->
           run_pipeline (files_with_report report) (pipeline name)
           = List.map step_name (steps (pipeline name))).
Proof.
  repeat split; try reflexivity.
  - intros Hin. rewrite (run_pipeline_with_accuracy name report acc H) in Hin.
    apply Qc_geb_spec. destruct (Qc_geb acc threshold) eqn:E; [exact E|].
    simpl in Hin. exfalso.
    repeat (destruct Hin as [Hin | Hin]; [discriminate Hin|]). exact Hin.
  - intros Hle. rewrite (run_pipeline_with_accuracy name report acc H).
    apply Qc_geb_spec in Hle. fold threshold in Hle. rewrite Hle.
    simpl. tauto.
  - intros Hlt. rewrite (run_pipeline_with_accuracy name report acc H).
    destruct (Qc_geb acc threshold) eqn:E; [|reflexivity].
    apply Qc_geb_spec in E. contradiction.
Qed.

(** A report with accuracy 0.85 registers the model, one with 0.75 does
    not. *)
Lemma pipeline_registers_only_above_threshold_witness :
  In "CustomerChurnRegisterModel"
    (run_pipeline (files_with_report (report_dict (Q2Qc (85 # 100)) (Q2Qc (1 # 2))))
       (pipeline "CustomerChurn-Pipe-0000"))
  /\ run_pipeline (files_with_report (report_dict (Q2Qc (75 # 100)) (Q2Qc (1 # 2))))
       (pipeline "CustomerChurn-Pipe-0000")
     = ["CustomerChurnProcess"; "CustomerChurnTrain"; "CustomerChurnEval";
        "CustomerChurnAccuracyCond"].
Proof.
  split.
  - apply (proj1 (proj2 (proj2 (proj2 (proj2 (proj2
      (pipeline_registers_only_above_threshold "CustomerChurn-Pipe-0000")))))
      (report_dict (Q2Qc (85 # 100)) (Q2Qc (1 # 2))) (Q2Qc (85 # 100)) eq_refl)).
    unfold Qcle, Qle. simpl. lia.
  - apply (proj2 (proj2 (proj2 (proj2 (proj2 (proj2
      (pipeline_registers_only_above_threshold "CustomerChurn-Pipe-0000")))))
      (report_dict (Q2Qc (75 # 100)) (Q2Qc (1 # 2))) (Q2Qc (75 # 100)) eq_refl)).
    unfold Qcle, Qle. simpl. lia.
Defined.

(** ** Creating the pipeline *)

(** C2. When [pipeline.create] raises a [ClientError] whose code is
    "ValidationError" and whose message contains "Pipeline names must be
    unique within", the cell prints the message and its [response] is the
    outcome of [pipeline.describe()]; every other [ClientError] leaves the
    cell as it was raised, and a successful creation is kept. *)
Theorem create_pipeline_duplicate_name_falls_back
  {R : Type} (error : client_error) (describe : result R) :
  (Code error = "ValidationError" ->
   (exists pre post,
      Message error = (pre ++ "Pipeline names must be unique within" ++ post)%string) ->
   create_pipeline (Raise (ClientError error)) describe
   = ([Print (Message error)], describe))
  /\ ((Code error <> "ValidationError"
       \/ ~ (exists pre post,
              Message error
              = (pre ++ "Pipeline names must be unique within" ++ post)%string)) ->
      create_pipeline (Raise (ClientError error)) describe
      = ([], Raise (ClientError error)))
  /\ (forall response : R, create_pipeline (Ok response) describe = ([], Ok response)).
Proof.
  unfold create_pipeline, is_duplicate_name. repeat split.
  - intros Hcode Hmsg. apply str_in_iff in Hmsg. rewrite Hcode, Hmsg. reflexivity.
  - intros [Hcode | Hmsg].
    + apply String.eqb_neq in Hcode. rewrite Hcode. reflexivity.
    + destruct (str_in _ (Message error)) eqn:E.
      * apply str_in_iff in E. contradiction.
      * rewrite andb_false_r. reflexivity.
Qed.

Lemma create_pipeline_duplicate_name_falls_back_witness :
  create_pipeline
    (Raise (ClientError
       {| Code := "ValidationError";
          Message := "Pipeline names must be unique within an AWS account and region" |}))
    (Ok "arn:aws:sagemaker:pipeline/customerchurn-pipe-0000")
  = ([Print "Pipeline names must be unique within an AWS account and region"],
     Ok "arn:aws:sagemaker:pipeline/customerchurn-pipe-0000")
  /\ create_pipeline
       (Raise (ClientError {| Code := "AccessDeniedException"; Message := "denied" |}))
       (Ok "arn:aws:sagemaker:pipeline/customerchurn-pipe-0000")
     = ([], Raise (ClientError {| Code := "AccessDeniedException"; Message := "denied" |})).
Proof.
  split.
  - apply (proj1 (create_pipeline_duplicate_name_falls_back
      {| Code := "ValidationError";
         Message := "Pipeline names must be unique within an AWS account and region" |}
      (Ok "arn:aws:sagemaker:pipeline/customerchurn-pipe-0000"))).
    + reflexivity.
    + exists EmptyString, " an AWS account and region". reflexivity.
  - apply (proj1 (proj2 (create_pipeline_duplicate_name_falls_back
      {| Code := "AccessDeniedException"; Message := "denied" |}
      (Ok "arn:aws:sagemaker:pipeline/customerchurn-pipe-0000")))).
    left. discriminate.
Defined.

(** ** The polling loops *)

Lemma poll_execution_exit (describe : nat -> execution_description) (arn : string) :
  forall fuel j tr st,
    poll_execution fuel describe arn j = Some (tr, st) ->
    exists k,
      k < fuel
      /\ (forall i, i < k -> PipelineExecutionStatus (describe (j + i)) = "Executing")
      /\ PipelineExecutionStatus (describe (j + k)) = st
      /\ st <> "Executing"
      /\ sleeps tr = repeat 15 k.
Proof.
  induction fuel as [|fuel IH]; intros j tr st H; [discriminate|].
  cbn [poll_execution] in H.
  destruct (String.eqb (PipelineExecutionStatus (describe j)) "Executing") eqn:E.
  - destruct (poll_execution fuel describe arn (S j)) as [[tr' st']|] eqn:E'; [|discriminate].
    inversion H; subst. destruct (IH _ _ _ E') as (k & Hk & Hbefore & Hat & Hne & Hsl).
    exists (S k). repeat split.
    + lia.
    + intros i Hi. destruct i as [|i].
      * rewrite Nat.add_0_r. now apply String.eqb_eq.
      * replace (j + S i) with (S j + i) by lia. apply Hbefore. lia.
    + replace (j + S k) with (S j + k) by lia. exact Hat.
    + exact Hne.
    + cbn [sleeps repeat]. now rewrite Hsl.
  - inversion H; subst. exists 0. rewrite Nat.add_0_r. repeat split.
    + lia.
    + intros i Hi. lia.
    + now apply String.eqb_neq.
Qed.

Lemma poll_execution_stuck (describe : nat -> execution_description) (arn : string) :
  forall fuel j,
    (forall i, i < fuel -> PipelineExecutionStatus (describe (j + i)) = "Executing") ->
    poll_execution fuel describe arn j = None.
Proof.
  induction fuel as [|fuel IH]; intros j H; [reflexivity|].
  assert (E : PipelineExecutionStatus (describe j) = "Executing").
  { rewrite <- (Nat.add_0_r j). apply H. lia. }
  cbn [poll_execution]. rewrite E, String.eqb_refl, IH; [reflexivity|].
  intros i Hi. replace (S j + i) with (j + S i) by lia. apply H. lia.
Qed.

Lemma poll_execution_returns (describe : nat -> execution_description) (arn : string) :
  forall k fuel j,
    (forall i, i < k -> PipelineExecutionStatus (describe (j + i)) = "Executing") ->
    PipelineExecutionStatus (describe (j + k)) <> "Executing" ->
    k < fuel ->
    exists tr,
      poll_execution fuel describe arn j
      = Some (tr, PipelineExecutionStatus (describe (j + k))).
Proof.
  induction k as [|k IH]; intros fuel j Hbefore Hat Hfuel;
    (destruct fuel as [|fuel]; [lia|]); cbn [poll_execution].
  - rewrite Nat.add_0_r in *. apply String.eqb_neq in Hat. rewrite Hat. eauto.
  - assert (E : PipelineExecutionStatus (describe j) = "Executing").
    { rewrite <- (Nat.add_0_r j). apply Hbefore. lia. }
    rewrite E, String.eqb_refl.
    destruct (IH fuel (S j)) as [tr Htr].
    + intros i Hi. replace (S j + i) with (j + S i) by lia. apply Hbefore. lia.
    + replace (S j + k) with (j + S k) by lia. exact Hat.
    + lia.
    + rewrite Htr. replace (S j + k) with (j + S k) by lia. eauto.
Qed.

Lemma sleeps_app (tr1 tr2 : list event) : sleeps (tr1 ++ tr2) = sleeps tr1 ++ sleeps tr2.
Proof.
  induction tr1 as [|e tr1 IH]; [reflexivity|].
  destruct e; cbn [sleeps app]; rewrite IH; reflexivity.
Qed.

Lemma wait_loop_exit (describe : nat -> endpoint_description) (p : nat) :
  forall fuel j tr r,
    wait_loop fuel describe p j = Some (tr, r) ->
    exists k,
      k < fuel
      /\ (forall i, i < k -> EndpointStatus (describe (j + i)) = "Creating")
      /\ EndpointStatus (describe (j + k)) <> "Creating"
      /\ match r with
         | Ok st =>
             st = EndpointStatus (describe (j + k)) /\ st <> "Failed"
             /\ sleeps tr = repeat p (S k)
         | Raise e =>
             EndpointStatus (describe (j + k)) = "Failed"
             /\ sleeps tr = repeat p k
             /\ e = match FailureReason (describe (j + k)) with
                    | Some _ => Exception "Creating Endpoint failed"
                    | None => KeyError "FailureReason"
                    end
         end.
Proof.
  induction fuel as [|fuel IH]; intros j tr r H; [discriminate|].
  cbn [wait_loop] in H.
  destruct (String.eqb (EndpointStatus (describe j)) "Failed") eqn:EF.
  - apply String.eqb_eq in EF. exists 0. rewrite Nat.add_0_r.
    split; [lia|]. split; [intros i Hi; lia|]. split; [rewrite EF; discriminate|].
    destruct (FailureReason (describe j)); inversion H; subst; auto.
  - destruct (String.eqb (EndpointStatus (describe j)) "Creating") eqn:EC.
    + destruct (wait_loop fuel describe p (S j)) as [[tr' r']|] eqn:E'; [|discriminate].
      inversion H; subst. destruct (IH _ _ _ E') as (k & Hk & Hbefore & Hat & Hr).
      apply String.eqb_eq in EC.
      exists (S k). replace (j + S k) with (S j + k) by lia.
      split; [lia|]. split.
      { intros i Hi. destruct i as [|i]; [now rewrite Nat.add_0_r|].
        replace (j + S i) with (S j + i) by lia. apply Hbefore. lia. }
      split; [exact Hat|].
      destruct r as [st|e].
      * destruct Hr as (-> & Hnf & Hsl). repeat split; [exact Hnf|].
        cbn [app sleeps]. rewrite Hsl. reflexivity.
      * destruct Hr as (Hf & Hsl & He). repeat split; [exact Hf| |exact He].
        cbn [app sleeps]. rewrite Hsl. reflexivity.
    + inversion H; subst. exists 0. rewrite Nat.add_0_r.
      split; [lia|]. split; [intros i Hi; lia|].
      split; [now apply String.eqb_neq|].
      repeat split. now apply String.eqb_neq.
Qed.

Lemma wait_loop_stuck (describe : nat -> endpoint_description) (p : nat) :
  forall fuel j,
    (forall i, i < fuel -> EndpointStatus (describe (j + i)) = "Creating") ->
    wait_loop fuel describe p j = None.
Proof.
  induction fuel as [|fuel IH]; intros j H; [reflexivity|].
  assert (E : EndpointStatus (describe j) = "Creating").
  { rewrite <- (Nat.add_0_r j). apply H. lia. }
  cbn [wait_loop]. rewrite E. cbn [String.eqb Ascii.eqb Bool.eqb].
  rewrite IH; [reflexivity|].
  intros i Hi. replace (S j + i) with (j + S i) by lia. apply H. lia.
Qed.

(** While the endpoint is being created the loop goes on; the first other
    status ends it. *)
Lemma wait_loop_unroll (describe : nat -> endpoint_description) (p : nat) :
  forall k fuel j,
    (forall i, i < k -> EndpointStatus (describe (j + i)) = "Creating") ->
    wait_loop (k + fuel) describe p j
    = match wait_loop fuel describe p (j + k) with
      | Some (tr, r) => Some (concat (repeat (creating_trace p) k) ++ tr, r)
      | None => None
      end.
Proof.
  induction k as [|k IH]; intros fuel j H.
  - rewrite Nat.add_0_r. cbn [Nat.add repeat concat app].
    destruct (wait_loop fuel describe p j) as [[tr r]|]; reflexivity.
  - assert (E : EndpointStatus (describe j) = "Creating").
    { rewrite <- (Nat.add_0_r j). apply H. lia. }
    cbn [Nat.add wait_loop]. rewrite E. cbn [String.eqb Ascii.eqb Bool.eqb].
    rewrite IH.
    + replace (S j + k) with (j + S k) by lia.
      destruct (wait_loop fuel describe p (j + S k)) as [[tr r]|]; [|reflexivity].
      cbn [repeat concat]. rewrite <- (app_assoc (creating_trace p)). reflexivity.
    + intros i Hi. replace (S j + i) with (j + S i) by lia. apply H. lia.
Qed.

Lemma wait_loop_failed (describe : nat -> endpoint_description) (p : nat)
  (k fuel : nat) (message : string) :
  (forall i, i < k -> EndpointStatus (describe i) = "Creating") ->
  EndpointStatus (describe k) = "Failed" ->
  FailureReason (describe k) = Some message ->
  k < fuel ->
  wait_loop fuel describe p 0
  = Some (concat (repeat (creating_trace p) k) ++ failure_trace message,
          Raise (Exception "Creating Endpoint failed")).
Proof.
  intros Hbefore Hat Hmsg Hfuel.
  replace fuel with (k + S (fuel - S k)) by lia.
  rewrite wait_loop_unroll by exact Hbefore.
  cbn [Nat.add wait_loop]. rewrite Hat, Hmsg. reflexivity.
Qed.

Lemma wait_loop_returns (describe : nat -> endpoint_description) (p : nat)
  (k fuel : nat) :
  (forall i, i < k -> EndpointStatus (describe i) = "Creating") ->
  EndpointStatus (describe k) <> "Creating" ->
  k < fuel ->
  exists tr r, wait_loop fuel describe p 0 = Some (tr, r).
Proof.
  intros Hbefore Hat Hfuel.
  replace fuel with (k + S (fuel - S k)) by lia.
  rewrite wait_loop_unroll by exact Hbefore.
  cbn [Nat.add wait_loop]. apply String.eqb_neq in Hat. rewrite Hat.
  destruct (String.eqb (EndpointStatus (describe k)) "Failed");
    [destruct (FailureReason (describe k))|]; eauto.
Qed.

(** C3, as amended.  When [describe_endpoint] reports the status "Failed"
    (after any number of "Creating" responses), [wait_for_response] logs
    and prints the [FailureReason] of that response and then raises
    [Exception('Creating Endpoint failed')]: the reason is in the output,
    the exception has a fixed text. *)
Theorem wait_for_response_failure_prints_reason
  (describe : nat -> endpoint_description) (poll_interval k fuel : nat)
  (message : string) :
  (forall i, i < k -> EndpointStatus (describe i) = "Creating") ->
  EndpointStatus (describe k) = "Failed" ->
  FailureReason (describe k) = Some message ->
  k < fuel ->
  wait_for_response fuel describe poll_interval
  = Some (concat (repeat (creating_trace poll_interval) k) ++ failure_trace message,
          Raise (Exception "Creating Endpoint failed")).
Proof.
  intros Hbefore Hat Hmsg Hfuel. unfold wait_for_response.
  rewrite (wait_loop_failed describe poll_interval k fuel message Hbefore Hat Hmsg Hfuel).
  reflexivity.
Qed.

(** Two "Creating" responses, then a failure for lack of capacity. *)
Lemma wait_for_response_failure_prints_reason_witness :
  wait_for_response 5
    (fun k => if Nat.ltb k 2 then {| EndpointStatus := "Creating"; FailureReason := None |}
              else {| EndpointStatus := "Failed";
                      FailureReason := Some "ResourceLimitExceeded" |})
    30
  = Some (creating_trace 30 ++ creating_trace 30 ++ failure_trace "ResourceLimitExceeded",
          Raise (Exception "Creating Endpoint failed")).
Proof.
  apply (wait_for_response_failure_prints_reason
           (fun k => if Nat.ltb k 2 then {| EndpointStatus := "Creating"; FailureReason := None |}
                     else {| EndpointStatus := "Failed";
                             FailureReason := Some "ResourceLimitExceeded" |})
           30 2 5 "ResourceLimitExceeded").
  - intros i Hi. destruct i as [|[|i]]; [reflexivity | reflexivity | lia].
  - reflexivity.
  - reflexivity.
  - lia.
Defined.

(** C3, as stated, fails: the exception raised on a failure with the
    reason "ResourceLimitExceeded" has the text "Creating Endpoint
    failed", in which the reason does not occur. *)
Lemma wait_for_response_exception_lacks_reason :
  exists tr e,
    wait_for_response 1
      (fun _ => {| EndpointStatus := "Failed";
                   FailureReason := Some "ResourceLimitExceeded" |})
      30
    = Some (tr, Raise e)
    /\ In (Print "Endpoint failed with the following error: ResourceLimitExceeded") tr
    /\ exn_text e = "Creating Endpoint failed"
    /\ str_in "ResourceLimitExceeded" (exn_text e) = false.
Proof.
  eexists. eexists. split; [reflexivity|].
  split; [simpl; tauto|]. split; reflexivity.
Qed.

(** C4, as amended.  The loop that waits for the pipeline execution
    sleeps 15 seconds after every response with the status "Executing" and
    ends at the first response with another status, final or not; the
    loop of [wait_for_response] sleeps [poll_interval] seconds (30 by
    default and in the notebook) between calls and ends at the first
    response whose status is not "Creating".  Neither loop ends while the
    status stays "Executing", respectively "Creating"; each ends once
    another status is seen. *)
Theorem polling_loops_end_at_first_other_status :
  (forall fuel describe arn tr st,
     poll_execution fuel describe arn 0 = Some (tr, st) ->
     exists k,
       k < fuel
       /\ (forall i, i < k -> PipelineExecutionStatus (describe i) = "Executing")
       /\ PipelineExecutionStatus (describe k) = st
       /\ st <> "Executing"
       /\ sleeps tr = repeat 15 k)
  /\ (forall fuel describe arn,
        (forall i, i < fuel -> PipelineExecutionStatus (describe i) = "Executing") ->
        poll_execution fuel describe arn 0 = None)
  /\ (forall fuel describe arn k,
        (forall i, i < k -> PipelineExecutionStatus (describe i) = "Executing") ->
        PipelineExecutionStatus (describe k) <> "Executing" ->
        k < fuel ->
        exists tr,
          poll_execution fuel describe arn 0
          = Some (tr, PipelineExecutionStatus (describe k)))
  /\ default_poll_interval = 30
  /\ (forall fuel describe poll_interval tr r,
        wait_for_response fuel describe poll_interval = Some (tr, r) ->
        exists k,
          k < fuel
          /\ (forall i, i < k -> EndpointStatus (describe i) = "Creating")
          /\ EndpointStatus (describe k) <> "Creating"
          /\ sleeps tr
             = repeat poll_interval
                 (if String.eqb (EndpointStatus (describe k)) "Failed" then k else S k))
  /\ (forall fuel describe poll_interval,
        (forall i, i < fuel -> EndpointStatus (describe i) = "Creating") ->
        wait_for_response fuel describe poll_interval = None)
  /\ (forall fuel describe poll_interval k,
        (forall i, i < k -> EndpointStatus (describe i) = "Creating") ->
        EndpointStatus (describe k) <> "Creating" ->
        k < fuel ->
        exists tr r, wait_for_response fuel describe poll_interval = Some (tr, r)).
Proof.
  split; [|split; [|split; [|split; [|split; [|split]]]]].
  - intros fuel describe arn tr st H.
    exact (poll_execution_exit describe arn fuel 0 tr st H).
  - intros fuel describe arn H. apply poll_execution_stuck. exact H.
  - intros fuel describe arn k Hbefore Hat Hfuel.
    exact (poll_execution_returns describe arn k fuel 0 Hbefore Hat Hfuel).
  - reflexivity.
  - intros fuel describe p tr r H. unfold wait_for_response in H.
    destruct (wait_loop fuel describe p 0) as [[tr' r']|] eqn:E; [|discriminate].
    destruct (wait_loop_exit describe p fuel 0 tr' r' E) as (k & Hk & Hbefore & Hat & Hr).
    exists k. cbn [Nat.add] in *. repeat split; try assumption.
    destruct r' as [st|e].
    + destruct Hr as (-> & Hnf & Hsl). apply String.eqb_neq in Hnf. rewrite Hnf.
      destruct (String.eqb (EndpointStatus (describe k)) "InService");
        inversion H; subst; [|exact Hsl].
      rewrite sleeps_app, Hsl. cbn [sleeps]. apply app_nil_r.
    + destruct Hr as (Hf & Hsl & He). inversion H; subst.
      rewrite Hf. exact Hsl.
  - intros fuel describe p H. unfold wait_for_response.
    rewrite wait_loop_stuck; [reflexivity | exact H].
  - intros fuel describe p k Hbefore Hat Hfuel. unfold wait_for_response.
    destruct (wait_loop_returns describe p k fuel Hbefore Hat Hfuel) as (tr & r & ->).
    destruct r as [st|e]; [destruct (String.eqb st "InService")|]; eauto.
Qed.

(** Two polls see "Executing", the third sees "Succeeded": the loop ends
    there, after two sleeps of 15 seconds. *)
Lemma polling_loops_end_at_first_other_status_witness :
  exists tr,
    poll_execution 10
      (fun k => {| PipelineExecutionStatus := if Nat.ltb k 2 then "Executing" else "Succeeded" |})
      "arn:aws:sagemaker:pipeline/customerchurn/execution/1" 0
    = Some (tr, "Succeeded").
Proof.
  apply (proj1 (proj2 (proj2 polling_loops_end_at_first_other_status)) 10
           (fun k => {| PipelineExecutionStatus :=
                          if Nat.ltb k 2 then "Executing" else "Succeeded" |})
           "arn:aws:sagemaker:pipeline/customerchurn/execution/1" 2).
  - intros i Hi. destruct i as [|[|i]]; [reflexivity | reflexivity | lia].
  - discriminate.
  - lia.
Defined.

(** C4, as stated, fails: "Stopping" is a status of an execution that is
    not final, and the loop that waits for the execution ends on it, at
    the first poll and without a sleep. *)
Lemma poll_execution_ends_on_stopping :
  In "Stopping" execution_statuses
  /\ is_terminal_execution_status "Stopping" = false
  /\ poll_execution 1 (fun _ => {| PipelineExecutionStatus := "Stopping" |})
       "arn:aws:sagemaker:pipeline/customerchurn/execution/1" 0
     = Some ([Print "Stopping arn:aws:sagemaker:pipeline/customerchurn/execution/1"],
             "Stopping").
Proof.
  split; [cbn; tauto|]. split; reflexivity.
Qed.

(** ** Approving the newest model package *)

Section SortedReverse.

Context {A : Type} (key : A -> Z).

Lemma insert_desc_perm (x : A) (l : list A) :
  Permutation (insert_desc key x l) (x :: l).
Proof.
  induction l as [|y l IH]; cbn [insert_desc]; [reflexivity|].
  destruct (key x <? key y)%Z; [|reflexivity].
  rewrite IH. apply perm_swap.
Qed.

Lemma sorted_reverse_perm (l : list A) : Permutation (sorted_reverse key l) l.
Proof.
  induction l as [|x l IH]; [reflexivity|].
  unfold sorted_reverse in *. cbn [List.fold_right].
  rewrite insert_desc_perm. now apply perm_skip.
Qed.

(** The result is in descending order of the key. *)
Lemma insert_desc_sorted (x : A) (l : list A) :
  StronglySorted (fun a b => (key b <= key a)%Z) l ->
  StronglySorted (fun a b => (key b <= key a)%Z) (insert_desc key x l).
Proof.
  induction 1 as [|y l Hs IH Hy]; cbn [insert_desc].
  - repeat constructor.
  - destruct (key x <? key y)%Z eqn:E.
    + apply Z.ltb_lt in E. constructor; [exact IH|].
      apply List.Forall_forall. intros z Hz.
      apply (Permutation_in _ (insert_desc_perm x l)) in Hz.
      destruct Hz as [<-|Hz]; [lia|].
      rewrite List.Forall_forall in Hy. now apply Hy.
    + apply Z.ltb_ge in E. constructor; [now constructor|].
      constructor; [exact E|].
      rewrite List.Forall_forall in Hy |- *. intros z Hz. specialize (Hy z Hz). lia.
Qed.

Lemma sorted_reverse_sorted (l : list A) :
  StronglySorted (fun a b => (key b <= key a)%Z) (sorted_reverse key l).
Proof.
  induction l as [|x l IH]; [constructor|].
  unfold sorted_reverse in *. cbn [List.fold_right]. now apply insert_desc_sorted.
Qed.

(** The first entry of the result is the earliest entry of the input whose
    key is greatest. *)
Lemma sorted_reverse_head (l : list A) (best : A) (rest : list A) :
  sorted_reverse key l = best :: rest ->
  (forall q, In q l -> (key q <= key best)%Z)
  /\ exists pre post,
       l = pre ++ best :: post /\ forall q, In q pre -> (key q < key best)%Z.
Proof.
  intros H. split.
  - intros q Hq.
    apply (Permutation_in _ (Permutation_sym (sorted_reverse_perm l))) in Hq.
    pose proof (sorted_reverse_sorted l) as Hs. rewrite H in Hs, Hq.
    inversion Hs as [|? ? _ Hall]; subst.
    destruct Hq as [<-|Hq]; [lia|].
    rewrite List.Forall_forall in Hall. now apply Hall.
  - revert best rest H. induction l as [|x l IH]; intros best rest H; [discriminate|].
    unfold sorted_reverse in *. cbn [List.fold_right] in H.
    destruct (List.fold_right (insert_desc key) [] l) as [|y t] eqn:E.
    + cbn [insert_desc] in H. inversion H; subst.
      exists [], l. split; [reflexivity | intros q []].
    + cbn [insert_desc] in H. destruct (key x <? key y)%Z eqn:Elt.
      * inversion H; subst. destruct (IH best t eq_refl) as (pre & post & -> & Hpre).
        exists (x :: pre), post. split; [reflexivity|].
        intros q [<-|Hq]; [now apply Z.ltb_lt | now apply Hpre].
      * inversion H; subst. exists [], l. split; [reflexivity | intros q []].
Qed.

Lemma sorted_reverse_nil (l : list A) : sorted_reverse key l = [] <-> l = [].
Proof.
  split; [|intros ->; reflexivity].
  intros H. pose proof (sorted_reverse_perm l) as Hp. rewrite H in Hp.
  now apply Permutation_nil.
Qed.

End SortedReverse.

(** C7. From a listing that is not empty, the approval picks the package
    that comes first once the listing is sorted by [CreationTime] in
    descending order: no listed package is newer (and of the newest ones
    it is the one listed first).  It sets the [ModelApprovalStatus] of
    that package to "Approved"; every other package of the registry stays
    as it was. *)
Theorem approve_latest_approves_newest
  (p : ModelPackageSummary) (ps : list ModelPackageSummary)
  (registry : gmap string ModelPackageSummary) :
  exists best rest,
    sorted_reverse CreationTime (p :: ps) = best :: rest
    /\ In best (p :: ps)
    /\ (forall q, In q (p :: ps) -> (CreationTime q <= CreationTime best)%Z)
    /\ (exists pre post,
          p :: ps = pre ++ best :: post
          /\ forall q, In q pre -> (CreationTime q < CreationTime best)%Z)
    /\ latest_model_package_arn (p :: ps) = Ok (ModelPackageArn best)
    /\ approve_latest (p :: ps) registry
       = Ok (ModelPackageArn best,
             update_model_package (ModelPackageArn best) "Approved" registry)
    /\ update_model_package (ModelPackageArn best) "Approved" registry
         !! ModelPackageArn best
       = set_approval "Approved" <$> registry !! ModelPackageArn best
    /\ (forall q, ModelApprovalStatus (set_approval "Approved" q) = "Approved"
                  /\ ModelPackageArn (set_approval "Approved" q) = ModelPackageArn q
                  /\ CreationTime (set_approval "Approved" q) = CreationTime q)
    /\ (forall arn, arn <> ModelPackageArn best ->
          update_model_package (ModelPackageArn best) "Approved" registry !! arn
          = registry !! arn).
Proof.
  destruct (sorted_reverse CreationTime (p :: ps)) as [|best rest] eqn:E.
  { apply sorted_reverse_nil in E. discriminate. }
  destruct (sorted_reverse_head CreationTime _ _ _ E) as (Hmax & Hfirst).
  exists best, rest. split; [reflexivity|]. split.
  { apply (Permutation_in _ (sorted_reverse_perm CreationTime (p :: ps))).
    rewrite E. now left. }
  split; [exact Hmax|]. split; [exact Hfirst|].
  assert (Hlatest : latest_model_package_arn (p :: ps) = Ok (ModelPackageArn best)).
  { unfold latest_model_package_arn. now rewrite E. }
  split; [exact Hlatest|]. split.
  { unfold approve_latest. rewrite Hlatest. reflexivity. }
  unfold update_model_package. split; [apply lookup_alter_eq|].
  split; [intros q; repeat split|].
  intros arn Hne. apply lookup_alter_ne. congruence.
Qed.

(** C10. Selecting the newest package succeeds exactly when the listing
    is not empty and raises [IndexError] on an empty one.  In particular,
    when the accuracy in the evaluation report is below 0.8 the pipeline
    does not run the register step, a group that was empty stays empty,
    and the selection (hence the approval) raises [IndexError]. *)
Theorem latest_model_package_needs_a_package :
  latest_model_package_arn [] = Raise IndexError
  /\ (forall packages,
        packages <> [] <-> exists arn, latest_model_package_arn packages = Ok arn)
  /\ (forall packages,
        packages = [] <-> latest_model_package_arn packages = Raise IndexError)
  /\ (forall name report acc registered registry,
        json_get report accuracy_path = Some (JNum acc) ->
        (acc < threshold)%Qc ->
        let ran := run_pipeline (files_with_report report) (pipeline name) in
        ~ In "CustomerChurnRegisterModel" ran
        /\ packages_after_run ran registered [] = []
        /\ latest_model_package_arn (packages_after_run ran registered [])
           = Raise IndexError
        /\ approve_latest (packages_after_run ran registered []) registry
           = Raise IndexError).
Proof.
  assert (Hnil : forall packages,
             packages = [] <-> latest_model_package_arn packages = Raise IndexError).
  { intros packages. unfold latest_model_package_arn.
    destruct (sorted_reverse CreationTime packages) as [|b rest] eqn:E.
    - apply sorted_reverse_nil in E. tauto.
    - split; [|discriminate]. intros ->. discriminate. }
  split; [reflexivity|]. split; [|split; [exact Hnil|]].
  - intros packages. rewrite Hnil. unfold latest_model_package_arn.
    destruct (sorted_reverse CreationTime packages); split; try congruence; eauto.
    intros [arn H]. discriminate.
  - intros name report acc registered registry Hacc Hlt ran.
    assert (Hran : ran = ["CustomerChurnProcess"; "CustomerChurnTrain";
                          "CustomerChurnEval"; "CustomerChurnAccuracyCond"]).
    { unfold ran. rewrite (run_pipeline_with_accuracy name report acc Hacc).
      destruct (Qc_geb acc threshold) eqn:E; [|reflexivity].
      apply Qc_geb_spec in E. exfalso. exact (Qcle_not_lt _ _ E Hlt). }
    rewrite Hran. split.
    + simpl. intros H. repeat (destruct H as [H|H]; [discriminate H|]). exact H.
    + repeat split.
Qed.

(** A report with accuracy 0.75: nothing is registered and the approval
    fails on the empty group. *)
Lemma latest_model_package_needs_a_package_witness :
  approve_latest
    (packages_after_run
       (run_pipeline (files_with_report (report_dict (Q2Qc (75 # 100)) (Q2Qc (1 # 2))))
          (pipeline "CustomerChurn-Pipe-0000"))
       {| ModelPackageArn := "arn:aws:sagemaker:model-package/customerchurnpackagegroup/1";
          CreationTime := 1700000000;
          ModelApprovalStatus := "Approved" |}
       [])
    ∅
  = Raise IndexError.
Proof.
  apply (proj2 (proj2 (proj2 latest_model_package_needs_a_package))
           "CustomerChurn-Pipe-0000"
           (report_dict (Q2Qc (75 # 100)) (Q2Qc (1 # 2))) (Q2Qc (75 # 100))).
  - reflexivity.
  - unfold Qclt, Qlt. simpl. lia.
Defined.

(** ** Double-precision arithmetic *)

Lemma np_round_compare (p : Qc) :
  np_round p
  = let f := Qfloor p in
    match (p - inject_Z f ?= 1 # 2)%Q with
    | Lt => f
    | Gt => (f + 1)%Z
    | Eq => if Z.even f then f else (f + 1)%Z
    end.
Proof.
  unfold np_round. cbv zeta.
  assert (H : ((p - Q2Qc (inject_Z (Qfloor p)))%Qc ?= Q2Qc (1 # 2))%Qc
              = (p - inject_Z (Qfloor p) ?= 1 # 2)%Q).
  { unfold Qccompare, Qcminus, Qcplus, Qcopp. cbn [this Q2Qc].
    rewrite !Qred_correct. reflexivity. }
  rewrite H. reflexivity.
Qed.

Local Open Scope Q_scope.

Lemma np_round_Q (x : Q) :
  np_round (Q2Qc x)
  = let f := Qfloor x in
    match (x - inject_Z f ?= 1 # 2)%Q with
    | Lt => f
    | Gt => (f + 1)%Z
    | Eq => if Z.even f then f else (f + 1)%Z
    end.
Proof.
  rewrite np_round_compare. cbn [this Q2Qc]. cbv zeta.
  assert (Hf : Qfloor (Qred x) = Qfloor x) by apply Qfloor_comp, Qred_correct.
  rewrite Hf.
  assert (Hc : (Qred x - inject_Z (Qfloor x) ?= 1 # 2) = (x - inject_Z (Qfloor x) ?= 1 # 2)).
  { apply Qcompare_comp; [|reflexivity]. now rewrite Qred_correct. }
  rewrite Hc. reflexivity.
Qed.

Lemma np_round_near (x : Q) :
  x - (1 # 2) <= inject_Z (np_round (Q2Qc x))
  /\ inject_Z (np_round (Q2Qc x)) <= x + (1 # 2).
Proof.
  rewrite np_round_Q. cbv zeta.
  pose proof (Qfloor_le x) as Hl. pose proof (Qlt_floor x) as Hu.
  rewrite inject_Z_plus in Hu. change (inject_Z 1) with 1 in Hu.
  destruct (x - inject_Z (Qfloor x) ?= 1 # 2) eqn:E;
    [apply Qeq_alt in E | apply Qlt_alt in E | apply Qgt_alt in E];
    try (destruct (Z.even (Qfloor x))); rewrite ?inject_Z_plus;
    change (inject_Z 1) with 1; split; lra.
Qed.

Lemma np_round_inject_Z (z : Z) : np_round (Q2Qc (inject_Z z)) = z.
Proof.
  rewrite np_round_Q. cbv zeta. rewrite Qfloor_Z.
  assert (E : (inject_Z z - inject_Z z ?= 1 # 2) = Lt).
  { apply Qlt_alt. setoid_replace (inject_Z z - inject_Z z) with 0 using relation Qeq by ring. reflexivity. }
  now rewrite E.
Qed.

Lemma np_round_proper (x y : Q) : x == y -> np_round (Q2Qc x) = np_round (Q2Qc y).
Proof.
  intros H. rewrite !np_round_Q. cbv zeta.
  assert (Hf : Qfloor x = Qfloor y) by now apply Qfloor_comp.
  rewrite Hf.
  assert (Hc : (x - inject_Z (Qfloor y) ?= 1 # 2) = (y - inject_Z (Qfloor y) ?= 1 # 2)).
  { apply Qcompare_comp; [|reflexivity]. now rewrite H. }
  now rewrite Hc.
Qed.

Lemma Qpow2_pos (e : Z) : 0 < 2 ^ e.
Proof. apply Qpower_0_lt. reflexivity. Qed.

Lemma Qpow2_add (a b : Z) : (2 : Q) ^ (a + b) == 2 ^ a * 2 ^ b.
Proof. apply Qpower_plus. discriminate. Qed.

Lemma Qpow2_inv (a : Z) : (2 : Q) ^ a * 2 ^ (- a) == 1.
Proof. rewrite <- Qpow2_add, Z.add_opp_diag_r. reflexivity. Qed.

Lemma Qpow2_Z (a : Z) : (0 <= a)%Z -> (2 : Q) ^ a == inject_Z (2 ^ a).
Proof. intros H. symmetry. now apply Zpower_Qpower. Qed.

Lemma Qpow2_le (a b : Z) : (a <= b)%Z -> (2 : Q) ^ a <= 2 ^ b.
Proof. intros H. apply Qpower_le_compat_l; [exact H | discriminate]. Qed.

Lemma Qpow2_lt (a b : Z) : (a < b)%Z -> (2 : Q) ^ a < 2 ^ b.
Proof. intros H. apply Qpower_lt_compat_l; [exact H | reflexivity]. Qed.

Lemma Qpow2_succ (a : Z) : (2 : Q) ^ (a + 1) == 2 * 2 ^ a.
Proof. rewrite Qpow2_add. change ((2 : Q) ^ 1) with (2 : Q). ring. Qed.

Lemma Qilog2_spec (q : Q) :
  0 < q -> 2 ^ Qilog2 q <= q /\ q < 2 ^ (Qilog2 q + 1).
Proof.
  intros Hq. unfold Qilog2. cbv zeta.
  destruct q as [n d]. cbn [Qnum Qden].
  assert (Hn : (0 < n)%Z) by (unfold Qlt in Hq; cbn in Hq; lia).
  pose proof (Z.log2_spec n Hn) as [Ha1 Ha2].
  pose proof (Z.log2_spec (Z.pos d) (Pos2Z.is_pos d)) as [Hb1 Hb2].
  pose proof (Z.log2_nonneg n) as Ha0.
  pose proof (Z.log2_nonneg (Z.pos d)) as Hb0.
  set (a := Z.log2 n) in *. set (b := Z.log2 (Z.pos d)) in *.
  rewrite Z.pow_succ_r in Ha2, Hb2 by assumption.
  assert (Hpa : (0 < 2 ^ a)%Z) by (apply Z.pow_pos_nonneg; lia).
  assert (Hpb : (0 < 2 ^ b)%Z) by (apply Z.pow_pos_nonneg; lia).
  assert (Hup : n # d < 2 ^ (a - b + 1)).
  { apply (Qmult_lt_r _ _ (2 ^ b)); [apply Qpow2_pos|].
    rewrite <- Qpow2_add. replace (a - b + 1 + b)%Z with (a + 1)%Z by lia.
    rewrite !Qpow2_Z by lia. rewrite Z.pow_add_r by lia. change (2 ^ 1)%Z with 2%Z.
    unfold Qlt, Qmult, inject_Z. cbn [Qnum Qden]. nia. }
  assert (Hlow : 2 ^ (a - b - 1) <= n # d).
  { apply (Qmult_le_r _ _ (2 ^ (b + 1))); [apply Qpow2_pos|].
    rewrite <- Qpow2_add. replace (a - b - 1 + (b + 1))%Z with a by lia.
    rewrite !Qpow2_Z by lia. rewrite Z.pow_add_r by lia. change (2 ^ 1)%Z with 2%Z.
    unfold Qle, Qmult, inject_Z. cbn [Qnum Qden]. nia. }
  destruct (Qle_bool (2 ^ (a - b)) (n # d)) eqn:E.
  - apply Qle_bool_iff in E. split; assumption.
  - assert (Hlt : n # d < 2 ^ (a - b)).
    { apply Qnot_le_lt. intros H. apply Qle_bool_iff in H. congruence. }
    replace (a - b - 1 + 1)%Z with (a - b)%Z by lia. split; assumption.
Qed.

(** The exponent of a rational is the only one whose binade holds it. *)
Lemma Qilog2_unique (q : Q) (e : Z) :
  2 ^ e <= q -> q < 2 ^ (e + 1) -> Qilog2 q = e.
Proof.
  intros H1 H2.
  assert (Hq : 0 < q) by (apply (Qlt_le_trans _ (2 ^ e)); [apply Qpow2_pos | exact H1]).
  destruct (Qilog2_spec q Hq) as [H3 H4].
  set (e' := Qilog2 q) in *.
  destruct (Z.lt_trichotomy e' e) as [Hlt|[Heq|Hgt]]; [exfalso|exact Heq|exfalso].
  - assert (H : 2 ^ (e' + 1) <= 2 ^ e) by (apply Qpow2_le; lia). lra.
  - assert (H : 2 ^ (e + 1) <= 2 ^ e') by (apply Qpow2_le; lia). lra.
Qed.

Lemma Qilog2_proper (x y : Q) : x == y -> 0 < x -> Qilog2 x = Qilog2 y.
Proof.
  intros H Hx. symmetry. apply Qilog2_unique; rewrite <- H; now apply Qilog2_spec.
Qed.

(** The scaled value whose nearest integer is the significand. *)
Lemma scaled_range (q : Q) :
  0 < q ->
  let s := (52 - Qilog2 q)%Z in
  2 ^ 52 <= q * 2 ^ s /\ q * 2 ^ s < 2 ^ 53.
Proof.
  intros Hq s. destruct (Qilog2_spec q Hq) as [H1 H2].
  pose proof (Qpow2_pos s) as Hs.
  assert (E1 : (2 : Q) ^ 52 == 2 ^ Qilog2 q * 2 ^ s).
  { rewrite <- Qpow2_add. unfold s. now replace (Qilog2 q + (52 - Qilog2 q))%Z with 52%Z by lia. }
  assert (E2 : (2 : Q) ^ 53 == 2 ^ (Qilog2 q + 1) * 2 ^ s).
  { rewrite <- Qpow2_add. unfold s.
    now replace (Qilog2 q + 1 + (52 - Qilog2 q))%Z with 53%Z by lia. }
  rewrite E1, E2. split.
  - apply Qmult_le_r; assumption.
  - apply Qmult_lt_r; assumption.
Qed.

(** Rounding moves a positive number by at most its [2^-53]-th part. *)
Lemma Qfl_pos_error (q : Q) :
  0 < q ->
  Qfl_pos q - q <= q * (1 # 2 ^ 53) /\ q - Qfl_pos q <= q * (1 # 2 ^ 53).
Proof.
  intros Hq. unfold Qfl_pos. cbv zeta.
  destruct (scaled_range q Hq) as [H1 H2]. cbv zeta in H1, H2.
  set (s := (52 - Qilog2 q)%Z) in *.
  destruct (np_round_near (q * 2 ^ s)) as [H3 H4].
  set (m := inject_Z (np_round (Q2Qc (q * 2 ^ s)))) in *.
  pose proof (Qpow2_pos (- s)) as Hs. pose proof (Qpow2_inv s) as Hinv.
  set (x := q * 2 ^ s) in *.
  assert (Hqx : q == x * 2 ^ (- s)).
  { unfold x. rewrite <- Qmult_assoc, Hinv. ring. }
  assert (Hx : (1 # 2) <= x * (1 # 2 ^ 53)).
  { change ((2 : Q) ^ 52) with (inject_Z (2 ^ 52)) in H1.
    setoid_replace (1 # 2) with (inject_Z (2 ^ 52) * (1 # 2 ^ 53)) using relation Qeq by reflexivity.
    apply Qmult_le_r; [reflexivity | exact H1]. }
  split.
  - setoid_replace (m * 2 ^ (- s) - q) with ((m - x) * 2 ^ (- s)) using relation Qeq by (rewrite Hqx at 1; ring).
    setoid_replace (q * (1 # 2 ^ 53)) with (x * (1 # 2 ^ 53) * 2 ^ (- s)) using relation Qeq
      by (rewrite Hqx at 1; ring).
    apply Qmult_le_r; [exact Hs | lra].
  - setoid_replace (q - m * 2 ^ (- s)) with ((x - m) * 2 ^ (- s)) using relation Qeq by (rewrite Hqx at 1; ring).
    setoid_replace (q * (1 # 2 ^ 53)) with (x * (1 # 2 ^ 53) * 2 ^ (- s)) using relation Qeq
      by (rewrite Hqx at 1; ring).
    apply Qmult_le_r; [exact Hs | lra].
Qed.

Lemma Qfl_pos_proper (x y : Q) : x == y -> 0 < x -> Qfl_pos x == Qfl_pos y.
Proof.
  intros H Hx. unfold Qfl_pos. cbv zeta.
  rewrite <- (Qilog2_proper x y H Hx).
  rewrite (np_round_proper (y * 2 ^ (52 - Qilog2 x)) (x * 2 ^ (52 - Qilog2 x)))
    by (apply Qmult_comp; [symmetry; exact H | reflexivity]).
  reflexivity.
Qed.

Lemma Qnum_sign (q : Q) :
  match Qnum q with
  | Z0 => q == 0
  | Zpos _ => 0 < q
  | Zneg _ => q < 0
  end.
Proof. destruct q as [[|n|n] d]; unfold Qeq, Qlt; cbn; lia. Qed.

Lemma Qfl_of_pos (q : Q) : 0 < q -> Qfl q = Qfl_pos q.
Proof.
  intros H. unfold Qfl. pose proof (Qnum_sign q) as Hs.
  destruct (Qnum q); [rewrite Hs in H; lra | reflexivity | lra].
Qed.

Lemma Qfl_of_0 (q : Q) : q == 0 -> Qfl q = 0.
Proof.
  intros H. unfold Qfl. pose proof (Qnum_sign q) as Hs.
  destruct (Qnum q); [reflexivity | lra | lra].
Qed.

Lemma Qfl_of_neg (q : Q) : q < 0 -> Qfl q = - Qfl_pos (- q).
Proof.
  intros H. unfold Qfl. pose proof (Qnum_sign q) as Hs.
  destruct (Qnum q); [rewrite Hs in H; lra | lra | reflexivity].
Qed.

Lemma Qfl_proper (x y : Q) : x == y -> Qfl x == Qfl y.
Proof.
  intros H. destruct (Q_dec x 0) as [[Hneg|Hpos]|Hz].
  - rewrite (Qfl_of_neg x Hneg), (Qfl_of_neg y) by lra.
    apply Qopp_comp. apply Qfl_pos_proper; lra.
  - rewrite (Qfl_of_pos x Hpos), (Qfl_of_pos y) by lra.
    now apply Qfl_pos_proper.
  - rewrite (Qfl_of_0 x Hz), (Qfl_of_0 y) by lra. reflexivity.
Qed.

(** A rounded number stays in the binade of the number, ends included. *)
Lemma Qfl_pos_binade (q : Q) :
  0 < q -> 2 ^ Qilog2 q <= Qfl_pos q /\ Qfl_pos q <= 2 ^ (Qilog2 q + 1).
Proof.
  intros Hq. unfold Qfl_pos. cbv zeta.
  destruct (scaled_range q Hq) as [H1 H2]. cbv zeta in H1, H2.
  set (s := (52 - Qilog2 q)%Z) in *. set (x := q * 2 ^ s) in *.
  assert (Hm : (2 ^ 52 <= np_round (Q2Qc x) <= 2 ^ 53)%Z).
  { rewrite np_round_Q. cbv zeta.
    assert (Hf1 : (2 ^ 52 <= Qfloor x)%Z).
    { rewrite <- (Qfloor_Z (2 ^ 52)). apply Qfloor_resp_le. exact H1. }
    assert (Hf2 : (Qfloor x < 2 ^ 53)%Z).
    { pose proof (Qfloor_le x) as Hl.
      assert (Hlt : inject_Z (Qfloor x) < inject_Z (2 ^ 53)).
      { change (inject_Z (2 ^ 53)) with ((2 : Q) ^ 53).
        exact (Qle_lt_trans _ _ _ Hl H2). }
      now rewrite <- Zlt_Qlt in Hlt. }
    destruct (x - inject_Z (Qfloor x) ?= 1 # 2); try destruct (Z.even (Qfloor x)); lia. }
  set (m := np_round (Q2Qc x)) in *.
  pose proof (Qpow2_pos (- s)) as Hs.
  assert (E1 : (2 : Q) ^ Qilog2 q == inject_Z (2 ^ 52) * 2 ^ (- s)).
  { change (inject_Z (2 ^ 52)) with ((2 : Q) ^ 52). rewrite <- Qpow2_add.
    unfold s. now replace (52 + - (52 - Qilog2 q))%Z with (Qilog2 q) by lia. }
  assert (E2 : (2 : Q) ^ (Qilog2 q + 1) == inject_Z (2 ^ 53) * 2 ^ (- s)).
  { change (inject_Z (2 ^ 53)) with ((2 : Q) ^ 53). rewrite <- Qpow2_add.
    unfold s. now replace (53 + - (52 - Qilog2 q))%Z with (Qilog2 q + 1)%Z by lia. }
  rewrite E1, E2. split; apply Qmult_le_r; try exact Hs; rewrite <- Zle_Qle; lia.
Qed.

Lemma Qfl_nonneg (q : Q) : 0 <= q -> 0 <= Qfl q.
Proof.
  intros H. destruct (Qle_lt_or_eq _ _ H) as [Hpos|Hz].
  - rewrite (Qfl_of_pos q Hpos). destruct (Qfl_pos_binade q Hpos) as [H1 _].
    pose proof (Qpow2_pos (Qilog2 q)). lra.
  - rewrite (Qfl_of_0 q) by (symmetry; exact Hz). lra.
Qed.

Lemma Qfl_le_1 (q : Q) : 0 <= q -> q <= 1 -> Qfl q <= 1.
Proof.
  intros H0 H1. destruct (Qle_lt_or_eq _ _ H0) as [Hpos|Hz].
  - rewrite (Qfl_of_pos q Hpos). destruct (Qfl_pos_binade q Hpos) as [_ H2].
    destruct (Qle_lt_or_eq _ _ H1) as [Hlt|Heq].
    + destruct (Qilog2_spec q Hpos) as [H3 _].
      assert (He : (Qilog2 q + 1 <= 0)%Z).
      { destruct (Z_le_gt_dec (Qilog2 q + 1) 0) as [Hle|Hgt]; [exact Hle|exfalso].
        assert (H : (2 : Q) ^ 0 <= 2 ^ Qilog2 q) by (apply Qpow2_le; lia).
        change ((2 : Q) ^ 0) with 1 in H. lra. }
      apply (Qle_trans _ _ _ H2). change 1 with ((2 : Q) ^ 0). now apply Qpow2_le.
    + rewrite (Qfl_pos_proper q 1 Heq Hpos). vm_compute. discriminate.
  - rewrite (Qfl_of_0 q) by (symmetry; exact Hz). lra.
Qed.

(** Rounding moves a number that is not negative by at most its
    [2^-53]-th part. *)
Lemma Qfl_error (q : Q) :
  0 <= q -> Qfl q - q <= q * (1 # 2 ^ 53) /\ q - Qfl q <= q * (1 # 2 ^ 53).
Proof.
  intros H. destruct (Qle_lt_or_eq _ _ H) as [Hpos|Hz].
  - rewrite (Qfl_of_pos q Hpos). now apply Qfl_pos_error.
  - rewrite (Qfl_of_0 q) by (symmetry; exact Hz). rewrite <- Hz. split; lra.
Qed.

(** Between 1/2 and 1 the doubles are the multiples of [2^-53]. *)
Lemma Qfl_half_to_one (q : Q) :
  1 # 2 <= q -> q < 1 ->
  Qfl q = inject_Z (np_round (Q2Qc (q * 2 ^ 53))) * 2 ^ (- 53).
Proof.
  intros H1 H2. rewrite Qfl_of_pos by lra. unfold Qfl_pos. cbv zeta.
  rewrite (Qilog2_unique q (- 1)); [reflexivity | exact H1 | exact H2].
Qed.

(** A number with a 53-bit significand is a double. *)
Lemma Qfl_pos_fixed (m s : Z) :
  (2 ^ 52 <= m < 2 ^ 53)%Z ->
  Qfl_pos (inject_Z m * 2 ^ (- s)) == inject_Z m * 2 ^ (- s).
Proof.
  intros Hm. unfold Qfl_pos. cbv zeta.
  pose proof (Qpow2_pos (- s)) as Hs.
  set (v := inject_Z m * 2 ^ (- s)).
  assert (He : Qilog2 v = (52 - s)%Z).
  { apply Qilog2_unique.
    - replace (52 - s)%Z with (52 + - s)%Z by lia. rewrite Qpow2_add.
      unfold v. apply Qmult_le_r; [exact Hs|].
      change ((2 : Q) ^ 52) with (inject_Z (2 ^ 52)). rewrite <- Zle_Qle. lia.
    - replace (52 - s + 1)%Z with (53 + - s)%Z by lia. rewrite Qpow2_add.
      unfold v. apply Qmult_lt_r; [exact Hs|].
      change ((2 : Q) ^ 53) with (inject_Z (2 ^ 53)). rewrite <- Zlt_Qlt. lia. }
  rewrite He. replace (52 - (52 - s))%Z with s by lia.
  rewrite (np_round_proper (v * 2 ^ s) (inject_Z m)).
  - rewrite np_round_inject_Z. reflexivity.
  - unfold v. rewrite <- Qmult_assoc, (Qmult_comm (2 ^ (- s))), Qpow2_inv. ring.
Qed.

(** The significand of a rounded number. *)
Lemma Qfl_pos_significand (q : Q) :
  0 < q ->
  exists m : Z,
    (2 ^ 52 <= m <= 2 ^ 53)%Z
    /\ Qfl_pos q = inject_Z m * 2 ^ (- (52 - Qilog2 q)).
Proof.
  intros Hq. exists (np_round (Q2Qc (q * 2 ^ (52 - Qilog2 q)))).
  split; [|reflexivity].
  destruct (scaled_range q Hq) as [H1 H2]. cbv zeta in H1, H2.
  set (x := q * 2 ^ (52 - Qilog2 q)) in *.
  rewrite np_round_Q. cbv zeta.
  assert (Hf1 : (2 ^ 52 <= Qfloor x)%Z).
  { rewrite <- (Qfloor_Z (2 ^ 52)). apply Qfloor_resp_le. exact H1. }
  assert (Hf2 : (Qfloor x < 2 ^ 53)%Z).
  { pose proof (Qfloor_le x) as Hl.
    assert (Hlt : inject_Z (Qfloor x) < inject_Z (2 ^ 53)).
    { change (inject_Z (2 ^ 53)) with ((2 : Q) ^ 53).
      exact (Qle_lt_trans _ _ _ Hl H2). }
    now rewrite <- Zlt_Qlt in Hlt. }
  destruct (x - inject_Z (Qfloor x) ?= 1 # 2); try destruct (Z.even (Qfloor x)); lia.
Qed.

Lemma Qfl_pos_idem (q : Q) : 0 < q -> Qfl_pos (Qfl_pos q) == Qfl_pos q.
Proof.
  intros Hq. destruct (Qfl_pos_significand q Hq) as (m & Hm & ->).
  set (s := (52 - Qilog2 q)%Z).
  destruct (Z.eq_dec m (2 ^ 53)%Z) as [->|Hne].
  - assert (E : inject_Z (2 ^ 53) * 2 ^ (- s) == inject_Z (2 ^ 52) * 2 ^ (- (s - 1))).
    { replace (- (s - 1))%Z with (1 + - s)%Z by lia. rewrite Qpow2_add.
      change ((2 : Q) ^ 1) with (2 : Q).
      change (inject_Z (2 ^ 53)) with (2 * inject_Z (2 ^ 52)). ring. }
    rewrite (Qfl_pos_proper _ _ E).
    + rewrite Qfl_pos_fixed by lia. symmetry. exact E.
    + apply Qmult_lt_0_compat; [reflexivity | apply Qpow2_pos].
  - apply Qfl_pos_fixed. lia.
Qed.

Lemma Qfl_pos_pos (q : Q) : 0 < q -> 0 < Qfl_pos q.
Proof.
  intros Hq. destruct (Qfl_pos_binade q Hq) as [H _].
  exact (Qlt_le_trans _ _ _ (Qpow2_pos _) H).
Qed.

(** Rounding twice is rounding once. *)
Lemma Qfl_idem (q : Q) : Qfl (Qfl q) == Qfl q.
Proof.
  destruct (Q_dec q 0) as [[Hneg|Hpos]|Hz].
  - rewrite (Qfl_of_neg q Hneg).
    assert (Hp : 0 < Qfl_pos (- q)) by (apply Qfl_pos_pos; lra).
    rewrite Qfl_of_neg by lra. apply Qopp_comp.
    rewrite (Qfl_pos_proper (- - Qfl_pos (- q)) (Qfl_pos (- q))) by lra.
    apply Qfl_pos_idem. lra.
  - rewrite (Qfl_of_pos q Hpos).
    rewrite Qfl_of_pos by now apply Qfl_pos_pos. now apply Qfl_pos_idem.
  - rewrite (Qfl_of_0 q Hz). reflexivity.
Qed.

(** Halving is exact. *)
Lemma Qfl_pos_half (q : Q) : 0 < q -> Qfl_pos (q / 2) == Qfl_pos q / 2.
Proof.
  intros Hq. unfold Qfl_pos. cbv zeta.
  destruct (Qilog2_spec q Hq) as [H1 H2].
  assert (He : Qilog2 (q / 2) = (Qilog2 q - 1)%Z).
  { apply Qilog2_unique.
    - apply (Qmult_le_r _ _ 2); [reflexivity|].
      setoid_replace (q / 2 * 2) with q using relation Qeq by field.
      rewrite Qmult_comm, <- Qpow2_succ.
      now replace (Qilog2 q - 1 + 1)%Z with (Qilog2 q) by lia.
    - apply (Qmult_lt_r _ _ 2); [reflexivity|].
      setoid_replace (q / 2 * 2) with q using relation Qeq by field.
      rewrite Qmult_comm, <- Qpow2_succ.
      now replace (Qilog2 q - 1 + 1 + 1)%Z with (Qilog2 q + 1)%Z by lia. }
  rewrite He. set (s := (52 - Qilog2 q)%Z).
  replace (52 - (Qilog2 q - 1))%Z with (s + 1)%Z by (unfold s; lia).
  rewrite (np_round_proper (q / 2 * 2 ^ (s + 1)) (q * 2 ^ s))
    by (rewrite Qpow2_succ; field).
  replace (- (s + 1))%Z with (- s + - 1)%Z by lia. rewrite Qpow2_add.
  change ((2 : Q) ^ (- 1)) with (/ 2). field.
Qed.

Lemma Qfl_half (q : Q) : 0 <= q -> Qfl (q / 2) == Qfl q / 2.
Proof.
  intros H. destruct (Qle_lt_or_eq _ _ H) as [Hpos|Hz].
  - assert (Hh : 0 < q / 2) by (apply Qlt_shift_div_l; [reflexivity | lra]).
    rewrite (Qfl_of_pos q Hpos), (Qfl_of_pos _ Hh). now apply Qfl_pos_half.
  - rewrite (Qfl_of_0 q) by (symmetry; exact Hz).
    rewrite Qfl_of_0; [reflexivity|]. rewrite <- Hz. reflexivity.
Qed.
Local Close Scope Q_scope.

(** *** Doubles as canonical rationals *)

Lemma this_fl (q : Qc) : (this (fl q) == Qfl q)%Q.
Proof. apply Qred_correct. Qed.

Lemma this_Zfrac (a b : Z) : (this (Zfrac a b) == a # Z.to_pos b)%Q.
Proof. apply Qred_correct. Qed.

Lemma this_plus (a b : Qc) : (this (a + b)%Qc == this a + this b)%Q.
Proof. apply Qred_correct. Qed.

Lemma this_minus (a b : Qc) : (this (a - b)%Qc == this a - this b)%Q.
Proof.
  unfold Qcminus, Qcplus, Qcopp. cbn [this Q2Qc]. rewrite !Qred_correct. reflexivity.
Qed.

Lemma this_mult (a b : Qc) : (this (a * b)%Qc == this a * this b)%Q.
Proof. apply Qred_correct. Qed.

Lemma this_half (a : Qc) : (this (a / Q2Qc 2)%Qc == this a / 2)%Q.
Proof.
  unfold Qcdiv, Qcmult, Qcinv. cbn [this Q2Qc]. rewrite !Qred_correct. reflexivity.
Qed.

Lemma Qcle_this (a b : Qc) : (a <= b)%Qc <-> (this a <= this b)%Q.
Proof. reflexivity. Qed.

Lemma fl_idem (q : Qc) : fl (fl q) = fl q.
Proof.
  apply Qc_is_canon. rewrite (this_fl (fl q)), (Qfl_proper _ _ (this_fl q)), this_fl.
  apply Qfl_idem.
Qed.

Lemma fl_nonneg (q : Qc) : (0 <= q)%Qc -> (0 <= fl q)%Qc.
Proof.
  intros H. apply Qcle_this. rewrite this_fl. apply Qfl_nonneg. exact H.
Qed.

Lemma fl_le_1 (q : Qc) : (0 <= q)%Qc -> (q <= 1)%Qc -> (fl q <= 1)%Qc.
Proof.
  intros H0 H1. apply Qcle_this. rewrite this_fl. apply Qfl_le_1; assumption.
Qed.

Lemma fl_half (q : Qc) : (0 <= q)%Qc -> fl (q / Q2Qc 2) = (fl q / Q2Qc 2)%Qc.
Proof.
  intros H. apply Qc_is_canon.
  rewrite this_fl, (Qfl_proper _ _ (this_half q)), this_half, this_fl.
  apply Qfl_half. exact H.
Qed.

Lemma fl_0 : fl (Q2Qc 0) = Q2Qc 0.
Proof. apply Qc_is_canon. reflexivity. Qed.

Lemma fl_1 : fl (Q2Qc 1) = Q2Qc 1.
Proof. apply Qc_is_canon. reflexivity. Qed.

Lemma Zfrac_0 (n : Z) : Zfrac 0 n = Q2Qc 0.
Proof. apply Qc_is_canon. rewrite this_Zfrac. reflexivity. Qed.

Lemma Zfrac_same (n : Z) : (0 < n)%Z -> Zfrac n n = Q2Qc 1.
Proof.
  intros H. apply Qc_is_canon. rewrite this_Zfrac. change (this (Q2Qc 1)) with 1%Q.
  unfold Qeq. cbn [Qnum Qden]. rewrite Z2Pos.id by exact H. lia.
Qed.

Lemma Zfrac_nonneg (a b : Z) : (0 <= a)%Z -> (0 <= Zfrac a b)%Qc.
Proof.
  intros H. apply Qcle_this. rewrite this_Zfrac. change (this 0%Qc) with 0%Q.
  unfold Qle. cbn [Qnum Qden]. lia.
Qed.

Lemma Zfrac_le_1 (a b : Z) : (a <= b)%Z -> (0 < b)%Z -> (Zfrac a b <= 1)%Qc.
Proof.
  intros H Hb. apply Qcle_this. rewrite this_Zfrac. change (this 1%Qc) with 1%Q.
  unfold Qle. cbn [Qnum Qden]. rewrite Z2Pos.id by exact Hb. lia.
Qed.

(** *** The accuracy against the threshold *)

Local Open Scope Q_scope.

(** A share of at least four fifths is, as a double, at least the double
    0.8; a smaller share of fewer than [2^53] rows is, as a double, below
    four fifths. *)
Lemma Qfl_share (m n : Z) :
  (0 <= m <= n)%Z -> (0 < n < 2 ^ 53)%Z ->
  ((4 * n <= 5 * m)%Z -> 7205759403792794 # 2 ^ 53 <= Qfl (m # Z.to_pos n))
  /\ ((5 * m < 4 * n)%Z -> Qfl (m # Z.to_pos n) < 4 # 5).
Proof.
  intros Hm Hn. set (q := m # Z.to_pos n).
  assert (Hp : 2 ^ 53 == inject_Z 9007199254740992) by reflexivity.
  assert (Hi : 2 ^ (- 53) == 1 # 9007199254740992) by reflexivity.
  assert (Hden : Z.pos (Z.to_pos n) = n) by (apply Z2Pos.id; lia).
  split; intros H.
  - destruct (Z.eq_dec m n) as [->|Hne].
    + assert (Hq : q == 1) by (unfold q, Qeq; cbn [Qnum Qden]; lia).
      rewrite (Qfl_proper _ _ Hq). vm_compute. discriminate.
    + assert (H1 : 1 # 2 <= q) by (unfold q, Qle; cbn [Qnum Qden]; lia).
      assert (H2 : q < 1) by (unfold q, Qlt; cbn [Qnum Qden]; lia).
      assert (H3 : 4 # 5 <= q) by (unfold q, Qle; cbn [Qnum Qden]; lia).
      rewrite (Qfl_half_to_one q H1 H2).
      destruct (np_round_near (q * 2 ^ 53)) as [Hl _].
      set (r := np_round (Q2Qc (q * 2 ^ 53))) in *.
      assert (Hr : (7205759403792794 <= r)%Z).
      { assert (Hlt : inject_Z 7205759403792793 < inject_Z r).
        { rewrite Hp in Hl. unfold inject_Z at 1. unfold inject_Z in Hl at 1. lra. }
        rewrite <- Zlt_Qlt in Hlt. lia. }
      rewrite Hi. rewrite Zle_Qle in Hr. unfold inject_Z in Hr at 1.
      unfold Qle in *. cbn [Qnum Qden Qmult inject_Z] in *. lia.
  - destruct (Qlt_le_dec q (1 # 2)) as [Hlow|H1].
    + assert (H0 : 0 <= q) by (unfold q, Qle; cbn [Qnum Qden]; lia).
      destruct (Qfl_error q H0) as [Hu _].
      assert (Hc : (1 # 2 ^ 53) == 1 # 9007199254740992) by reflexivity.
      rewrite Hc in Hu. lra.
    + assert (H2 : q < 1) by (unfold q, Qlt; cbn [Qnum Qden]; lia).
      rewrite (Qfl_half_to_one q H1 H2).
      destruct (np_round_near (q * 2 ^ 53)) as [_ Hu].
      set (r := np_round (Q2Qc (q * 2 ^ 53))) in *.
      assert (Hx : q * inject_Z 9007199254740992 <= 36028797018963967 # 5).
      { unfold q, Qle. cbn [Qnum Qden Qmult inject_Z]. rewrite Pos.mul_1_r, Hden. lia. }
      assert (Hr : (r <= 7205759403792793)%Z).
      { assert (Hlt : inject_Z r < inject_Z 7205759403792794).
        { rewrite Hp in Hu. unfold inject_Z at 2. lra. }
        rewrite <- Zlt_Qlt in Hlt. lia. }
      rewrite Hi. rewrite Zle_Qle in Hr. unfold inject_Z in Hr at 2.
      unfold Qlt, Qle in *. cbn [Qnum Qden Qmult inject_Z] in *. lia.
Qed.

Local Close Scope Q_scope.

(** The accuracy of [m] rows out of [n] passes the threshold exactly when
    [m] is four fifths of [n] or more; comparing with the double nearest
    to 0.8 gives the same. *)
Lemma fl_Zfrac_threshold (m n : Z) :
  (0 <= m <= n)%Z -> (0 < n < 2 ^ 53)%Z ->
  ((threshold <= fl (Zfrac m n))%Qc <-> (4 * n <= 5 * m)%Z)
  /\ ((fl threshold <= fl (Zfrac m n))%Qc <-> (4 * n <= 5 * m)%Z).
Proof.
  intros Hm Hn. destruct (Qfl_share m n Hm Hn) as [Hup Hdown].
  assert (Hthis : (this (fl (Zfrac m n)) == Qfl (m # Z.to_pos n))%Q).
  { rewrite this_fl. apply Qfl_proper, this_Zfrac. }
  assert (Ht : (this threshold == 4 # 5)%Q) by reflexivity.
  assert (Hft : (this (fl threshold) == 7205759403792794 # 2 ^ 53)%Q) by (vm_compute; reflexivity).
  unfold Qcle. rewrite Hthis, Ht, Hft.
  split; split; intros H.
  - destruct (Z_le_gt_dec (4 * n) (5 * m)) as [Hle|Hgt]; [exact Hle|].
    exfalso. specialize (Hdown ltac:(lia)). lra.
  - specialize (Hup H).
    assert ((4 # 5) <= 7205759403792794 # 2 ^ 53)%Q by (vm_compute; discriminate). lra.
  - destruct (Z_le_gt_dec (4 * n) (5 * m)) as [Hle|Hgt]; [exact Hle|].
    exfalso. specialize (Hdown ltac:(lia)).
    assert ((4 # 5) <= 7205759403792794 # 2 ^ 53)%Q by (vm_compute; discriminate). lra.
  - exact (Hup H).
Qed.

(** ** The evaluation script *)

Lemma Qc_mult_nonneg (a b : Qc) : (0 <= a)%Qc -> (0 <= b)%Qc -> (0 <= a * b)%Qc.
Proof.
  intros Ha Hb. apply Qcle_this. rewrite this_mult. now apply Qmult_le_0_compat.
Qed.

(** The two trapezoids of a curve through the origin, one point and
    [(1, 1)]. *)
Lemma trapezoid_from_origin (a b : Qc) :
  (0 <= a)%Qc -> (0 <= b)%Qc ->
  trapezoid (Q2Qc 0, Q2Qc 0) (fl a, fl b) = (fl (fl a * fl b) / Q2Qc 2)%Qc.
Proof.
  intros Ha Hb. unfold trapezoid. cbn [fst snd].
  replace (fl a - Q2Qc 0)%Qc with (fl a) by ring.
  replace (fl b + Q2Qc 0)%Qc with (fl b) by ring.
  rewrite !fl_idem, fl_half, fl_idem; [reflexivity|].
  apply fl_nonneg, Qc_mult_nonneg; now apply fl_nonneg.
Qed.

Lemma trapezoid_to_corner (a b : Qc) :
  (0 <= a)%Qc -> (a <= 1)%Qc -> (0 <= b)%Qc ->
  trapezoid (fl a, fl b) (Q2Qc 1, Q2Qc 1)
  = (fl (fl (1 - fl a) * fl (1 + fl b)) / Q2Qc 2)%Qc.
Proof.
  intros Ha Ha1 Hb. unfold trapezoid. cbn [fst snd].
  rewrite fl_half, fl_idem; [reflexivity|].
  apply fl_nonneg, Qc_mult_nonneg; apply fl_nonneg.
  - pose proof (fl_le_1 a Ha Ha1) as H. unfold Qcle in *.
    rewrite this_minus. change (this 0%Qc) with 0%Q. change (this 1%Qc) with 1%Q in *.
    lra.
  - pose proof (fl_nonneg b Hb) as H. unfold Qcle in *.
    rewrite this_plus. change (this 0%Qc) with 0%Q in *. change (this 1%Qc) with 1%Q.
    lra.
Qed.

Lemma pairwise_sum_two (x y : Qc) :
  pairwise_sum [fl x; y] = fl (fl x + y).
Proof.
  unfold pairwise_sum, pairwise. cbn [length Nat.ltb Nat.leb List.fold_left]. unfold add.
  replace (Q2Qc 0 + fl x)%Qc with (fl x) by ring. now rewrite fl_idem.
Qed.

Lemma pairwise_sum_two_trapezoids (p0 p1 p2 : Qc * Qc) :
  pairwise_sum [trapezoid p0 p1; trapezoid p1 p2]
  = fl (trapezoid p0 p1 + trapezoid p1 p2).
Proof. unfold trapezoid at 1 3. apply pairwise_sum_two. Qed.

Lemma pairwise_sum_one (x : Qc) : pairwise_sum [fl x] = fl x.
Proof.
  unfold pairwise_sum, pairwise. cbn [length Nat.ltb Nat.leb List.fold_left]. unfold add.
  replace (Q2Qc 0 + fl x)%Qc with (fl x) by ring. now rewrite fl_idem.
Qed.

(** *** Scores that are 0 or 1 *)

Lemma binary_NoDup (l : list Z) :
  binary l -> NoDup l ->
  l = [] \/ l = [0%Z] \/ l = [1%Z] \/ l = [0; 1]%Z \/ l = [1; 0]%Z.
Proof.
  intros Hb Hn. unfold binary in Hb. rewrite List.Forall_forall in Hb.
  destruct l as [|a [|b [|c l]]].
  - now left.
  - destruct (Hb a ltac:(now left)) as [->| ->]; tauto.
  - apply NoDup_cons in Hn as [Hab _]. rewrite list_elem_of_In in Hab.
    destruct (Hb a ltac:(now left)) as [->| ->],
             (Hb b ltac:(right; now left)) as [->| ->];
      try tauto; exfalso; apply Hab; now left.
  - exfalso. apply NoDup_cons in Hn as [Hab Hn]. apply NoDup_cons in Hn as [Hbc _].
    rewrite list_elem_of_In in Hab, Hbc.
    destruct (Hb a ltac:(now left)) as [->| ->],
             (Hb b ltac:(right; now left)) as [->| ->],
             (Hb c ltac:(right; right; now left)) as [->| ->];
      try (apply Hab; now left); try (apply Hab; right; now left);
      apply Hbc; now left.
Qed.

Lemma thresholds_binary (l : list Z) :
  binary l ->
  (In 1%Z l /\ In 0%Z l /\ thresholds l = [1; 0]%Z)
  \/ (~ In 0%Z l /\ thresholds l = [1]%Z)
  \/ (~ In 1%Z l /\ thresholds l = [0]%Z)
  \/ l = [].
Proof.
  intros Hb. unfold thresholds.
  assert (Hd : binary (remove_dups l)).
  { unfold binary in *. rewrite List.Forall_forall in *. intros x Hx. apply Hb.
    rewrite <- list_elem_of_In in *. now apply elem_of_remove_dups. }
  assert (Hin : forall x, In x (remove_dups l) <-> In x l).
  { intros x. rewrite <- !list_elem_of_In. apply elem_of_remove_dups. }
  destruct (binary_NoDup _ Hd (NoDup_remove_dups l)) as [E|[E|[E|[E|E]]]];
    rewrite E in *; cbn.
  - right. right. right. destruct l as [|x l]; [reflexivity|].
    exfalso. apply (proj2 (Hin x)). now left.
  - right. right. left. split; [|reflexivity]. intros H. apply Hin in H.
    destruct H as [H|[]]. discriminate H.
  - right. left. split; [|reflexivity]. intros H. apply Hin in H.
    destruct H as [H|[]]. discriminate H.
  - left. split; [apply Hin; right; now left|]. split; [apply Hin; now left | reflexivity].
  - left. split; [apply Hin; now left|]. split; [apply Hin; right; now left | reflexivity].
Qed.

Lemma count_at_least_0 (l : list Z) : binary l -> count_at_least 0 l = Z.of_nat (length l).
Proof.
  intros Hb. unfold count_at_least. f_equal. f_equal.
  unfold binary in Hb. rewrite List.Forall_forall in Hb.
  rewrite List.forallb_filter_id; [reflexivity|].
  apply List.forallb_forall. intros x Hx. destruct (Hb x Hx) as [->| ->]; reflexivity.
Qed.

Lemma count_at_least_1 (l : list Z) : binary l -> count_at_least 1 l = count_score 1 l.
Proof.
  intros Hb. unfold count_at_least, count_score. f_equal.
  induction l as [|x l IH]; [reflexivity|].
  apply Forall_cons in Hb as [Hx Hb]. specialize (IH Hb). cbn [List.filter count_occ].
  destruct Hx as [->| ->].
  - change (1 <=? 0)%Z with false. destruct (Z.eq_dec 0%Z 1%Z); [discriminate | exact IH].
  - change (1 <=? 1)%Z with true. destruct (Z.eq_dec 1%Z 1%Z); [|contradiction].
    cbn [length]. now rewrite IH.
Qed.

Lemma count_score_all (s : Z) (l : list Z) :
  (forall x, In x l -> x = s) -> count_score s l = Z.of_nat (length l).
Proof.
  intros H. unfold count_score. f_equal.
  induction l as [|x l IH]; [reflexivity|]. cbn [count_occ length].
  rewrite (H x ltac:(now left)). destruct (Z.eq_dec s s); [|contradiction].
  f_equal. apply IH. intros y Hy. apply H. now right.
Qed.

Lemma count_score_none (s : Z) (l : list Z) : ~ In s l -> count_score s l = 0%Z.
Proof.
  intros H. unfold count_score. apply (count_occ_not_In Z.eq_dec) in H. now rewrite H.
Qed.

Lemma binary_app (l1 l2 : list Z) : binary l1 -> binary l2 -> binary (l1 ++ l2).
Proof. intros H1 H2. now apply Forall_app. Qed.

(** The counts behind the rates lie between 0 and the size of the
    class. *)
Lemma count_score_bounds (s : Z) (l : list Z) :
  (0 <= count_score s l <= Z.of_nat (length l))%Z.
Proof.
  unfold count_score. pose proof (count_occ_bound Z.eq_dec s l). lia.
Qed.

(** For scores that are 0 or 1 the curve has at most one point between
    the origin and [(1, 1)]: the rate of the negatives scored 1 against
    that of the positives scored 1. *)
Lemma auc_binary (pos neg : list Z) :
  binary pos -> binary neg -> pos <> [] -> neg <> [] ->
  auc (roc_curve pos neg)
  = three_point (fl (Zfrac (count_score 1 neg) (Z.of_nat (length neg))))
      (fl (Zfrac (count_score 1 pos) (Z.of_nat (length pos)))).
Proof.
  intros Hp Hn Hpne Hnne.
  assert (HP : (0 < Z.of_nat (length pos))%Z) by (destruct pos; [contradiction | cbn; lia]).
  assert (HN : (0 < Z.of_nat (length neg))%Z) by (destruct neg; [contradiction | cbn; lia]).
  pose proof (count_score_bounds 1 pos) as Hcp.
  pose proof (count_score_bounds 1 neg) as Hcn.
  assert (Hxb : forall c n, (0 <= c <= n)%Z -> (0 < n)%Z ->
                  (0 <= Zfrac c n)%Qc /\ (Zfrac c n <= 1)%Qc).
  { intros c n Hc Hn0. split; [apply Zfrac_nonneg | apply Zfrac_le_1]; lia. }
  destruct (Hxb _ _ Hcp HP) as [Hy0 Hy1]. destruct (Hxb _ _ Hcn HN) as [Hx0 Hx1].
  unfold auc, roc_curve, binary_clf_curve.
  destruct (thresholds_binary (pos ++ neg) (binary_app _ _ Hp Hn))
    as [(H1 & H0 & ->)|[(H0 & ->)|[(H1 & ->)|E]]].
  - cbn [List.map drop_intermediate fst snd].
    rewrite !count_at_least_1, !count_at_least_0 by assumption.
    rewrite !Zfrac_0, !fl_0, !Zfrac_same, fl_1 by assumption.
    cbn [trapezoids]. rewrite pairwise_sum_two_trapezoids.
    rewrite trapezoid_from_origin, trapezoid_to_corner by assumption.
    reflexivity.
  - assert (Hall : forall l, binary l -> (forall x, In x l -> In x (pos ++ neg)) ->
                             count_score 1 l = Z.of_nat (length l)).
    { intros l Hl Hsub. apply count_score_all. intros x Hx.
      unfold binary in Hl. rewrite List.Forall_forall in Hl.
      destruct (Hl x Hx) as [->|Hone]; [|exact Hone]. exfalso. apply H0. now apply Hsub. }
    cbn [List.map drop_intermediate fst snd].
    rewrite !count_at_least_1 by assumption.
    rewrite (Hall pos Hp) by (intros x Hx; apply List.in_or_app; now left).
    rewrite (Hall neg Hn) by (intros x Hx; apply List.in_or_app; now right).
    rewrite !Zfrac_0, !fl_0, !Zfrac_same, fl_1 by assumption.
    apply Qc_is_canon. vm_compute. reflexivity.
  - cbn [List.map drop_intermediate fst snd].
    rewrite !count_at_least_0 by assumption.
    rewrite (count_score_none 1 pos) by (intros Hx; apply H1, List.in_or_app; now left).
    rewrite (count_score_none 1 neg) by (intros Hx; apply H1, List.in_or_app; now right).
    rewrite !Zfrac_0, !fl_0, !Zfrac_same, fl_1 by assumption.
    apply Qc_is_canon. vm_compute. reflexivity.
  - destruct pos; [contradiction | discriminate E].
Qed.

(** *** How far the area in doubles is from the exact one *)

Local Open Scope Q_scope.

Lemma Qmult_bound (s t S T : Q) :
  0 <= s -> s <= S -> t <= T -> 0 <= T -> s * t <= S * T.
Proof.
  intros Hs HS Ht HT.
  apply (Qle_trans _ (s * T)).
  - rewrite !(Qmult_comm s). now apply Qmult_le_compat_r.
  - now apply Qmult_le_compat_r.
Qed.

Lemma three_point_error (u F T x y a b c d v : Q) :
  0 <= u -> u <= 1 # 16 ->
  0 <= F -> F <= 1 -> 0 <= T -> T <= 1 ->
  x - F <= F * u -> F - x <= F * u -> 0 <= x -> x <= 1 ->
  y - T <= T * u -> T - y <= T * u -> 0 <= y -> y <= 1 ->
  a - x * y <= x * y * u -> x * y - a <= x * y * u ->
  b - (1 - x) <= (1 - x) * u -> (1 - x) - b <= (1 - x) * u -> 0 <= b -> b <= 1 ->
  c - (1 + y) <= (1 + y) * u -> (1 + y) - c <= (1 + y) * u ->
  d - b * c <= b * c * u -> b * c - d <= b * c * u ->
  v - (a / 2 + d / 2) <= (a / 2 + d / 2) * u ->
  (a / 2 + d / 2) - v <= (a / 2 + d / 2) * u ->
  v - (1 + T - F) / 2 <= 8 * u /\ (1 + T - F) / 2 - v <= 8 * u.
Proof.
  intros Hu0 Hu1 HF0 HF1 HT0 HT1 Hx1 Hx2 Hx0 Hx3 Hy1 Hy2 Hy0 Hy3 Ha1 Ha2
    Hb1 Hb2 Hb0 Hb3 Hc1 Hc2 Hd1 Hd2 Hv1 Hv2.
  assert (Hp0 : 0 <= x * y) by now apply Qmult_le_0_compat.
  assert (Hp1 : x * y <= 1).
  { setoid_replace 1 with (1 * 1) using relation Qeq by ring. apply Qmult_bound; lra. }
  assert (Hq : (1 - x) * (1 + y) == 1 + y - x - x * y) by ring.
  set (p := x * y) in *.
  assert (Hpu : p * u <= 1 * u) by (apply Qmult_le_compat_r; lra).
  assert (Hpu' : p * u <= p * (1 # 16)) by (apply Qmult_bound; lra).
  assert (HFu : F * u <= 1 * u) by (apply Qmult_le_compat_r; lra).
  assert (HTu : T * u <= 1 * u) by (apply Qmult_le_compat_r; lra).
  assert (Hcu : (1 + y) * u <= 2 * u) by (apply Qmult_le_compat_r; lra).
  assert (Hc0 : 0 <= c) by lra.
  assert (Hc3 : c <= 17 # 8) by lra.
  assert (Hbu : (1 - x) * u <= 1 * u) by (apply Qmult_le_compat_r; lra).
  assert (Hbc0 : 0 <= b * c) by now apply Qmult_le_0_compat.
  assert (Hbc1 : b * c <= 1 * (17 # 8)) by (apply Qmult_bound; lra).
  assert (Hq1 : b * c - (1 - x) * (1 + y) <= (33 # 8) * u).
  { setoid_replace (b * c - (1 - x) * (1 + y))
      with (c * (b - (1 - x)) + (1 - x) * (c - (1 + y))) using relation Qeq by ring.
    assert (c * (b - (1 - x)) <= (17 # 8) * u) by (apply Qmult_bound; lra).
    assert ((1 - x) * (c - (1 + y)) <= 1 * (2 * u)) by (apply Qmult_bound; lra).
    lra. }
  assert (Hq2 : (1 - x) * (1 + y) - b * c <= (33 # 8) * u).
  { setoid_replace ((1 - x) * (1 + y) - b * c)
      with (c * ((1 - x) - b) + (1 - x) * ((1 + y) - c)) using relation Qeq by ring.
    assert (c * ((1 - x) - b) <= (17 # 8) * u) by (apply Qmult_bound; lra).
    assert ((1 - x) * ((1 + y) - c) <= 1 * (2 * u)) by (apply Qmult_bound; lra).
    lra. }
  rewrite Hq in Hq1, Hq2. clear Hq.
  set (r := b * c) in *.
  assert (Hru : r * u <= (17 # 8) * u) by (apply Qmult_le_compat_r; lra).
  assert (Hru' : r * u <= r * (1 # 16)) by (apply Qmult_bound; lra).
  assert (Ha3 : a <= 17 # 16) by lra.
  assert (Hd3 : d <= 3) by lra.
  assert (Ha0 : 0 <= a) by lra.
  assert (Hd0 : 0 <= d) by lra.
  assert (Hw : a / 2 + d / 2 == (a + d) * (1 # 2)) by field.
  rewrite Hw in Hv1, Hv2. clear Hw.
  set (w := (a + d) * (1 # 2)) in *.
  assert (Hwu : w * u <= (17 # 8) * u) by (apply Qmult_le_compat_r; unfold w; lra).
  assert (HT2 : (1 + T - F) / 2 == (1 + T - F) * (1 # 2)) by field.
  rewrite HT2. unfold w in *. split; lra.
Qed.

Lemma fl_error (q : Qc) :
  (0 <= q)%Qc ->
  this (fl q) - this q <= this q * (1 # 2 ^ 53)
  /\ this q - this (fl q) <= this q * (1 # 2 ^ 53).
Proof.
  intros H. rewrite this_fl. apply Qfl_error. exact H.
Qed.

(** The area under the curve through the origin, the rounded point
    [(F, T)] and [(1, 1)], computed in doubles, is within [2^-50] of
    [(1 + T - F) / 2]. *)
Lemma three_point_near (F T : Qc) :
  (0 <= F)%Qc -> (F <= 1)%Qc -> (0 <= T)%Qc -> (T <= 1)%Qc ->
  this (three_point (fl F) (fl T)) - (1 + this T - this F) / 2 <= 1 # 2 ^ 50
  /\ (1 + this T - this F) / 2 - this (three_point (fl F) (fl T)) <= 1 # 2 ^ 50.
Proof.
  intros HF0 HF1 HT0 HT1.
  pose proof (fl_nonneg F HF0) as Hx0. pose proof (fl_le_1 F HF0 HF1) as Hx1.
  pose proof (fl_nonneg T HT0) as Hy0. pose proof (fl_le_1 T HT0 HT1) as Hy1.
  destruct (fl_error F HF0) as [Ex1 Ex2]. destruct (fl_error T HT0) as [Ey1 Ey2].
  assert (Hb0' : (0 <= 1 - fl F)%Qc).
  { unfold Qcle in *. rewrite this_minus. change (this 0%Qc) with 0 in *.
    change (this 1%Qc) with 1 in *. lra. }
  assert (Hc0' : (0 <= 1 + fl T)%Qc).
  { unfold Qcle in *. rewrite this_plus. change (this 0%Qc) with 0 in *.
    change (this 1%Qc) with 1 in *. lra. }
  assert (Hb1' : (1 - fl F <= 1)%Qc).
  { unfold Qcle in *. rewrite this_minus. change (this 0%Qc) with 0 in *.
    change (this 1%Qc) with 1 in *. lra. }
  pose proof (fl_nonneg _ Hb0') as Hb0. pose proof (fl_le_1 _ Hb0' Hb1') as Hb1.
  pose proof (fl_nonneg _ Hc0') as Hc0.
  assert (Hp0 : (0 <= fl F * fl T)%Qc) by now apply Qc_mult_nonneg.
  assert (Hr0 : (0 <= fl (1 - fl F) * fl (1 + fl T))%Qc) by now apply Qc_mult_nonneg.
  pose proof (fl_nonneg _ Hp0) as Ha0. pose proof (fl_nonneg _ Hr0) as Hd0.
  destruct (fl_error _ Hp0) as [Ea1 Ea2]. destruct (fl_error _ Hb0') as [Eb1 Eb2].
  destruct (fl_error _ Hc0') as [Ec1 Ec2]. destruct (fl_error _ Hr0) as [Ed1 Ed2].
  set (w := (fl (fl F * fl T) / Q2Qc 2
             + fl (fl (1 - fl F) * fl (1 + fl T)) / Q2Qc 2)%Qc) in *.
  assert (Hw : this w
               == this (fl (fl F * fl T)) / 2
                  + this (fl (fl (1 - fl F) * fl (1 + fl T))) / 2).
  { unfold w. rewrite this_plus, !this_half. reflexivity. }
  assert (Hw0 : (0 <= w)%Qc).
  { unfold Qcle in *. rewrite Hw. change (this 0%Qc) with 0 in *.
    set (a := this (fl (fl F * fl T))) in *.
    set (d := this (fl (fl (1 - fl F) * fl (1 + fl T)))) in *.
    assert (a / 2 + d / 2 == (a + d) * (1 # 2)) as -> by field. lra. }
  destruct (fl_error w Hw0) as [Ev1 Ev2].
  unfold three_point. fold w.
  rewrite this_mult in Ea1, Ea2, Ed1, Ed2.
  rewrite this_minus in Eb1, Eb2. rewrite this_plus in Ec1, Ec2.
  rewrite Hw in Ev1, Ev2.
  unfold Qcle in *. change (this 0%Qc) with 0 in *. change (this 1%Qc) with 1 in *.
  assert (H8 : 1 # 2 ^ 50 == 8 * (1 # 2 ^ 53)) by reflexivity.
  rewrite H8.
  apply (three_point_error (1 # 2 ^ 53) (this F) (this T) (this (fl F)) (this (fl T))
           (this (fl (fl F * fl T))) (this (fl (1 - fl F))) (this (fl (1 + fl T)))
           (this (fl (fl (1 - fl F) * fl (1 + fl T)))) (this (fl w)));
    try assumption; try discriminate.
Qed.

Local Close Scope Q_scope.

(** *** Reading the test file *)

Section ReadCsv.

Variable strtod : Qc -> Qc.

Lemma pad_full (w : nat) (line : list value) : length line = w -> pad w line = line.
Proof. intros <-. unfold pad. rewrite Nat.sub_diag. apply List.app_nil_r. Qed.

Lemma parse_lines_uniform (w k : nat) (file : list (list value)) :
  0 < w -> Forall (fun line => length line = w) file ->
  parse_lines strtod (Some w) k file = Ok (List.map (List.map (read_value strtod)) file).
Proof.
  intros Hw. revert k. induction file as [|line file IH]; intros k H; [reflexivity|].
  apply Forall_cons in H as [Hl H]. cbn [parse_lines List.map].
  destruct line as [|v line]; [cbn in Hl; lia|]. cbn [is_blank].
  rewrite Hl, Nat.ltb_irrefl, IH by exact H. cbn [bind].
  rewrite pad_full; [reflexivity|]. now rewrite List.length_map.
Qed.

(** A file whose lines all have the same number of fields, at least one,
    is read line by line and field by field. *)
Lemma read_csv_headerless_uniform (w : nat) (file : list (list value)) :
  0 < w -> Forall (fun line => length line = w) file -> file <> [] ->
  read_csv_headerless strtod file = Ok (List.map (List.map (read_value strtod)) file).
Proof.
  intros Hw H Hne. unfold read_csv_headerless.
  destruct file as [|line file]; [contradiction|].
  apply Forall_cons in H as [Hl H]. cbn [parse_lines].
  destruct line as [|v line]; [cbn in Hl; lia|]. cbn [is_blank].
  rewrite Hl, parse_lines_uniform by assumption. reflexivity.
Qed.

Lemma parse_lines_raises (width : option nat) (k : nat) (file : list (list value))
  (e : exn) :
  parse_lines strtod width k file = Raise e ->
  exists expected line saw, e = ParserError expected line saw.
Proof.
  revert width k. induction file as [|l file IH]; intros width k H; [discriminate|].
  cbn [parse_lines] in H. destruct (is_blank l); [now apply IH in H|].
  destruct width as [w|].
  - destruct (Nat.ltb w (length l)); [injection H as <-; eauto|].
    destruct (parse_lines strtod (Some w) (S k) file) eqn:E; [discriminate|].
    injection H as <-. now apply IH in E.
  - destruct (parse_lines strtod (Some (length l)) (S k) file) eqn:E; [discriminate|].
    injection H as <-. now apply IH in E.
Qed.

Lemma parse_lines_nil (width : option nat) (k : nat) (file : list (list value)) :
  parse_lines strtod width k file = Ok [] <-> Forall (fun line => line = []) file.
Proof.
  revert width k. induction file as [|l file IH]; intros width k.
  - split; [constructor | reflexivity].
  - cbn [parse_lines]. destruct l as [|v l]; cbn [is_blank].
    + rewrite IH. split; [intros H; now constructor | intros H; now apply Forall_cons in H].
    + split.
      * intros H. exfalso. destruct width as [w|].
        -- destruct (Nat.ltb w (length (v :: l))); [discriminate|].
           destruct (parse_lines strtod (Some w) (S k) file); discriminate.
        -- destruct (parse_lines strtod (Some (length (v :: l))) (S k) file); discriminate.
      * intros H. apply Forall_cons in H as [H _]. discriminate.
Qed.

Lemma read_csv_headerless_raises (file : list (list value)) (e : exn) :
  read_csv_headerless strtod file = Raise e ->
  (e = EmptyDataError /\ Forall (fun line => line = []) file)
  \/ exists expected line saw, e = ParserError expected line saw.
Proof.
  unfold read_csv_headerless. destruct (parse_lines strtod None 1 file) as [df|e'] eqn:E.
  - destruct df; cbn [bind]; [|discriminate]. intros H. injection H as <-.
    left. split; [reflexivity|]. now apply parse_lines_nil in E.
  - cbn [bind]. intros H. injection H as <-. right. now apply parse_lines_raises in E.
Qed.

Lemma read_csv_headerless_blank (file : list (list value)) :
  Forall (fun line => line = []) file ->
  read_csv_headerless strtod file = Raise EmptyDataError.
Proof.
  intros H. unfold read_csv_headerless.
  now rewrite (proj2 (parse_lines_nil None 1 file) H).
Qed.

Lemma parse_lines_long_line (w k : nat) (pre : list (list value)) (l : list value)
  (post : list (list value)) :
  Forall (fun x => length x <= w) pre -> w < length l ->
  parse_lines strtod (Some w) k (pre ++ l :: post)
  = Raise (ParserError w (k + length pre) (length l)).
Proof.
  intros Hpre Hl. revert k. induction pre as [|x pre IH]; intros k.
  - cbn [app parse_lines length]. rewrite Nat.add_0_r.
    destruct l as [|v l]; [cbn in Hl; lia|]. cbn [is_blank].
    now rewrite (proj2 (Nat.ltb_lt _ _) Hl).
  - apply Forall_cons in Hpre as [Hx Hpre]. specialize (IH Hpre (S k)).
    cbn [app parse_lines length]. replace (k + S (length pre)) with (S k + length pre) by lia.
    destruct (is_blank x); [exact IH|].
    rewrite (proj2 (Nat.ltb_ge _ _) Hx), IH. reflexivity.
Qed.

(** The first line with more fields than the first line that is not
    blank stops the reading; the message gives its number in the file. *)
Lemma read_csv_headerless_long_line (blanks : list (list value)) (first : list value)
  (pre : list (list value)) (l : list value) (post : list (list value)) :
  Forall (fun x => x = []) blanks -> first <> [] ->
  Forall (fun x => length x <= length first) pre -> length first < length l ->
  read_csv_headerless strtod (blanks ++ first :: pre ++ l :: post)
  = Raise (ParserError (length first) (length blanks + length pre + 2) (length l)).
Proof.
  intros Hb Hf Hpre Hl. unfold read_csv_headerless.
  assert (H : forall k,
            parse_lines strtod None k (blanks ++ first :: pre ++ l :: post)
            = Raise (ParserError (length first) (k + length blanks + length pre + 1)
                       (length l))).
  { induction blanks as [|x blanks IH]; intros k.
    - cbn [app parse_lines length]. destruct first as [|v first]; [contradiction|].
      cbn [is_blank]. rewrite (parse_lines_long_line _ (S k) pre l post Hpre Hl).
      cbn [bind]. do 2 f_equal. lia.
    - apply Forall_cons in Hb as [-> Hb]. cbn [app parse_lines is_blank length].
      rewrite (IH Hb (S k)). do 2 f_equal. lia. }
  rewrite H. cbn [bind]. do 2 f_equal. lia.
Qed.

Lemma read_csv_headerless_nonempty (file df : list (list value)) :
  read_csv_headerless strtod file = Ok df -> df <> [].
Proof.
  unfold read_csv_headerless.
  destruct (parse_lines strtod None 1 file) as [d|e]; [|discriminate].
  cbn [bind]. destruct d; [discriminate|]. intros H. injection H as <-. discriminate.
Qed.

Lemma parse_lines_length (width : option nat) (k : nat) (file df : list (list value)) :
  parse_lines strtod width k file = Ok df -> length df <= length file.
Proof.
  revert width k df. induction file as [|l file IH]; intros width k df H.
  - injection H as <-. reflexivity.
  - cbn [parse_lines] in H. cbn [length].
    destruct (is_blank l); [apply IH in H; lia|].
    destruct width as [w|].
    + destruct (Nat.ltb w (length l)); [discriminate|].
      destruct (parse_lines strtod (Some w) (S k) file) as [d|] eqn:E; [|discriminate].
      injection H as <-. apply IH in E. cbn [length]. lia.
    + destruct (parse_lines strtod (Some (length l)) (S k) file) as [d|] eqn:E;
        [|discriminate].
      injection H as <-. apply IH in E. cbn [length]. lia.
Qed.

Lemma read_csv_headerless_length (file df : list (list value)) :
  read_csv_headerless strtod file = Ok df -> length df <= length file.
Proof.
  unfold read_csv_headerless.
  destruct (parse_lines strtod None 1 file) as [d|e] eqn:E; [|discriminate].
  cbn [bind]. destruct d; [discriminate|]. intros H. injection H as <-.
  now apply parse_lines_length in E.
Qed.

End ReadCsv.

(** *** The metrics *)

Lemma Zfrac_bounds (a b : Z) :
  (0 <= a <= b)%Z -> (0 <= Zfrac a b)%Qc /\ (Zfrac a b <= 1)%Qc.
Proof.
  intros [Ha Hb]. unfold Zfrac, Qcle. cbn [this Q2Qc].
  rewrite !Qred_correct. unfold Qle. cbn [Qnum Qden].
  split; [lia|].
  destruct b as [|b|b]; cbn [Z.to_pos]; lia.
Qed.

Lemma matches_le (ys ps : list Z) : matches ys ps <= length ys.
Proof.
  revert ps. induction ys as [|y ys IH]; intros ps; [cbn; lia|].
  destruct ps as [|p ps]; cbn [matches length]; [lia|].
  specialize (IH ps). destruct (y =? p)%Z; lia.
Qed.

(** The agreements counted with the functions of the standard library. *)
Lemma matches_filter (ys ps : list Z) :
  matches ys ps
  = length (List.filter (fun yp => (fst yp =? snd yp)%Z) (combine ys ps)).
Proof.
  revert ps. induction ys as [|y ys IH]; intros ps; [reflexivity|].
  destruct ps as [|p ps]; [reflexivity|].
  cbn [matches combine List.filter fst snd]. rewrite IH.
  destruct (y =? p)%Z; reflexivity.
Qed.

(** A column of 0 and 1 is an array of numbers. *)
Lemma numeric_target_binary (y_true : list value) :
  Forall (fun v => exists y, v = VInt y /\ (y = 0 \/ y = 1)%Z) y_true ->
  numeric_target y_true = true.
Proof.
  intros H. unfold numeric_target. apply orb_true_iff. left.
  apply List.forallb_forall. intros v Hv. rewrite List.Forall_forall in H.
  destruct (H v Hv) as (y & -> & [-> | ->]); reflexivity.
Qed.

Lemma labels_of_length (vs : list value) (ys : list Z) :
  labels_of vs = Ok ys -> length ys = length vs.
Proof.
  revert ys. induction vs as [|v vs IH]; intros ys H; cbn [labels_of] in H.
  - injection H as <-. reflexivity.
  - destruct (label_of_value v); cbn [bind] in H; [|discriminate].
    destruct (labels_of vs) as [zs|]; cbn [bind] in H; [|discriminate].
    injection H as <-. cbn [length]. f_equal. now apply IH.
Qed.

Lemma scores_of_nonempty (c : Z) (ys scores : list Z) :
  In c ys -> length scores = length ys -> scores_of c ys scores <> [].
Proof.
  revert scores. induction ys as [|y ys IH]; intros scores Hin Hlen; [contradiction|].
  destruct scores as [|s scores]; [discriminate|]. injection Hlen as Hlen.
  unfold scores_of in *. cbn [combine List.filter fst].
  destruct (y =? c)%Z eqn:E; [discriminate|].
  apply Z.eqb_neq in E. destruct Hin as [->|Hin]; [contradiction|].
  now apply IH.
Qed.

Lemma scores_of_binary (c : Z) (ys scores : list Z) :
  binary scores -> binary (scores_of c ys scores).
Proof.
  intros H. apply List.Forall_forall. intros s Hs. unfold scores_of in Hs.
  apply List.in_map_iff in Hs as ([y s'] & <- & Hin).
  apply List.filter_In in Hin as [Hin _]. apply in_combine_r in Hin.
  unfold binary in H. rewrite List.Forall_forall in H. now apply H.
Qed.

Lemma accuracy_score_ok (y_true : list value) (y_pred : list Z) (acc : Qc) :
  accuracy_score y_true y_pred = Ok acc ->
  exists ys,
    labels_of y_true = Ok ys
    /\ length y_pred = length ys
    /\ acc = fl (Zfrac (Z.of_nat (matches ys y_pred)) (Z.of_nat (length ys))).
Proof.
  unfold accuracy_score.
  destruct (Nat.eqb (length y_true) (length y_pred)) eqn:E; [|discriminate].
  apply Nat.eqb_eq in E. cbn [negb].
  destruct (labels_of y_true) as [ys|e] eqn:El; [|discriminate].
  cbn [bind]. intros H. injection H as <-. exists ys.
  split; [reflexivity|]. split; [|reflexivity].
  apply labels_of_length in El. congruence.
Qed.

(** What [roc_auc_score] returns, when it returns. *)
Lemma roc_auc_score_ok (y_true : list value) (y_score : list Z) (area : Qc) :
  roc_auc_score y_true y_score = Ok area ->
  exists ys c c',
    labels_of y_true = Ok ys
    /\ remove_dups ys = [c; c']
    /\ length y_score = length ys
    /\ scores_of (Z.max c c') ys y_score <> []
    /\ scores_of (Z.min c c') ys y_score <> []
    /\ area = auc (roc_curve (scores_of (Z.max c c') ys y_score)
                     (scores_of (Z.min c c') ys y_score)).
Proof.
  unfold roc_auc_score. destruct (labels_of y_true) as [ys|e] eqn:El; [|discriminate].
  cbn [bind]. destruct (remove_dups ys) as [|c [|c' [|c'' l]]] eqn:Er; try discriminate.
  destruct (Nat.eqb (length y_true) (length y_score)) eqn:E; [|discriminate].
  apply Nat.eqb_eq in E. cbn [negb]. intros H. injection H as <-.
  assert (Hlen : length y_score = length ys).
  { apply labels_of_length in El. congruence. }
  assert (Hc : In c ys /\ In c' ys).
  { split; apply list_elem_of_In, elem_of_remove_dups; rewrite Er;
      apply list_elem_of_In; cbn; auto. }
  destruct Hc as [Hc Hc'].
  assert (Hmax : In (Z.max c c') ys)
    by (destruct (Z.max_spec c c') as [[_ ->]|[_ ->]]; assumption).
  assert (Hmin : In (Z.min c c') ys)
    by (destruct (Z.min_spec c c') as [[_ ->]|[_ ->]]; assumption).
  exists ys, c, c'. split; [reflexivity|]. split; [exact Er|]. split; [exact Hlen|].
  split; [now apply scores_of_nonempty|]. split; [now apply scores_of_nonempty|].
  reflexivity.
Qed.

Lemma Q2Qc_this (p : Qc) : Q2Qc (this p) = p.
Proof. apply Qc_is_canon. apply Qred_correct. Qed.

(** A probability is rounded to 0 or to 1. *)
Lemma np_round_unit (p : Qc) :
  (0 <= p)%Qc -> (p <= 1)%Qc -> (np_round p = 0 \/ np_round p = 1)%Z.
Proof.
  intros H0 H1. destruct (np_round_near (this p)) as [Hl Hu].
  rewrite Q2Qc_this in Hl, Hu. unfold Qcle in *.
  change (this 0%Qc) with 0%Q in H0. change (this 1%Qc) with 1%Q in H1.
  assert (Hlo : (inject_Z (- 1) < inject_Z (np_round p))%Q).
  { change (inject_Z (- 1)) with (- 1)%Q. lra. }
  assert (Hhi : (inject_Z (np_round p) < inject_Z 2)%Q).
  { change (inject_Z 2) with 2%Q. lra. }
  rewrite <- Zlt_Qlt in Hlo, Hhi. lia.
Qed.

Lemma np_round_binary (predictions : list Qc) :
  Forall (fun p => (0 <= p)%Qc /\ (p <= 1)%Qc) predictions ->
  binary (List.map np_round predictions).
Proof.
  intros H. unfold binary. apply List.Forall_forall. intros s Hs.
  apply List.in_map_iff in Hs as (p & <- & Hp).
  rewrite List.Forall_forall in H. destruct (H p Hp). now apply np_round_unit.
Qed.

(** For scores that are 0 or 1, the area that [roc_auc_score] returns is
    that under three points, and within [2^-50] of the mean of the rate of
    positives scored 1 and the rate of negatives scored 0. *)
Lemma roc_auc_score_binary (y_true : list value) (y_score : list Z) (area : Qc) :
  roc_auc_score y_true y_score = Ok area ->
  binary y_score ->
  exists ys c c',
    labels_of y_true = Ok ys
    /\ remove_dups ys = [c; c']
    /\ let pos := scores_of (Z.max c c') ys y_score in
       let neg := scores_of (Z.min c c') ys y_score in
       let tpr := Zfrac (count_score 1 pos) (Z.of_nat (length pos)) in
       let fpr := Zfrac (count_score 1 neg) (Z.of_nat (length neg)) in
       pos <> [] /\ neg <> []
       /\ area = three_point (fl fpr) (fl tpr)
       /\ (area - (tpr + (1 - fpr)) / Q2Qc 2 <= Q2Qc (1 # 2 ^ 50))%Qc
       /\ ((tpr + (1 - fpr)) / Q2Qc 2 - area <= Q2Qc (1 # 2 ^ 50))%Qc.
Proof.
  intros H Hbin.
  destruct (roc_auc_score_ok _ _ _ H) as (ys & c & c' & Hys & Hcls & Hlen & Hpos & Hneg & ->).
  exists ys, c, c'. split; [exact Hys|]. split; [exact Hcls|]. cbv zeta.
  set (pos := scores_of (Z.max c c') ys y_score) in *.
  set (neg := scores_of (Z.min c c') ys y_score) in *.
  assert (Hbp : binary pos) by now apply scores_of_binary.
  assert (Hbn : binary neg) by now apply scores_of_binary.
  split; [exact Hpos|]. split; [exact Hneg|].
  rewrite (auc_binary pos neg Hbp Hbn Hpos Hneg). split; [reflexivity|].
  assert (HP : (0 < Z.of_nat (length pos))%Z) by (destruct pos; [contradiction | cbn; lia]).
  assert (HN : (0 < Z.of_nat (length neg))%Z) by (destruct neg; [contradiction | cbn; lia]).
  pose proof (count_score_bounds 1 pos) as Hcp.
  pose proof (count_score_bounds 1 neg) as Hcn.
  set (tpr := Zfrac (count_score 1 pos) (Z.of_nat (length pos))).
  set (fpr := Zfrac (count_score 1 neg) (Z.of_nat (length neg))).
  assert (Ht0 : (0 <= tpr)%Qc) by (apply Zfrac_nonneg; lia).
  assert (Ht1 : (tpr <= 1)%Qc) by (apply Zfrac_le_1; lia).
  assert (Hf0 : (0 <= fpr)%Qc) by (apply Zfrac_nonneg; lia).
  assert (Hf1 : (fpr <= 1)%Qc) by (apply Zfrac_le_1; lia).
  destruct (three_point_near fpr tpr Hf0 Hf1 Ht0 Ht1) as [Hup Hdown].
  assert (Hmean : (this ((tpr + (1 - fpr)) / Q2Qc 2)%Qc
                   == (1 + this tpr - this fpr) / 2)%Q).
  { rewrite this_half, this_plus, this_minus. change (this 1%Qc) with 1%Q. field. }
  unfold Qcle. rewrite !this_minus, Hmean.
  change (this (Q2Qc (1 # 2 ^ 50))) with (1 # 2 ^ 50)%Q. split; assumption.
Qed.

(** *** The script *)

Section EvaluateScript.

Context {DMatrix : Type}.
Implicit Types (env : environment DMatrix) (model : Booster DMatrix).

(** The steps behind a report. *)
Lemma evaluate_inv env (report : json) :
  evaluate env = Ok report ->
  exists model df X_test predictions acc area,
    extract_model env = Ok tt
    /\ load_model env = Ok model
    /\ read_csv_headerless (float_parser env) (test_file env) = Ok df
    /\ xgboost_DMatrix env (drop_first_column df) = Ok X_test
    /\ predict model X_test = Ok predictions
    /\ (if numeric_target (first_column df)
        then exists ys,
               labels_of (first_column df) = Ok ys
               /\ length predictions = length ys
               /\ length ys = length df
               /\ acc = fl (Zfrac (Z.of_nat (matches ys (List.map np_round predictions)))
                             (Z.of_nat (length ys)))
               /\ roc_auc_score (first_column df) (List.map np_round predictions)
                  = Ok area
        else accuracy_score_objects env (first_column df) (List.map np_round predictions)
             = Ok acc
             /\ roc_auc_score_objects env (first_column df)
                  (List.map np_round predictions)
                = Ok area)
    /\ write_report env = Ok tt
    /\ report = report_dict acc area.
Proof.
  unfold evaluate, load_test, on_target. intros H.
  destruct (extract_model env) as [[]|e] eqn:E1; [|discriminate]. cbn [bind] in H.
  destruct (load_model env) as [model|e] eqn:E2; [|discriminate]. cbn [bind] in H.
  destruct (read_csv_headerless (float_parser env) (test_file env)) as [df|e] eqn:E3;
    [|discriminate].
  cbn [bind fst snd] in H.
  destruct (xgboost_DMatrix env (drop_first_column df)) as [X_test|e] eqn:E4;
    [|discriminate]. cbn [bind] in H.
  destruct (predict model X_test) as [predictions|e] eqn:E5; [|discriminate].
  cbn [bind] in H.
  exists model, df, X_test, predictions.
  destruct (numeric_target (first_column df)).
  - destruct (accuracy_score _ _) as [acc|e] eqn:E6; [|discriminate]. cbn [bind] in H.
    destruct (roc_auc_score _ _) as [area|e] eqn:E7; [|discriminate]. cbn [bind] in H.
    destruct (write_report env) as [[]|e] eqn:E8; [|discriminate]. cbn [bind] in H.
    injection H as <-.
    apply accuracy_score_ok in E6 as (ys & Hys & Hlen & ->).
    rewrite List.length_map in Hlen.
    eexists. exists area. do 5 (split; [first [reflexivity | assumption]|]).
    split; [|split; first [reflexivity | assumption]].
    exists ys. split; [exact Hys|]. split; [exact Hlen|].
    split; [|split; first [reflexivity | exact E7]].
    apply labels_of_length in Hys. unfold first_column in Hys.
    now rewrite List.length_map in Hys.
  - destruct (accuracy_score_objects env _ _) as [acc|e] eqn:E6; [|discriminate].
    cbn [bind] in H.
    destruct (roc_auc_score_objects env _ _) as [area|e] eqn:E7; [|discriminate].
    cbn [bind] in H.
    destruct (write_report env) as [[]|e] eqn:E8; [|discriminate]. cbn [bind] in H.
    injection H as <-. exists acc, area.
    do 5 (split; [first [reflexivity | assumption]|]).
    split; [split; reflexivity|]. split; reflexivity.
Qed.

(** When every step returns, the labels are numbers of two classes and
    the model gives one prediction per row, the report is written. *)
Lemma evaluate_completes env model (df : list (list value)) (X_test : DMatrix)
  (predictions : list Qc) (ys : list Z) (c c' : Z) :
  extract_model env = Ok tt ->
  load_model env = Ok model ->
  read_csv_headerless (float_parser env) (test_file env) = Ok df ->
  xgboost_DMatrix env (drop_first_column df) = Ok X_test ->
  predict model X_test = Ok predictions ->
  length predictions = length df ->
  numeric_target (first_column df) = true ->
  labels_of (first_column df) = Ok ys ->
  remove_dups ys = [c; c'] ->
  write_report env = Ok tt ->
  exists report, evaluate env = Ok report.
Proof.
  intros H1 H2 H3 H4 H5 Hlen Hnum Hys Hcls H8. unfold evaluate, load_test, on_target.
  rewrite H1, H2, H3. cbn [bind fst snd]. rewrite H4. cbn [bind]. rewrite H5. cbn [bind].
  rewrite Hnum.
  assert (Hl : length (first_column df) = length (List.map np_round predictions)).
  { unfold first_column. rewrite !List.length_map. now symmetry. }
  unfold accuracy_score, roc_auc_score. rewrite Hl, Nat.eqb_refl, Hys. cbn [negb bind].
  rewrite Hcls, H8. cbn [bind]. eauto.
Qed.

(** C6. When the script completes it has unpacked the archive and loaded
    the model from it, read the test file, made a matrix of the columns
    after the first and taken the predictions of the model for it.  The
    document it then writes is [report_dict acc area], where [acc] is what
    [accuracy_score] and [area] what [roc_auc_score] returned for column 0
    and the rounded predictions.  For a column 0 of numbers (or of
    booleans), [acc] is the share of the rows whose rounded prediction
    equals the label and [area] the area under the ROC curve of the
    rounded predictions, both as [float64]; for predictions that are
    probabilities that curve has one point besides the corners, and
    [area] lies within [2^-50] of the mean of the rate of the positive
    class predicted 1 and of the negative class predicted 0.  The numbers
    in the document are exactly these two, at
    [binary_classification_metrics.accuracy.value] and
    [binary_classification_metrics.auc.value]; the two other leaves are
    the text "NaN" under [standard_deviation].  The script completes
    whenever every step returns, the labels are whole numbers of two
    classes and the model gives one prediction per row. *)
Theorem evaluate_reports_accuracy_and_auc env :
  (forall report,
     evaluate env = Ok report ->
     exists model df X_test predictions acc area,
       extract_model env = Ok tt
       /\ load_model env = Ok model
       /\ read_csv_headerless (float_parser env) (test_file env) = Ok df
       /\ xgboost_DMatrix env (drop_first_column df) = Ok X_test
       /\ predict model X_test = Ok predictions
       /\ (let rounded := List.map np_round predictions in
           on_target accuracy_score (accuracy_score_objects env) (first_column df) rounded
           = Ok acc
           /\ on_target roc_auc_score (roc_auc_score_objects env) (first_column df)
                rounded
              = Ok area
           /\ (numeric_target (first_column df) = true ->
               exists ys,
                 labels_of (first_column df) = Ok ys
                 /\ length predictions = length ys
                 /\ (let right :=
                       List.filter (fun yp => (fst yp =? snd yp)%Z) (combine ys rounded) in
                     acc = fl (Zfrac (Z.of_nat (length right)) (Z.of_nat (length ys))))
                 /\ (0 <= acc)%Qc /\ (acc <= 1)%Qc
                 /\ roc_auc_score (first_column df) rounded = Ok area
                 /\ (Forall (fun p => (0 <= p)%Qc /\ (p <= 1)%Qc) predictions ->
                     exists c c',
                       remove_dups ys = [c; c']
                       /\ let pos := scores_of (Z.max c c') ys rounded in
                          let neg := scores_of (Z.min c c') ys rounded in
                          let tpr := Zfrac (count_score 1 pos) (Z.of_nat (length pos)) in
                          let fpr := Zfrac (count_score 1 neg) (Z.of_nat (length neg)) in
                          pos <> [] /\ neg <> []
                          /\ area = three_point (fl fpr) (fl tpr)
                          /\ (area - (tpr + (1 - fpr)) / Q2Qc 2
                              <= Q2Qc (1 # 2 ^ 50))%Qc
                          /\ ((tpr + (1 - fpr)) / Q2Qc 2 - area
                              <= Q2Qc (1 # 2 ^ 50))%Qc)))
       /\ write_report env = Ok tt
       /\ report = report_dict acc area
       /\ json_numbers report
          = [(["binary_classification_metrics"; "accuracy"; "value"], JNum acc);
             (["binary_classification_metrics"; "auc"; "value"], JNum area)]
       /\ List.filter (fun pl => negb (is_number (snd pl))) (json_leaves report)
          = [(["binary_classification_metrics"; "accuracy"; "standard_deviation"],
              JStr "NaN");
             (["binary_classification_metrics"; "auc"; "standard_deviation"],
              JStr "NaN")]
       /\ json_get report
            (split_on "." "binary_classification_metrics.accuracy.value")
          = Some (JNum acc)
       /\ json_get report (split_on "." "binary_classification_metrics.auc.value")
          = Some (JNum area))
  /\ (forall model df X_test predictions ys c c',
        extract_model env = Ok tt ->
        load_model env = Ok model ->
        read_csv_headerless (float_parser env) (test_file env) = Ok df ->
        xgboost_DMatrix env (drop_first_column df) = Ok X_test ->
        predict model X_test = Ok predictions ->
        length predictions = length df ->
        numeric_target (first_column df) = true ->
        labels_of (first_column df) = Ok ys ->
        remove_dups ys = [c; c'] ->
        write_report env = Ok tt ->
        exists report, evaluate env = Ok report).
Proof.
  split.
  - intros report H.
    destruct (evaluate_inv env report H)
      as (model & df & X_test & predictions & acc & area
          & H1 & H2 & H3 & H4 & H5 & Hm & H8 & ->).
    exists model, df, X_test, predictions, acc, area.
    do 5 (split; [assumption|]). split.
    { cbv zeta. unfold on_target.
      destruct (numeric_target (first_column df)).
      - destruct Hm as (ys & Hys & Hlen & Hlen' & Hacc & Hauc).
        assert (Haccs : accuracy_score (first_column df) (List.map np_round predictions)
                        = Ok acc).
        { unfold accuracy_score. unfold first_column at 1.
          rewrite !List.length_map, <- Hlen', Hlen, Nat.eqb_refl. cbn [negb].
          rewrite Hys. cbn [bind]. now rewrite Hacc. }
        split; [exact Haccs|]. split; [exact Hauc|]. intros _.
        exists ys. split; [exact Hys|]. split; [exact Hlen|].
        rewrite <- matches_filter. split; [exact Hacc|].
        assert (Hb : (0 <= Zfrac (Z.of_nat (matches ys (List.map np_round predictions)))
                            (Z.of_nat (length ys)))%Qc
                     /\ (Zfrac (Z.of_nat (matches ys (List.map np_round predictions)))
                           (Z.of_nat (length ys)) <= 1)%Qc).
        { apply Zfrac_bounds.
          pose proof (matches_le ys (List.map np_round predictions)). lia. }
        destruct Hb as [Hb0 Hb1].
        split; [rewrite Hacc; now apply fl_nonneg|].
        split; [rewrite Hacc; now apply fl_le_1|].
        split; [exact Hauc|]. intros Hprob.
        destruct (roc_auc_score_binary _ _ _ Hauc (np_round_binary _ Hprob))
          as (ys' & c & c' & Hys' & Hcls & Hrest).
        assert (ys' = ys) by congruence. subst ys'.
        exists c, c'. split; [exact Hcls | exact Hrest].
      - destruct Hm as [Hacc Hauc]. split; [exact Hacc|]. split; [exact Hauc|].
        intros Hfalse. discriminate Hfalse. }
    split; [exact H8|]. repeat split.
  - intros model df X_test predictions ys c c'. apply evaluate_completes.
Qed.

End EvaluateScript.

(** Five test rows, labels 1 0 1 0 1, a model that predicts a tenth of
    the only feature: the script completes. *)
Lemma evaluate_reports_accuracy_and_auc_witness :
  exists report,
    evaluate
      (plain_run
         (fun row => match row with VInt z :: _ => Q2Qc (z # 10) | _ => Q2Qc 0 end)
         [[VInt 1; VInt 9]; [VInt 0; VInt 2]; [VInt 1; VInt 5]; [VInt 0; VInt 7];
          [VInt 1; VInt 6]])
    = Ok report.
Proof.
  apply (proj2 (evaluate_reports_accuracy_and_auc
           (plain_run
              (fun row => match row with VInt z :: _ => Q2Qc (z # 10) | _ => Q2Qc 0 end)
              [[VInt 1; VInt 9]; [VInt 0; VInt 2]; [VInt 1; VInt 5]; [VInt 0; VInt 7];
               [VInt 1; VInt 6]]))
         (row_model
            (fun row => match row with VInt z :: _ => Q2Qc (z # 10) | _ => Q2Qc 0 end))
         [[VInt 1; VInt 9]; [VInt 0; VInt 2]; [VInt 1; VInt 5]; [VInt 0; VInt 7];
          [VInt 1; VInt 6]]
         [[VInt 9]; [VInt 2]; [VInt 5]; [VInt 7]; [VInt 6]]
         [Q2Qc (9 # 10); Q2Qc (2 # 10); Q2Qc (5 # 10); Q2Qc (7 # 10); Q2Qc (6 # 10)]
         [1; 0; 1; 0; 1]%Z 0%Z 1%Z); reflexivity.
Defined.

(** ** The preprocessing script *)

(** *** The split boundaries *)

Local Open Scope Z_scope.

(** Rounding to 53 significant bits moves a number by at most its
    [2^-53]-th part. *)
Lemma round53_error (P : Z) :
  0 <= P ->
  0 <= round53 P /\ 2 ^ 53 * (round53 P - P) <= P /\ 2 ^ 53 * (P - round53 P) <= P.
Proof.
  intros HP. unfold round53.
  destruct (Z.log2 P - 52 <=? 0) eqn:Es.
  - lia.
  - apply Z.leb_gt in Es.
    set (s := Z.log2 P - 52) in *.
    assert (Hpos : 0 < P).
    { destruct (Z.eq_dec P 0) as [->|]; [cbn in s; lia | lia]. }
    assert (Hlog : 2 ^ (s + 52) <= P).
    { replace (s + 52) with (Z.log2 P) by lia. apply Z.log2_spec. exact Hpos. }
    assert (Hh : 2 ^ s = 2 * 2 ^ (s - 1)).
    { replace s with (Z.succ (s - 1)) at 1 by lia. apply Z.pow_succ_r. lia. }
    assert (Hs52 : 2 ^ (s + 52) = 2 ^ 53 * 2 ^ (s - 1)).
    { replace (s + 52) with (53 + (s - 1)) by lia. apply Z.pow_add_r; lia. }
    assert (Hhpos : 0 < 2 ^ (s - 1)) by (apply Z.pow_pos_nonneg; lia).
    pose proof (Z.div_mod P (2 ^ s) ltac:(lia)) as Hdm.
    pose proof (Z.mod_pos_bound P (2 ^ s) ltac:(lia)) as Hr.
    assert (Hq : 0 <= P / 2 ^ s) by (apply Z.div_pos; lia).
    set (q := P / 2 ^ s) in *. set (r := P mod 2 ^ s) in *.
    set (h := 2 ^ (s - 1)) in *.
    assert (Hb : 2 ^ 53 * h <= P) by lia.
    destruct (r <? h) eqn:E1; [apply Z.ltb_lt in E1; nia|].
    apply Z.ltb_ge in E1.
    destruct (h <? r) eqn:E2; [apply Z.ltb_lt in E2; nia|].
    apply Z.ltb_ge in E2.
    destruct (Z.even q); nia.
Qed.

Lemma int_of_product_ordered (n a b : nat) :
  int_of_product m07 n = Ok a -> int_of_product m09 n = Ok b ->
  (a <= b <= n)%nat.
Proof.
  unfold int_of_product, float_of_int.
  destruct (2 ^ 1024 <=? round53 (Z.of_nat n)); [discriminate|].
  cbn [bind]. intros Ha Hb. inversion Ha; inversion Hb; subst. clear Ha Hb.
  destruct (round53_error (Z.of_nat n) ltac:(lia)) as (Hx0 & Hx1 & Hx2).
  set (x := round53 (Z.of_nat n)) in *.
  destruct (round53_error (m07 * x) ltac:(unfold m07; lia)) as (H70 & H71 & H72).
  destruct (round53_error (m09 * x) ltac:(unfold m09; lia)) as (H90 & H91 & H92).
  set (R7 := round53 (m07 * x)) in *. set (R9 := round53 (m09 * x)) in *.
  unfold m07, m09 in *.
  assert (H79 : R7 <= R9) by lia.
  assert (H9n : R9 <= Z.of_nat n * 2 ^ 53) by lia.
  split.
  - apply Z2Nat.inj_le; try (apply Z.div_pos; lia).
    apply Z.div_le_mono; lia.
  - apply Nat2Z.inj_le. rewrite Z2Nat.id by (apply Z.div_pos; lia).
    apply Z.div_le_upper_bound; lia.
Qed.

Lemma int_of_product_ok (m : Z) (n : nat) :
  Z.of_nat n < 2 ^ 1023 -> exists a, int_of_product m n = Ok a.
Proof.
  intros Hn. unfold int_of_product, float_of_int.
  destruct (round53_error (Z.of_nat n) ltac:(lia)) as (Hx0 & Hx1 & Hx2).
  destruct (2 ^ 1024 <=? round53 (Z.of_nat n)) eqn:E.
  - apply Z.leb_le in E. exfalso.
    assert (H : 2 ^ 1024 = 2 * 2 ^ 1023) by reflexivity.
    lia.
  - cbn [bind]. eauto.
Qed.

Local Close Scope Z_scope.

(** *** Slices and selections *)

Lemma slice_from_0 {A} (a : nat) (l : list A) : slice 0 a l = take a l.
Proof. unfold slice. now rewrite Nat.sub_0_r, drop_0. Qed.

Lemma length_slice {A} (a b : nat) (l : list A) :
  b <= length l -> length (slice a b l) = b - a.
Proof. intros H. unfold slice. rewrite length_take, length_drop. lia. Qed.

(** Three consecutive slices give the list back. *)
Lemma slice_partition {A} (a b : nat) (l : list A) :
  a <= b <= length l ->
  slice 0 a l ++ slice a b l ++ slice b (length l) l = l.
Proof.
  intros [Hab Hb]. rewrite slice_from_0. unfold slice.
  rewrite app_assoc, take_take_drop.
  replace (a + (b - a)) with b by lia.
  rewrite (take_ge (drop b l)) by (rewrite length_drop; lia).
  apply take_drop.
Qed.

Lemma omap_ext_in {A B} (f g : A -> option B) (l : list A) :
  (forall x, In x l -> f x = g x) -> omap f l = omap g l.
Proof.
  induction l as [|x l IH]; intros H; [reflexivity|].
  cbn [omap list_omap]. rewrite (H x) by now left.
  rewrite IH; [reflexivity|]. intros y Hy. apply H. now right.
Qed.

(** Reading a list at the positions [0; 1; ...] gives it back. *)
Lemma omap_lookup_seq {A} (l : list A) :
  omap (fun i => l !! i) (seq 0 (length l)) = l.
Proof.
  induction l as [|x l IH] using rev_ind; [reflexivity|].
  rewrite length_app. cbn [length]. rewrite seq_app, omap_app. cbn [Nat.add seq].
  rewrite (omap_ext_in _ (fun i => l !! i)).
  - rewrite IH. cbn [omap list_omap]. rewrite list_lookup_middle by reflexivity.
    reflexivity.
  - intros i Hi. apply in_seq in Hi. apply lookup_app_l. lia.
Qed.

Lemma select_map_filter {A} (f : A -> bool) (l : list A) :
  select (List.map f l) l = List.filter f l.
Proof.
  induction l as [|x l IH]; [reflexivity|].
  cbn [List.map select List.filter]. rewrite IH. reflexivity.
Qed.

Lemma select_In {A} (mask : list bool) (l : list A) (x : A) :
  In x (select mask l) -> In x l.
Proof.
  revert l. induction mask as [|b mask IH]; intros [|y l] H; try contradiction.
  cbn [select] in H. destruct b.
  - destruct H as [<-|H]; [now left | right; now apply IH].
  - right. now apply IH.
Qed.

Lemma length_select {A B} (mask : list bool) (l : list A) (l' : list B) :
  length l = length l' -> length (select mask l) = length (select mask l').
Proof.
  revert l l'. induction mask as [|b mask IH]; intros [|x l] [|y l'] H;
    try reflexivity; try discriminate.
  cbn [select]. injection H as H. destruct b; cbn [length]; rewrite (IH l l' H);
    reflexivity.
Qed.

Lemma select_app {A} (m1 m2 : list bool) (l1 l2 : list A) :
  length m1 = length l1 ->
  select (m1 ++ m2) (l1 ++ l2) = select m1 l1 ++ select m2 l2.
Proof.
  revert l1. induction m1 as [|b m1 IH]; intros [|x l1] H; try discriminate.
  - reflexivity.
  - injection H as H. cbn [app select]. rewrite (IH l1 H).
    destruct b; reflexivity.
Qed.

Lemma select_all_false {A} (mask : list bool) (l : list A) :
  Forall (fun b => b = false) mask -> select mask l = [].
Proof.
  revert l. induction mask as [|b mask IH]; intros l H; [reflexivity|].
  destruct l as [|x l]; [reflexivity|].
  apply Forall_cons in H as [-> H]. cbn [select]. now apply IH.
Qed.

(** *** Shuffling and splitting *)

Section Split.

Variable sample_order : nat -> list nat.

(** The order drawn for [n] rows is an arrangement of their positions. *)
Hypothesis sample_order_perm : forall n, Permutation (sample_order n) (seq 0 n).

Lemma sample_rows_perm (df : DataFrame) :
  Permutation (rows (sample sample_order df)) (rows df).
Proof.
  unfold sample. cbn [rows]. rewrite (sample_order_perm (len df)).
  unfold len. now rewrite omap_lookup_seq.
Qed.

Lemma len_sample (df : DataFrame) : len (sample sample_order df) = len df.
Proof. unfold len. apply Permutation_length, sample_rows_perm. Qed.

Lemma split_data_partition (model_data train validation test : DataFrame) :
  split_data sample_order model_data = Ok (train, validation, test) ->
  exists a b,
    int_of_product m07 (len model_data) = Ok a
    /\ int_of_product m09 (len model_data) = Ok b
    /\ a <= b <= len model_data
    /\ train = slice_rows 0 a (sample sample_order model_data)
    /\ validation = slice_rows a b (sample sample_order model_data)
    /\ test = slice_rows b (len model_data) (sample sample_order model_data)
    /\ len train = a
    /\ len validation = b - a
    /\ len test = len model_data - b
    /\ rows train ++ rows validation ++ rows test
       = rows (sample sample_order model_data).
Proof.
  unfold split_data. intros H.
  destruct (int_of_product m07 (len model_data)) as [a|e] eqn:Ea; [|discriminate].
  destruct (int_of_product m09 (len model_data)) as [b|e] eqn:Eb; [|discriminate].
  cbn [bind] in H. unfold np_split in H. rewrite len_sample in H.
  inversion H; subst. clear H.
  pose proof (int_of_product_ordered _ _ _ Ea Eb) as Hab.
  pose proof (len_sample model_data) as Hlen.
  assert (Hslice : forall s e,
            e <= len model_data ->
            len (slice_rows s e (sample sample_order model_data)) = e - s).
  { intros s e He. unfold len, slice_rows. cbn [rows].
    apply length_slice. unfold len in Hlen, He. lia. }
  exists a, b.
  split; [reflexivity|]. split; [reflexivity|]. split; [exact Hab|].
  split; [reflexivity|]. split; [reflexivity|]. split; [reflexivity|].
  split; [rewrite Hslice; lia|]. split; [rewrite Hslice; lia|].
  split; [rewrite Hslice; lia|].
  unfold slice_rows. cbn [rows]. rewrite <- Hlen. unfold len.
  apply slice_partition. unfold len in Hlen, Hab. lia.
Qed.

End Split.

(** *** Labels that occur once *)

Lemma existsb_eqb_In (n : string) (names : list string) :
  List.existsb (String.eqb n) names = true <-> In n names.
Proof.
  rewrite List.existsb_exists. split.
  - intros (x & Hx & He). apply String.eqb_eq in He. now subst.
  - intros H. exists n. split; [exact H | apply String.eqb_refl].
Qed.

Lemma is_unique_NoDup (names : list string) : is_unique names = true <-> NoDup names.
Proof.
  induction names as [|n names IH]; cbn [is_unique].
  - split; [intros _; constructor | reflexivity].
  - rewrite andb_true_iff, negb_true_iff, NoDup_cons, IH, list_elem_of_In.
    rewrite <- existsb_eqb_In. destruct (List.existsb (String.eqb n) names); intuition congruence.
Qed.

Lemma NoDup_list_filter {A} (f : A -> bool) (l : list A) :
  NoDup l -> NoDup (List.filter f l).
Proof.
  induction l as [|x l IH]; intros H; [constructor|].
  apply NoDup_cons in H as [Hx Hl]. cbn [List.filter].
  destruct (f x); [|now apply IH].
  apply NoDup_cons. split; [|now apply IH].
  rewrite list_elem_of_In in *. intros Hin. apply Hx.
  now apply List.filter_In in Hin as [Hin _].
Qed.

(** *** Dropping and relabelling columns *)

Lemma filter_filter_andb {A} (f g : A -> bool) (l : list A) :
  List.filter g (List.filter f l) = List.filter (fun x => f x && g x) l.
Proof.
  induction l as [|x l IH]; [reflexivity|].
  cbn [List.filter]. destruct (f x); cbn [List.filter andb]; rewrite IH; reflexivity.
Qed.

Lemma filter_map_comm {A B} (h : A -> B) (g : B -> bool) (l : list A) :
  List.filter g (List.map h l) = List.map h (List.filter (fun x => g (h x)) l).
Proof.
  induction l as [|x l IH]; [reflexivity|].
  cbn [List.map List.filter]. destruct (g (h x)); cbn [List.map]; rewrite IH; reflexivity.
Qed.

Lemma select_select {A B} (f g : A -> bool) (cols : list A) (cells : list B) :
  select (List.map g (List.filter f cols)) (select (List.map f cols) cells)
  = select (List.map (fun c => f c && g c) cols) cells.
Proof.
  revert cells. induction cols as [|c cols IH]; intros cells; [reflexivity|].
  destruct cells as [|x cells].
  - cbn [List.map List.filter select]. destruct (f c); cbn [List.map select];
      [destruct (g c)|]; destruct (List.map g (List.filter f cols)); reflexivity.
  - cbn [List.map List.filter select]. destruct (f c); cbn [List.map select andb].
    + destruct (g c); rewrite IH; reflexivity.
    + apply IH.
Qed.

Lemma has_column_In (df : DataFrame) (label : string) :
  has_column df label = true <-> In label (column_names df).
Proof.
  unfold has_column, column_names. rewrite List.existsb_exists, List.in_map_iff.
  split; intros [c [H1 H2]].
  - exists c. split; [|exact H1]. now apply String.eqb_eq.
  - exists c. split; [exact H2|]. now apply String.eqb_eq.
Qed.

Lemma drop_columns_ok (labels : list string) (df df' : DataFrame) :
  drop_columns labels df = Ok df' ->
  (forall l, In l labels -> In l (column_names df))
  /\ df' = select_columns (List.map (fun c => negb (mem_label labels c)) (columns df)) df.
Proof.
  unfold drop_columns.
  destruct (List.filter (fun l => negb (has_column df l)) labels) eqn:E; [|discriminate].
  intros H. inversion H; subst. split; [|reflexivity].
  intros l Hl. apply has_column_In.
  destruct (has_column df l) eqn:Hc; [reflexivity|].
  assert (Hin : In l (List.filter (fun l => negb (has_column df l)) labels)).
  { apply List.filter_In. split; [exact Hl|]. now rewrite Hc. }
  rewrite E in Hin. contradiction.
Qed.

(** A frame with all the labels loses exactly the columns they name. *)
Lemma drop_columns_complete (labels : list string) (df : DataFrame) :
  (forall l, In l labels -> In l (column_names df)) ->
  drop_columns labels df
  = Ok (select_columns (List.map (fun c => negb (mem_label labels c)) (columns df)) df).
Proof.
  intros H. unfold drop_columns.
  destruct (List.filter (fun l => negb (has_column df l)) labels) as [|l ls] eqn:E;
    [reflexivity|].
  assert (Hin : In l (List.filter (fun l => negb (has_column df l)) labels)).
  { rewrite E. now left. }
  apply List.filter_In in Hin as [Hl Hn]. apply H, has_column_In in Hl.
  rewrite Hl in Hn. discriminate.
Qed.

Lemma mem_label_cons (l : string) (labels : list string) (c : string * dtype) :
  mem_label (l :: labels) c = String.eqb (fst c) l || mem_label labels c.
Proof. reflexivity. Qed.

Lemma fst_relabel_object (label : string) (c : string * dtype) :
  fst (relabel_object label c) = fst c.
Proof. unfold relabel_object. now destruct (String.eqb (fst c) label). Qed.

Lemma select_columns_names (labels : list string) (df : DataFrame) (name : string) :
  In name
    (column_names
       (select_columns (List.map (fun c => negb (mem_label labels c)) (columns df)) df))
  <-> In name (column_names df) /\ ~ In name labels.
Proof.
  unfold column_names, select_columns. cbn [columns].
  rewrite select_map_filter, !List.in_map_iff. split.
  - intros (c & <- & Hc). apply List.filter_In in Hc as [Hc Hk]. split; [eauto|].
    intros Hin. apply negb_true_iff in Hk. unfold mem_label in Hk.
    assert (Ht : List.existsb (String.eqb (fst c)) labels = true).
    { apply List.existsb_exists. exists (fst c). split; [exact Hin|].
      apply String.eqb_refl. }
    congruence.
  - intros [(c & <- & Hc) Hn]. exists c. split; [reflexivity|].
    apply List.filter_In. split; [exact Hc|]. apply negb_true_iff.
    destruct (mem_label labels c) eqn:E; [|reflexivity].
    exfalso. apply Hn. unfold mem_label in E.
    apply List.existsb_exists in E as (l & Hl & He).
    apply String.eqb_eq in He. now rewrite He.
Qed.

(** [drop_features] completes on every frame that has the five labels and
    "Area Code". *)
Lemma drop_features_completes (df : DataFrame) :
  (forall l, In l dropped_features -> In l (column_names df)) ->
  In "Area Code" (column_names df) ->
  exists dropped, drop_features df = Ok dropped.
Proof.
  intros Hall Harea. unfold drop_features.
  rewrite (drop_columns_complete ["Phone"] df).
  2:{ intros l [<-|[]]. apply Hall. now left. }
  cbn [bind]. unfold astype_object.
  set (df1 := select_columns _ df).
  assert (H1 : forall name, In name (column_names df) -> name <> "Phone" ->
                            In name (column_names df1)).
  { intros name Hin Hne. apply select_columns_names. split; [exact Hin|].
    intros [Heq|[]]. congruence. }
  rewrite (proj2 (has_column_In df1 "Area Code")) by (apply H1; [exact Harea | discriminate]).
  cbn [bind]. rewrite drop_columns_complete; [eauto|].
  intros l Hl. unfold column_names. cbn [columns]. rewrite List.map_map.
  rewrite (List.map_ext _ fst (fun c => fst_relabel_object "Area Code" c)).
  apply H1.
  - apply Hall. now right.
  - cbn [In] in Hl. intros ->. repeat (destruct Hl as [Hl|Hl]; [discriminate Hl|]).
    exact Hl.
Qed.

(** What [drop_features] leaves: the columns other than the five dropped
    ones, in order, with their cells; "Area Code" has become an [object]
    column. *)
Lemma drop_features_spec (df dropped : DataFrame) :
  drop_features df = Ok dropped ->
  (forall l, In l dropped_features -> In l (column_names df))
  /\ In "Area Code" (column_names df)
  /\ columns dropped
     = List.map (relabel_object "Area Code")
         (List.filter (fun c => negb (mem_label dropped_features c)) (columns df))
  /\ rows dropped
     = List.map
         (fun r =>
            (fst r,
             select (List.map (fun c => negb (mem_label dropped_features c)) (columns df))
               (snd r)))
         (rows df).
Proof.
  unfold drop_features. intros H.
  destruct (drop_columns ["Phone"] df) as [df1|e] eqn:E1; [|discriminate].
  cbn [bind] in H. apply drop_columns_ok in E1 as [Hin1 ->].
  unfold astype_object in H.
  destruct (has_column _ "Area Code") eqn:E2; [|discriminate].
  cbn [bind] in H. apply drop_columns_ok in H as [Hin3 ->].
  cbn [columns rows select_columns] in *.
  set (f := fun c : string * dtype => negb (mem_label ["Phone"] c)) in *.
  set (g := fun c : string * dtype =>
              negb (mem_label ["Day Charge"; "Eve Charge"; "Night Charge"; "Intl Charge"] c)).
  assert (Hfg : forall c, f c && g c = negb (mem_label dropped_features c)).
  { intros c. unfold f, g, dropped_features.
    rewrite (mem_label_cons "Phone"
               ["Day Charge"; "Eve Charge"; "Night Charge"; "Intl Charge"]).
    unfold mem_label at 1. cbn [List.existsb].
    rewrite orb_false_r, negb_orb. reflexivity. }
  assert (Hg : forall c, g (relabel_object "Area Code" c) = g c).
  { intros c. unfold g, mem_label. now rewrite fst_relabel_object. }
  rewrite select_map_filter in *.
  assert (Hsub : forall l, In l (List.map fst (List.filter f (columns df))) ->
                           In l (column_names df)).
  { intros l Hl. apply List.in_map_iff in Hl as (c & <- & Hc).
    apply List.filter_In in Hc as [Hc _]. now apply List.in_map. }
  split; [|split; [|split]].
  - intros l [<-|Hl]; [apply Hin1; now left|].
    apply Hsub. specialize (Hin3 l Hl). unfold column_names in Hin3.
    cbn [columns] in Hin3. rewrite List.map_map in Hin3.
    erewrite List.map_ext in Hin3; [exact Hin3|].
    intros c. now rewrite fst_relabel_object.
  - apply Hsub. apply has_column_In in E2. unfold column_names in E2.
    cbn [columns select_columns] in E2. rewrite select_map_filter in E2. exact E2.
  - rewrite select_map_filter, filter_map_comm.
    rewrite (List.filter_ext _ g Hg), filter_filter_andb.
    rewrite (List.filter_ext _ _ Hfg). reflexivity.
  - rewrite List.map_map. apply List.map_ext. intros r. cbn [fst snd].
    f_equal. rewrite List.map_map, (List.map_ext _ g Hg).
    rewrite (select_map_filter f (columns df)), (select_select f g). apply f_equal2; [|reflexivity].
    apply List.map_ext. intros c. apply Hfg.
Qed.

(** *** One-hot encoding *)

Lemma insert_by_perm {A} (leb : A -> A -> bool) (x : A) (l : list A) :
  Permutation (insert_by leb x l) (x :: l).
Proof.
  induction l as [|y l IH]; cbn [insert_by]; [reflexivity|].
  destruct (leb x y); [reflexivity|]. rewrite IH. apply perm_swap.
Qed.

Lemma sort_by_perm {A} (leb : A -> A -> bool) (l : list A) :
  Permutation (sort_by leb l) l.
Proof.
  induction l as [|x l IH]; [reflexivity|].
  unfold sort_by in *. cbn [List.fold_right]. rewrite insert_by_perm.
  now apply perm_skip.
Qed.

Lemma nth_error_In_combine_seq {A} (l : list A) (s j : nat) (x : A) :
  nth_error l j = Some x -> In (s + j, x) (combine (seq s (length l)) l).
Proof.
  revert s j. induction l as [|y l IH]; intros s j H; [destruct j; discriminate|].
  cbn [length seq combine]. destruct j as [|j].
  - injection H as ->. left. f_equal. lia.
  - right. replace (s + S j) with (S s + j) by lia. now apply IH.
Qed.

Lemma select_nonempty {A} (mask : list bool) (l : list A) :
  length mask = length l -> In true mask -> select mask l <> [].
Proof.
  revert l. induction mask as [|b mask IH]; intros [|x l] Hlen Hin;
    try contradiction; try discriminate.
  injection Hlen as Hlen. cbn [select]. destruct b; [discriminate|].
  destruct Hin as [Hb|Hin]; [discriminate|]. now apply IH.
Qed.

Section Dummies.

Variable float_repr : Qc -> string.
Variable value_leb : value -> value -> bool.

Lemma levels_NoDup (vs : list value) : NoDup (levels value_leb vs).
Proof.
  unfold levels. rewrite sort_by_perm. apply NoDup_remove_dups.
Qed.

(** The levels of a column are its values that are not missing. *)
Lemma levels_In (vs : list value) (v : value) :
  In v (levels value_leb vs) <-> In v vs /\ v <> VNaN.
Proof.
  unfold levels. split.
  - intros H. apply (Permutation_in _ (sort_by_perm _ _)) in H.
    rewrite <- list_elem_of_In, elem_of_remove_dups, list_elem_of_In in H.
    apply List.filter_In in H as [H1 H2]. split; [exact H1|].
    intros ->. discriminate.
  - intros [H1 H2]. apply (Permutation_in _ (Permutation_sym (sort_by_perm _ _))).
    rewrite <- list_elem_of_In, elem_of_remove_dups, list_elem_of_In.
    apply List.filter_In. split; [exact H1|]. now destruct v.
Qed.

Lemma dummy_cells_binary (lv : list value) (v c : value) :
  In c (dummy_cells lv v) -> c = VInt 0 \/ c = VInt 1.
Proof.
  unfold dummy_cells. intros H. apply List.in_map_iff in H as (l & <- & _).
  destruct (decide (v = l)); auto.
Qed.

Lemma dummy_cells_absent (lv : list value) (v : value) :
  ~ In v lv -> count_occ value_eq_dec (dummy_cells lv v) (VInt 1) = 0.
Proof.
  induction lv as [|l lv IH]; intros H; [reflexivity|].
  cbn [dummy_cells List.map]. destruct (decide (v = l)) as [->|Hne].
  - exfalso. apply H. now left.
  - rewrite count_occ_cons_neq by discriminate. apply IH. intros Hin. apply H. now right.
Qed.

(** One indicator is set in the cells a value gets, that of its own
    level. *)
Lemma dummy_cells_one_hot (lv : list value) (v : value) :
  NoDup lv -> In v lv ->
  count_occ value_eq_dec (dummy_cells lv v) (VInt 1) = 1.
Proof.
  induction lv as [|l lv IH]; intros Hnd Hin; [contradiction|].
  apply NoDup_cons in Hnd as [Hl Hnd].
  cbn [dummy_cells List.map]. destruct (decide (v = l)) as [->|Hne].
  - rewrite count_occ_cons_eq by reflexivity. f_equal.
    apply dummy_cells_absent. intros H. apply Hl. now apply list_elem_of_In.
  - rewrite count_occ_cons_neq by discriminate. apply IH; [exact Hnd|].
    destruct Hin as [->|Hin]; [contradiction | exact Hin].
Qed.

Lemma encoded_In (df : DataFrame) (j : nat) (name : string) :
  nth_error (columns df) j = Some (name, object) ->
  In (j, name, levels value_leb (column_values df j)) (encoded value_leb df).
Proof.
  intros H. unfold encoded. apply List.in_map_iff.
  exists (j, (name, object)). split; [reflexivity|].
  apply List.filter_In. split; [|reflexivity].
  exact (nth_error_In_combine_seq (columns df) 0 j _ H).
Qed.

(** In every row, the indicators of an [object] column whose value is
    not missing hold a single 1. *)
Lemma get_dummies_one_hot (df : DataFrame) (j : nat) (r : nat * list value) :
  In r (rows df) -> cell j r <> VNaN ->
  count_occ value_eq_dec
    (dummy_cells (levels value_leb (column_values df j)) (cell j r)) (VInt 1)
  = 1.
Proof.
  intros Hr Hv. apply dummy_cells_one_hot; [apply levels_NoDup|].
  apply levels_In. split; [|exact Hv].
  unfold column_values. now apply List.in_map.
Qed.

Lemma dummy_columns_not_object (prefix : string) (lv : list value) (c : string * dtype) :
  In c (dummy_columns float_repr prefix lv) -> is_object c = false.
Proof.
  unfold dummy_columns. intros H. apply List.in_map_iff in H as (l & <- & _).
  reflexivity.
Qed.

(** No [object] column is left. *)
Lemma get_dummies_no_object (df : DataFrame) (c : string * dtype) :
  In c (columns (get_dummies float_repr value_leb df)) -> is_object c = false.
Proof.
  unfold get_dummies. cbn [columns]. rewrite select_map_filter. intros H.
  apply List.in_app_or in H as [H|H].
  - apply List.filter_In in H as [_ H]. now apply negb_true_iff.
  - apply List.in_flat_map in H as (e & _ & H).
    now apply dummy_columns_not_object in H.
Qed.

Lemma length_dummy_flat_map (enc : list (nat * string * list value))
  (r : nat * list value) :
  length (List.flat_map (fun e => dummy_columns float_repr (snd (fst e)) (snd e)) enc)
  = length (List.flat_map (fun e => dummy_cells (snd e) (cell (fst (fst e)) r)) enc).
Proof.
  induction enc as [|e enc IH]; [reflexivity|].
  cbn [List.flat_map]. rewrite !List.length_app, IH.
  unfold dummy_columns, dummy_cells. now rewrite !List.length_map.
Qed.

End Dummies.

(** *** The label column *)

Lemma zip_with_map_same {A B C D} (f : B -> C -> D) (g : A -> B) (h : A -> C)
  (l : list A) :
  zip_with f (List.map g l) (List.map h l) = List.map (fun x => f (g x) (h x)) l.
Proof.
  induction l as [|x l IH]; [reflexivity|].
  cbn [List.map zip_with]. now rewrite IH.
Qed.

Lemma map_fst_preserved {A B} (F : A * B -> A * B) (l : list (A * B)) :
  (forall r, fst (F r) = fst r) -> List.map fst (List.map F l) = List.map fst l.
Proof.
  intros H. rewrite List.map_map. apply List.map_ext. exact H.
Qed.

Lemma label_first_spec (gd md : DataFrame) :
  label_first gd = Ok md ->
  In "Churn?_True." (column_names gd)
  /\ In "Churn?_False." (column_names gd)
  /\ columns md
     = List.filter (fun c => String.eqb (fst c) "Churn?_True.") (columns gd)
       ++ List.filter
            (fun c => negb (mem_label ["Churn?_False."; "Churn?_True."] c)) (columns gd)
  /\ rows md
     = List.map
         (fun r =>
            (fst r,
             select (List.map (fun c => String.eqb (fst c) "Churn?_True.") (columns gd))
               (snd r)
             ++ select
                  (List.map
                     (fun c => negb (mem_label ["Churn?_False."; "Churn?_True."] c))
                     (columns gd))
                  (snd r)))
         (rows gd).
Proof.
  unfold label_first, getitem. intros H.
  destruct (has_column gd "Churn?_True.") eqn:E; [|discriminate].
  cbn [bind] in H.
  destruct (drop_columns ["Churn?_False."; "Churn?_True."] gd) as [features|e] eqn:E2;
    [|discriminate].
  cbn [bind] in H. inversion H; subst. clear H.
  apply drop_columns_ok in E2 as [Hin ->].
  split; [now apply has_column_In|]. split; [apply Hin; now left|].
  unfold concat_columns, select_columns. cbn [columns rows].
  rewrite !select_map_filter. split; [reflexivity|].
  rewrite zip_with_map_same. apply List.map_ext. intros r. reflexivity.
Qed.

(** After [label_first] the first column is labelled "Churn?_True." and
    no column is labelled "Churn?_False.". *)
Lemma label_first_header (gd md : DataFrame) :
  label_first gd = Ok md ->
  (exists dt cols, columns md = ("Churn?_True.", dt) :: cols)
  /\ ~ In "Churn?_False." (column_names md).
Proof.
  intros H. apply label_first_spec in H as (HT & _ & Hcols & _). split.
  - apply List.in_map_iff in HT as (c & Hc & Hin).
    assert (Hf : In c (List.filter (fun c => String.eqb (fst c) "Churn?_True.")
                         (columns gd))).
    { apply List.filter_In. split; [exact Hin|]. rewrite Hc. reflexivity. }
    rewrite Hcols.
    remember (List.filter (fun c => String.eqb (fst c) "Churn?_True.") (columns gd))
      as L eqn:E.
    destruct L as [|[name dt] cols]; [contradiction|].
    assert (Hn : In (name, dt)
                   (List.filter (fun c => String.eqb (fst c) "Churn?_True.")
                      (columns gd))) by (rewrite <- E; now left).
    apply List.filter_In in Hn as [_ Hn]. apply String.eqb_eq in Hn. cbn in Hn.
    subst name. cbn [app]. eauto.
  - unfold column_names. rewrite Hcols, List.map_app. intros Hin.
    apply List.in_app_or in Hin as [Hin|Hin];
      apply List.in_map_iff in Hin as (c & Hc & Hin);
      apply List.filter_In in Hin as [_ Hin].
    + apply String.eqb_eq in Hin. rewrite Hc in Hin. discriminate.
    + unfold mem_label in Hin. rewrite Hc in Hin. discriminate.
Qed.

Lemma in_exactly_one_of_NoDup {A} (x : A) (l1 l2 l3 : list A) :
  NoDup (l1 ++ l2 ++ l3) -> In x (l1 ++ l2 ++ l3) -> in_exactly_one x l1 l2 l3.
Proof.
  intros Hnd Hin. unfold in_exactly_one.
  apply NoDup_app in Hnd as (_ & H1 & Hnd). apply NoDup_app in Hnd as (_ & H2 & _).
  assert (H12 : In x l1 -> ~ In x l2 /\ ~ In x l3).
  { intros Hx. apply list_elem_of_In, H1 in Hx.
    split; intros Hy; apply Hx, list_elem_of_In, List.in_or_app; auto. }
  assert (H23 : In x l2 -> ~ In x l3).
  { intros Hx Hy. apply list_elem_of_In, H2 in Hx. apply Hx. now apply list_elem_of_In. }
  apply List.in_app_or in Hin as [Hin|Hin].
  - left. split; [exact Hin | now apply H12].
  - apply List.in_app_or in Hin as [Hin|Hin].
    + right; left. split; [|split; [exact Hin | now apply H23]].
      intros Hx. now apply H12 in Hx.
    + right; right. split; [|split; [|exact Hin]].
      * intros Hx. now apply H12 in Hx.
      * intros Hx. now apply H23 in Hx.
Qed.

Section LabelCells.

Variable float_repr : Qc -> string.
Variable value_leb : value -> value -> bool.

(** When no column is called "Churn?_True." before the encoding, the
    first cell of every row of the model data is an indicator. *)
Lemma label_cells_binary (dropped md : DataFrame) :
  well_formed dropped ->
  ~ In "Churn?_True." (column_names dropped) ->
  label_first (get_dummies float_repr value_leb dropped) = Ok md ->
  forall r, In r (rows md) ->
    exists y rest, snd r = VInt y :: rest /\ (y = 0 \/ y = 1)%Z.
Proof.
  intros Hwf Hfresh Hmd r Hr.
  apply label_first_spec in Hmd as (HT & _ & _ & Hrows).
  rewrite Hrows in Hr. apply List.in_map_iff in Hr as (r' & <- & Hr'). cbn [snd].
  unfold get_dummies in Hr', HT |- *. unfold column_names in HT. cbn [columns rows] in *.
  apply List.in_map_iff in Hr' as (r0 & <- & Hr0). cbn [snd].
  set (mask := List.map (fun c => negb (is_object c)) (columns dropped)) in *.
  set (enc := encoded value_leb dropped) in *.
  set (DC := List.flat_map (fun e => dummy_columns float_repr (snd (fst e)) (snd e)) enc) in *.
  set (D := List.flat_map (fun e => dummy_cells (snd e) (cell (fst (fst e)) r0)) enc).
  set (isT := fun c : string * dtype => String.eqb (fst c) "Churn?_True.") in *.
  assert (Hlen0 : length (snd r0) = length (columns dropped)).
  { unfold well_formed in Hwf. rewrite List.Forall_forall in Hwf. now apply Hwf. }
  assert (Hkept : forall c, In c (select mask (columns dropped)) -> isT c = false).
  { intros c Hc. apply select_In in Hc. unfold isT. apply String.eqb_neq.
    intros Heq. apply Hfresh. rewrite <- Heq. now apply List.in_map. }
  rewrite List.map_app, select_app.
  2:{ rewrite List.length_map. symmetry. now apply length_select. }
  rewrite (select_all_false (List.map isT (select mask (columns dropped)))).
  2:{ apply List.Forall_forall. intros b Hb.
      apply List.in_map_iff in Hb as (c & <- & Hc). now apply Hkept. }
  cbn [app].
  assert (Hne : select (List.map isT DC) D <> []).
  { apply select_nonempty.
    - rewrite List.length_map. apply length_dummy_flat_map.
    - apply List.in_map_iff in HT as (c & Hc & Hin).
      apply List.in_app_or in Hin as [Hin|Hin].
      + apply Hkept in Hin. unfold isT in Hin. rewrite Hc in Hin. discriminate.
      + apply List.in_map_iff. exists c. split; [|exact Hin].
        unfold isT. rewrite Hc. reflexivity. }
  destruct (select (List.map isT DC) D) as [|y0 rest0] eqn:E; [contradiction|].
  assert (Hy0 : In y0 D).
  { apply (select_In (List.map isT DC)). rewrite E. now left. }
  apply List.in_flat_map in Hy0 as (e & _ & Hy0).
  apply dummy_cells_binary in Hy0 as [->| ->]; cbn [app]; eauto.
Qed.

End LabelCells.

Lemma drop_features_well_formed (df dropped : DataFrame) :
  well_formed df -> drop_features df = Ok dropped -> well_formed dropped.
Proof.
  intros Hwf H. apply drop_features_spec in H as (_ & _ & Hcols & Hrows).
  unfold well_formed in *. rewrite Hcols, Hrows, List.length_map.
  rewrite <- select_map_filter.
  apply List.Forall_forall. intros r Hr.
  apply List.in_map_iff in Hr as (r0 & <- & Hr0). cbn [snd].
  apply length_select. rewrite List.Forall_forall in Hwf. now apply Hwf.
Qed.

Lemma drop_features_names (df dropped : DataFrame) (name : string) :
  drop_features df = Ok dropped ->
  In name (column_names dropped) <->
  In name (column_names df) /\ ~ In name dropped_features.
Proof.
  intros H. apply drop_features_spec in H as (_ & _ & Hcols & _).
  unfold column_names. rewrite Hcols, List.map_map.
  rewrite (List.map_ext _ fst (fst_relabel_object "Area Code")).
  rewrite !List.in_map_iff. split.
  - intros (c & <- & Hc). apply List.filter_In in Hc as [Hc Hk]. split; [eauto|].
    intros Hin. apply negb_true_iff in Hk. unfold mem_label in Hk.
    assert (Ht : List.existsb (String.eqb (fst c)) dropped_features = true).
    { apply List.existsb_exists. exists (fst c). split; [exact Hin|].
      apply String.eqb_refl. }
    congruence.
  - intros [(c & <- & Hc) Hn]. exists c. split; [reflexivity|].
    apply List.filter_In. split; [exact Hc|]. apply negb_true_iff.
    destruct (mem_label dropped_features c) eqn:E; [|reflexivity].
    exfalso. apply Hn. unfold mem_label in E. apply List.existsb_exists in E as (l & Hl & He).
    apply String.eqb_eq in He. now rewrite He.
Qed.

(** *** The content of the label column *)

Lemma count_char_app (c : ascii) (a b : string) :
  count_char c (a ++ b) = count_char c a + count_char c b.
Proof.
  induction a as [|d a IH]; [reflexivity|].
  rewrite append_String. cbn [count_char]. rewrite IH. lia.
Qed.

(** The label "Churn?_True." is made of "Churn?" and "True." only. *)
Lemma churn_true_parts (a b : string) :
  (a ++ "_" ++ b)%string = "Churn?_True." -> a = "Churn?" /\ b = "True.".
Proof.
  intros H.
  change ("_" ++ b)%string with (String "_" b) in H.
  assert (Ha : count_char "_" a = 0).
  { apply (f_equal (count_char "_")) in H. rewrite count_char_app in H.
    change (count_char "_" "Churn?_True.") with 1 in H.
    cbn [count_char] in H. rewrite Ascii.eqb_refl in H. lia. }
  pose proof (join_split_on "_" b) as Hb.
  apply (f_equal (split_on "_")) in H. rewrite split_on_part in H by exact Ha.
  change (split_on "_" "Churn?_True.") with ["Churn?"; "True."] in H.
  injection H as H1 H2. rewrite H2 in Hb. cbn [join] in Hb. auto.
Qed.

Lemma select_map_map {A B} (p : A -> bool) (g : A -> B) (l : list A) :
  select (List.map p l) (List.map g l) = List.map g (List.filter p l).
Proof.
  induction l as [|x l IH]; [reflexivity|].
  cbn [List.map select List.filter]. destruct (p x); cbn [List.map]; now rewrite IH.
Qed.

Lemma In_combine_seq_nth_error {A} (l : list A) (s j : nat) (x : A) :
  In (j, x) (combine (seq s (length l)) l) -> s <= j /\ nth_error l (j - s) = Some x.
Proof.
  revert s. induction l as [|y l IH]; intros s H; [contradiction|].
  cbn [length seq combine] in H. destruct H as [H|H].
  - injection H as <- <-. split; [lia|]. now rewrite Nat.sub_diag.
  - apply IH in H as [Hs Hn]. split; [lia|].
    replace (j - s) with (S (j - S s)) by lia. exact Hn.
Qed.

Lemma lookup_cell_select (f : string * dtype -> bool) (name : string)
  (cols : list (string * dtype)) (cells : list value) :
  (forall c, fst c = name -> f c = true) ->
  lookup_cell (List.filter f cols) (select (List.map f cols) cells) name
  = lookup_cell cols cells name.
Proof.
  intros Hf. revert cells. induction cols as [|c cols IH]; intros cells; [reflexivity|].
  destruct cells as [|v cells].
  - cbn [List.map select List.filter lookup_cell].
    destruct (f c); [|destruct (List.filter f cols)]; reflexivity.
  - cbn [List.map select List.filter]. destruct (f c) eqn:E.
    + cbn [lookup_cell]. destruct (String.eqb (fst c) name); [reflexivity | apply IH].
    + rewrite IH. cbn [lookup_cell].
      destruct (String.eqb (fst c) name) eqn:En; [|reflexivity].
      apply String.eqb_eq in En. rewrite (Hf c En) in E. discriminate.
Qed.

Lemma lookup_cell_map_names (g : string * dtype -> string * dtype) (name : string)
  (cols : list (string * dtype)) (cells : list value) :
  (forall c, fst (g c) = fst c) ->
  lookup_cell (List.map g cols) cells name = lookup_cell cols cells name.
Proof.
  intros Hg. revert cells. induction cols as [|c cols IH]; intros cells; [reflexivity|].
  destruct cells as [|v cells]; [reflexivity|].
  cbn [List.map lookup_cell]. rewrite Hg, IH. reflexivity.
Qed.

Lemma lookup_cell_nth (cols : list (string * dtype)) (cells : list value)
  (j : nat) (name : string) (dt : dtype) :
  NoDup (List.map fst cols) ->
  nth_error cols j = Some (name, dt) ->
  length cells = length cols ->
  lookup_cell cols cells name = Some (nth j cells VNaN).
Proof.
  revert cells j. induction cols as [|c cols IH]; intros cells j Hnd Hj Hlen;
    [destruct j; discriminate|].
  destruct cells as [|v cells]; [discriminate|]. injection Hlen as Hlen.
  cbn [List.map] in Hnd. apply NoDup_cons in Hnd as [Hc Hnd].
  cbn [lookup_cell]. destruct j as [|j].
  - injection Hj as ->. cbn [fst nth]. now rewrite String.eqb_refl.
  - cbn [nth_error nth] in *. destruct (String.eqb (fst c) name) eqn:E.
    + exfalso. apply Hc. apply String.eqb_eq in E. rewrite E.
      apply list_elem_of_In. apply nth_error_In in Hj.
      change name with (fst (name, dt)). now apply List.in_map.
    + now apply (IH cells j).
Qed.


Lemma encoded_In_inv (value_leb : value -> value -> bool) (df : DataFrame)
  (j : nat) (name : string) (lv : list value) :
  In (j, name, lv) (encoded value_leb df) ->
  nth_error (columns df) j = Some (name, object)
  /\ lv = levels value_leb (column_values df j).
Proof.
  unfold encoded. intros H. apply List.in_map_iff in H as ([j' [name' dt]] & Heq & Hin).
  cbn [fst snd] in Heq. injection Heq as -> -> <-.
  apply List.filter_In in Hin as [Hin Hobj].
  apply In_combine_seq_nth_error in Hin as [_ Hin]. rewrite Nat.sub_0_r in Hin.
  unfold is_object in Hobj. cbn [snd] in Hobj. destruct dt; try discriminate.
  auto.
Qed.

Section Indicator.

Variable float_repr : Qc -> string.
Variable value_leb : value -> value -> bool.

(** The cells taken from the indicator columns labelled "Churn?_True."
    are indicators of a level of the column "Churn?" that prints as
    "True.". *)
Lemma selected_label_cells (enc : list (nat * string * list value))
  (r : nat * list value) (x : value) :
  In x
    (select
       (List.map (fun c : string * dtype => String.eqb (fst c) "Churn?_True.")
          (List.flat_map (fun e => dummy_columns float_repr (snd (fst e)) (snd e)) enc))
       (List.flat_map (fun e => dummy_cells (snd e) (cell (fst (fst e)) r)) enc)) ->
  exists e level,
    In e enc /\ In level (snd e)
    /\ snd (fst e) = "Churn?" /\ py_str float_repr level = "True."
    /\ x = VInt (if decide (cell (fst (fst e)) r = level) then 1 else 0).
Proof.
  induction enc as [|e enc IH]; intros H; [contradiction|].
  cbn [List.flat_map] in H. rewrite List.map_app, select_app in H.
  2:{ unfold dummy_columns, dummy_cells. now rewrite !List.length_map. }
  apply List.in_app_or in H as [H|H].
  - unfold dummy_columns, dummy_cells in H. rewrite List.map_map, select_map_map in H.
    apply List.in_map_iff in H as (level & <- & Hl).
    apply List.filter_In in Hl as [Hl Hname]. cbn [fst] in Hname.
    apply String.eqb_eq, churn_true_parts in Hname as [Hc Hp].
    exists e, level. repeat split; auto. now left.
  - destruct (IH H) as (e' & level & He & Hrest).
    exists e', level. split; [now right | exact Hrest].
Qed.

(** In the model data the label of each customer is 1 when the "Churn?"
    cell of the raw data reads "True." and 0 otherwise, under the
    customer's own index label. *)
Lemma model_data_label_cells (df model_data : DataFrame) :
  model_data_of float_repr value_leb df = Ok model_data ->
  well_formed df ->
  NoDup (column_names df) ->
  ~ In "Churn?_True." (column_names df) ->
  (forall r v,
     In r (rows df) -> lookup_cell (columns df) (snd r) "Churn?" = Some v ->
     v = VNaN \/ exists s, v = VStr s) ->
  List.map (fun r => (fst r, nth 0 (snd r) VNaN)) (rows model_data)
  = List.map (fun r => (fst r, churn_indicator df r)) (rows df).
Proof.
  unfold model_data_of. intros H Hwf Hnd Hfresh Htext.
  destruct (drop_features df) as [dropped|e] eqn:Hd; [|discriminate].
  cbn [bind] in H.
  pose proof (drop_features_well_formed df dropped Hwf Hd) as Hwfd.
  assert (Hfreshd : ~ In "Churn?_True." (column_names dropped)).
  { intros Hin. apply (drop_features_names df dropped _ Hd) in Hin as [Hin _].
    contradiction. }
  pose proof (drop_features_spec df dropped Hd) as (_ & _ & Hcols & Hrws).
  assert (Hndd : NoDup (column_names dropped)).
  { unfold column_names in *. rewrite Hcols, List.map_map.
    rewrite (List.map_ext _ fst (fst_relabel_object "Area Code")).
    rewrite <- filter_map_comm with (g := fun n => negb (List.existsb (String.eqb n) dropped_features)).
    now apply NoDup_list_filter. }
  (* the "Churn?" cell of a row is the same before and after the drop *)
  assert (Hlook : forall r : nat * list value,
            lookup_cell (columns dropped)
              (select (List.map (fun c => negb (mem_label dropped_features c)) (columns df))
                 (snd r)) "Churn?"
            = lookup_cell (columns df) (snd r) "Churn?").
  { intros r. rewrite Hcols.
    rewrite (lookup_cell_map_names _ _ _ _ (fst_relabel_object "Area Code")).
    apply lookup_cell_select. intros c Hc. unfold mem_label. rewrite Hc. reflexivity. }
  apply label_first_spec in H as (HT & _ & _ & Hrows).
  rewrite Hrows. unfold get_dummies. cbn [rows]. rewrite Hrws, !List.map_map.
  apply List.map_ext_in. intros r Hr. cbn [fst snd]. f_equal.
  set (r0 := (fst r,
              select (List.map (fun c => negb (mem_label dropped_features c)) (columns df))
                (snd r))).
  assert (Hr0 : In r0 (rows dropped)).
  { rewrite Hrws. apply List.in_map_iff. exists r. split; [reflexivity | exact Hr]. }
  assert (Hlen0 : length (snd r0) = length (columns dropped)).
  { unfold well_formed in Hwfd. rewrite List.Forall_forall in Hwfd. now apply Hwfd. }
  unfold get_dummies in HT. unfold column_names in HT. cbn [columns] in *.
  set (mask := List.map (fun c => negb (is_object c)) (columns dropped)) in *.
  set (enc := encoded value_leb dropped) in *.
  set (DC := List.flat_map (fun e => dummy_columns float_repr (snd (fst e)) (snd e)) enc) in *.
  set (D := List.flat_map (fun e => dummy_cells (snd e) (cell (fst (fst e)) r0)) enc).
  set (isT := fun c : string * dtype => String.eqb (fst c) "Churn?_True.") in *.
  assert (Hkept : forall c, In c (select mask (columns dropped)) -> isT c = false).
  { intros c Hc. apply select_In in Hc. unfold isT. apply String.eqb_neq.
    intros Heq. apply Hfreshd. rewrite <- Heq. now apply List.in_map. }
  rewrite List.map_app, select_app.
  2:{ rewrite List.length_map. symmetry. now apply length_select. }
  rewrite (select_all_false (List.map isT (select mask (columns dropped)))).
  2:{ apply List.Forall_forall. intros b Hb.
      apply List.in_map_iff in Hb as (c & <- & Hc). now apply Hkept. }
  cbn [app].
  assert (Hne : select (List.map isT DC) D <> []).
  { apply select_nonempty.
    - rewrite List.length_map. apply length_dummy_flat_map.
    - apply List.in_map_iff in HT as (c & Hc & Hin).
      apply List.in_app_or in Hin as [Hin|Hin].
      + apply Hkept in Hin. unfold isT in Hin. rewrite Hc in Hin. discriminate.
      + apply List.in_map_iff. exists c. split; [|exact Hin].
        unfold isT. rewrite Hc. reflexivity. }
  destruct (select (List.map isT DC) D) as [|x rest] eqn:E; [contradiction|].
  cbn [app nth].
  assert (Hx : In x (select (List.map isT DC) D)) by (rewrite E; now left).
  apply selected_label_cells in Hx as ([[j cname] lv] & level & He & Hlevel & Hc & Hp & ->).
  cbn [fst snd] in *. subst cname.
  apply encoded_In_inv in He as [Hj ->].
  assert (Hcellj : forall r1 : nat * list value, In r1 (rows df) ->
            lookup_cell (columns df) (snd r1) "Churn?"
            = Some (cell j (fst r1,
                            select (List.map (fun c => negb (mem_label dropped_features c))
                                      (columns df)) (snd r1)))).
  { intros r1 Hr1. rewrite <- Hlook. unfold cell. cbn [snd].
    apply (lookup_cell_nth _ _ j "Churn?" object Hndd Hj).
    unfold well_formed in Hwfd. rewrite List.Forall_forall in Hwfd.
    apply (Hwfd (fst r1, _)). rewrite Hrws. apply List.in_map_iff.
    exists r1. split; [reflexivity | exact Hr1]. }
  assert (Hlv : level = VStr "True.").
  { apply levels_In in Hlevel as [Hin Hnan]. unfold column_values in Hin.
    apply List.in_map_iff in Hin as (r1 & Hr1 & Hin1). rewrite Hrws in Hin1.
    apply List.in_map_iff in Hin1 as (r1' & <- & Hin1).
    pose proof (Hcellj r1' Hin1) as Hc1. rewrite Hr1 in Hc1.
    destruct (Htext r1' level Hin1 Hc1) as [->|[s ->]]; [contradiction|].
    cbn [py_str] in Hp. now subst s. }
  subst level. unfold churn_indicator. rewrite (Hcellj r Hr). fold r0.
  destruct (decide (cell j r0 = VStr "True.")) as [Heq|Hneq];
    destruct (decide (Some (cell j r0) = Some (VStr "True."))) as [Heq'|Hneq'];
    try reflexivity; exfalso; congruence.
Qed.

End Indicator.

(** *** Rows with one cell per column *)

Lemma get_dummies_well_formed (float_repr : Qc -> string)
  (value_leb : value -> value -> bool) (df : DataFrame) :
  well_formed df -> well_formed (get_dummies float_repr value_leb df).
Proof.
  unfold well_formed, get_dummies. cbn [columns rows]. intros Hwf.
  apply List.Forall_forall. intros r Hr.
  apply List.in_map_iff in Hr as (r0 & <- & Hr0). cbn [snd].
  rewrite List.Forall_forall in Hwf. rewrite !List.length_app.
  rewrite (length_select _ (snd r0) (columns df)) by now apply Hwf.
  now rewrite <- (length_dummy_flat_map float_repr _ r0).
Qed.

Lemma label_first_well_formed (gd md : DataFrame) :
  well_formed gd -> label_first gd = Ok md -> well_formed md.
Proof.
  intros Hwf H. apply label_first_spec in H as (_ & _ & Hcols & Hrows).
  unfold well_formed in *. rewrite Hcols, Hrows.
  apply List.Forall_forall. intros r Hr.
  apply List.in_map_iff in Hr as (r0 & <- & Hr0). cbn [snd].
  rewrite List.Forall_forall in Hwf. rewrite <- !select_map_filter, !List.length_app.
  rewrite (length_select _ (snd r0) (columns gd)) by now apply Hwf.
  rewrite (length_select (List.map (fun c => negb (mem_label _ c)) (columns gd))
             (snd r0) (columns gd)) by now apply Hwf.
  reflexivity.
Qed.

(** *** The script as a whole *)

Section Preprocess.

Variable float_repr : Qc -> string.
Variable value_leb : value -> value -> bool.
Variable sample_order : nat -> list nat.

(** The order drawn for [n] rows is an arrangement of their positions. *)
Hypothesis sample_order_perm : forall n, Permutation (sample_order n) (seq 0 n).

Lemma preprocess_inv (df : DataFrame) (files : csv_files) :
  preprocess float_repr value_leb sample_order df = Ok files ->
  exists dropped model_data train validation test,
    drop_features df = Ok dropped
    /\ label_first (get_dummies float_repr value_leb dropped) = Ok model_data
    /\ model_data_of float_repr value_leb df = Ok model_data
    /\ split_data sample_order model_data = Ok (train, validation, test)
    /\ files = {| train_csv := to_csv train;
                  validation_csv := to_csv validation;
                  test_csv := to_csv test |}.
Proof.
  unfold preprocess, model_data_of. intros H.
  destruct (drop_features df) as [dropped|e] eqn:E1; [|discriminate].
  cbn [bind] in H |- *.
  destruct (label_first (get_dummies float_repr value_leb dropped))
    as [model_data|e] eqn:E2; [|discriminate].
  cbn [bind] in H.
  destruct (split_data sample_order model_data) as [[[train validation] test]|e] eqn:E3;
    [|discriminate].
  cbn [bind fst snd] in H. inversion H; subst.
  exists dropped, model_data, train, validation, test. repeat split; assumption.
Qed.

(** The model data has the rows of the input, under the same index. *)
Lemma model_data_rows (df dropped model_data : DataFrame) :
  drop_features df = Ok dropped ->
  label_first (get_dummies float_repr value_leb dropped) = Ok model_data ->
  index model_data = index df /\ len model_data = len df.
Proof.
  intros H1 H2. apply drop_features_spec in H1 as (_ & _ & _ & Hr1).
  apply label_first_spec in H2 as (_ & _ & _ & Hr2).
  assert (Hindex : index model_data = index df).
  { unfold index. rewrite Hr2. unfold get_dummies. cbn [rows]. rewrite Hr1.
    rewrite !map_fst_preserved by (intros r; reflexivity). reflexivity. }
  split; [exact Hindex|].
  unfold len. rewrite <- (List.length_map fst (rows model_data)).
  rewrite <- (List.length_map fst (rows df)). unfold index in Hindex. now rewrite Hindex.
Qed.

Lemma length_to_csv (df : DataFrame) : length (to_csv df) = len df.
Proof. unfold to_csv, len. apply List.length_map. Qed.

(** The script completes on every frame that has the five labels and
    "Area Code", whose encoded form has the two label columns, and whose
    row count a double can hold. *)
Lemma preprocess_completes (df : DataFrame) :
  (forall l, In l dropped_features -> In l (column_names df)) ->
  In "Area Code" (column_names df) ->
  (forall dropped,
     drop_features df = Ok dropped ->
     In "Churn?_True." (column_names (get_dummies float_repr value_leb dropped))
     /\ In "Churn?_False." (column_names (get_dummies float_repr value_leb dropped))) ->
  (Z.of_nat (len df) < 2 ^ 1023)%Z ->
  exists files, preprocess float_repr value_leb sample_order df = Ok files.
Proof.
  intros Hall Harea Hlabels Hn.
  destruct (drop_features_completes df Hall Harea) as [dropped Hd].
  destruct (Hlabels dropped Hd) as [HT HF].
  unfold preprocess, model_data_of. rewrite Hd. cbn [bind].
  assert (Hl : exists md, label_first (get_dummies float_repr value_leb dropped) = Ok md).
  { unfold label_first, getitem. rewrite (proj2 (has_column_In _ _) HT). cbn [bind].
    rewrite drop_columns_complete; [cbn [bind]; eauto|].
    intros l [<-|[<-|[]]]; assumption. }
  destruct Hl as [md Hl]. rewrite Hl. cbn [bind].
  destruct (model_data_rows df dropped md Hd Hl) as [_ Hlen].
  unfold split_data. rewrite Hlen.
  destruct (int_of_product_ok m07 (len df) Hn) as [a ->].
  destruct (int_of_product_ok m09 (len df) Hn) as [b ->].
  cbn [bind]. eauto.
Qed.

(** A column "Churn?" of dtype [object] in which both "True." and
    "False." occur gives the two label columns. *)
Lemma churn_column_gives_labels (dropped : DataFrame) (j : nat) :
  nth_error (columns dropped) j = Some ("Churn?", object) ->
  In (VStr "True.") (column_values dropped j) ->
  In (VStr "False.") (column_values dropped j) ->
  In "Churn?_True." (column_names (get_dummies float_repr value_leb dropped))
  /\ In "Churn?_False." (column_names (get_dummies float_repr value_leb dropped)).
Proof.
  intros Hj HT HF.
  assert (Hlevel : forall s, In (VStr s) (column_values dropped j) ->
            In ("Churn?_" ++ s)%string
              (column_names (get_dummies float_repr value_leb dropped))).
  { intros s Hs. unfold column_names, get_dummies. cbn [columns].
    rewrite List.map_app. apply List.in_or_app. right.
    apply List.in_map_iff. exists (("Churn?_" ++ s)%string, uint8). split; [reflexivity|].
    apply List.in_flat_map.
    exists (j, "Churn?", levels value_leb (column_values dropped j)).
    split; [now apply encoded_In|]. cbn [fst snd]. unfold dummy_columns.
    apply List.in_map_iff. exists (VStr s). split; [reflexivity|].
    apply levels_In. split; [exact Hs | discriminate]. }
  split; [exact (Hlevel "True." HT) | exact (Hlevel "False." HF)].
Qed.

(** C8. The three outputs are consecutive slices of the shuffled rows:
    with [n] rows, [a = int(0.7 * n)] and [b = int(0.9 * n)] (in double
    precision), [a <= b <= n], the training set has [a] rows, the
    validation set [b - a] and the test set [n - b]; together they are a
    rearrangement of the rows of the model data, which are the rows of the
    input under the same index, so every row (told apart by its index
    label) is in exactly one output.  The split itself completes for every
    row count a double can hold. *)
Theorem split_is_a_partition_of_the_rows (df : DataFrame) (files : csv_files) :
  preprocess float_repr value_leb sample_order df = Ok files ->
  exists model_data train validation test a b,
    model_data_of float_repr value_leb df = Ok model_data
    /\ split_data sample_order model_data = Ok (train, validation, test)
    /\ len model_data = len df
    /\ index model_data = index df
    /\ int_of_product m07 (len df) = Ok a
    /\ int_of_product m09 (len df) = Ok b
    /\ a <= b <= len df
    /\ (len train = a /\ len validation = b - a /\ len test = len df - b)
    /\ (train_csv files = to_csv train
        /\ validation_csv files = to_csv validation
        /\ test_csv files = to_csv test)
    /\ (length (train_csv files) = a
        /\ length (validation_csv files) = b - a
        /\ length (test_csv files) = len df - b)
    /\ rows train ++ rows validation ++ rows test
       = rows (sample sample_order model_data)
    /\ Permutation (rows train ++ rows validation ++ rows test) (rows model_data)
    /\ Permutation (index train ++ index validation ++ index test) (index df)
    /\ (NoDup (index df) ->
        (forall i, In i (index df) ->
           in_exactly_one i (index train) (index validation) (index test))
        /\ (forall r, In r (rows model_data) ->
              in_exactly_one r (rows train) (rows validation) (rows test)))
    /\ (forall md, (Z.of_nat (len md) < 2 ^ 1023)%Z ->
          exists parts, split_data sample_order md = Ok parts).
Proof.
  intros H.
  destruct (preprocess_inv df files H)
    as (dropped & md & train & validation & test & Hd & Hl & Hmd & Hs & ->).
  destruct (model_data_rows df dropped md Hd Hl) as [Hindex Hlen].
  destruct (split_data_partition sample_order sample_order_perm md train validation test Hs)
    as (a & b & Ha & Hb & Hab & _ & _ & _ & Hlt & Hlv & Hle & Hrows).
  rewrite Hlen in Ha, Hb, Hab, Hle.
  assert (Hperm : Permutation (rows train ++ rows validation ++ rows test) (rows md)).
  { rewrite Hrows. apply sample_rows_perm. exact sample_order_perm. }
  assert (Hiperm : Permutation (index train ++ index validation ++ index test) (index df)).
  { rewrite <- Hindex. unfold index. rewrite <- !List.map_app.
    now apply Permutation_map. }
  exists md, train, validation, test, a, b.
  split; [exact Hmd|]. split; [exact Hs|]. split; [exact Hlen|]. split; [exact Hindex|].
  split; [exact Ha|]. split; [exact Hb|]. split; [exact Hab|].
  split; [auto|]. split; [cbn; auto|].
  split; [cbn [train_csv validation_csv test_csv]; rewrite !length_to_csv; auto|].
  split; [exact Hrows|]. split; [exact Hperm|]. split; [exact Hiperm|]. split.
  - intros Hnd. split.
    + intros i Hi. apply in_exactly_one_of_NoDup.
      * rewrite Hiperm. exact Hnd.
      * apply (Permutation_in _ (Permutation_sym Hiperm)). exact Hi.
    + intros r Hr. apply in_exactly_one_of_NoDup.
      * rewrite Hperm. apply (NoDup_fmap_1 fst).
        change (NoDup (index md)). rewrite Hindex. exact Hnd.
      * apply (Permutation_in _ (Permutation_sym Hperm)). exact Hr.
  - intros md' Hn. unfold split_data.
    destruct (int_of_product_ok m07 (len md') Hn) as [a' ->].
    destruct (int_of_product_ok m09 (len md') Hn) as [b' ->].
    cbn [bind]. eauto.
Qed.


(** The rows of the three files are rows of the model data. *)
Lemma file_rows_from_model_data (md train validation test : DataFrame) :
  split_data sample_order md = Ok (train, validation, test) ->
  forall file,
    In file [to_csv train; to_csv validation; to_csv test] ->
    forall row, In row file -> exists r, In r (rows md) /\ row = snd r.
Proof.
  intros Hs file Hfile row Hrow.
  pose proof (split_data_partition sample_order sample_order_perm md train validation
                test Hs)
    as (a & b & _ & _ & _ & _ & _ & _ & _ & _ & _ & Hrows).
  assert (Hin : In row (to_csv train ++ to_csv validation ++ to_csv test)).
  { cbn [In] in Hfile. apply List.in_or_app.
    destruct Hfile as [<-|[<-|[<-|[]]]]; [left; exact Hrow|right|right];
      apply List.in_or_app; [left|right]; exact Hrow. }
  unfold to_csv in Hin. rewrite <- !List.map_app, Hrows in Hin.
  apply List.in_map_iff in Hin as (r & <- & Hr). exists r. split; [|reflexivity].
  apply (Permutation_in _ (sample_rows_perm sample_order sample_order_perm md)).
  exact Hr.
Qed.

(** Over well-formed raw data every line of the three files has one field
    per column of the model data, the label among them. *)
Lemma file_rows_uniform (df dropped md train validation test : DataFrame) :
  well_formed df ->
  drop_features df = Ok dropped ->
  label_first (get_dummies float_repr value_leb dropped) = Ok md ->
  split_data sample_order md = Ok (train, validation, test) ->
  1 <= length (columns md)
  /\ forall file,
       In file [to_csv train; to_csv validation; to_csv test] ->
       Forall (fun row => length row = length (columns md)) file.
Proof.
  intros Hwf Hd Hl Hs.
  assert (Hwfmd : well_formed md).
  { apply (label_first_well_formed (get_dummies float_repr value_leb dropped)); [|exact Hl].
    apply get_dummies_well_formed. now apply (drop_features_well_formed df). }
  destruct (label_first_header _ _ Hl) as [(dt & cols & Hhead) _].
  split; [rewrite Hhead; cbn [length]; lia|].
  intros file Hfile. apply List.Forall_forall. intros row Hrow.
  destruct (file_rows_from_model_data md train validation test Hs file Hfile row Hrow)
    as (r & Hr & ->).
  unfold well_formed in Hwfmd. rewrite List.Forall_forall in Hwfmd. now apply Hwfmd.
Qed.

(** C9, as amended.  Over raw data that has no column labelled
    "Churn?_True." already: the first column of the model data, hence of
    the three files, is the column labelled "Churn?_True."; no column is
    labelled "Churn?_False.".  Column 0 of each file is that column for
    the rows of the file, every row of every file starts with 0 or 1, and
    (for distinct raw labels and a "Churn?" column of text) that cell is 1
    exactly for the customers whose "Churn?" reads "True.".  [evaluate.py]
    takes column 0 of [test.csv] as the labels and the other cells as the
    features: the matrix it predicts for is made of the cells after the
    first, as [read_csv] reads them, and the accuracy it reports is
    counted against column 0, which is read as it was written. *)
Theorem label_column_written_first_and_read_first
  (df : DataFrame) (files : csv_files) :
  preprocess float_repr value_leb sample_order df = Ok files ->
  well_formed df ->
  ~ In "Churn?_True." (column_names df) ->
  exists model_data train validation test,
    model_data_of float_repr value_leb df = Ok model_data
    /\ split_data sample_order model_data = Ok (train, validation, test)
    /\ (exists dt cols, columns model_data = ("Churn?_True.", dt) :: cols)
    /\ ~ In "Churn?_False." (column_names model_data)
    /\ (columns train = columns model_data
        /\ columns validation = columns model_data
        /\ columns test = columns model_data)
    /\ (train_csv files = to_csv train
        /\ validation_csv files = to_csv validation
        /\ test_csv files = to_csv test)
    /\ (first_column (train_csv files) = column_values train 0
        /\ first_column (validation_csv files) = column_values validation 0
        /\ first_column (test_csv files) = column_values test 0)
    /\ (forall file,
          In file [train_csv files; validation_csv files; test_csv files] ->
          forall row, In row file ->
            exists y features, row = VInt y :: features /\ (y = 0 \/ y = 1)%Z)
    /\ (NoDup (column_names df) ->
        (forall r v,
           In r (rows df) -> lookup_cell (columns df) (snd r) "Churn?" = Some v ->
           v = VNaN \/ exists s, v = VStr s) ->
        List.map (fun r => (fst r, nth 0 (snd r) VNaN)) (rows model_data)
        = List.map (fun r => (fst r, churn_indicator df r)) (rows df))
    /\ (forall strtod,
          test_csv files <> [] ->
          load_test strtod (test_csv files)
          = Ok (column_values test 0,
                List.map (fun r => List.map (read_value strtod) (tail (snd r)))
                  (rows test)))
    /\ (forall (DMatrix : Type) (env : environment DMatrix) (report : json),
          test_file env = test_csv files ->
          evaluate env = Ok report ->
          exists model X_test predictions ys area,
            load_model env = Ok model
            /\ xgboost_DMatrix env
                 (List.map
                    (fun r => List.map (read_value (float_parser env)) (tail (snd r)))
                    (rows test))
               = Ok X_test
            /\ predict model X_test = Ok predictions
            /\ labels_of (column_values test 0) = Ok ys
            /\ report
               = report_dict
                   (fl (Zfrac (Z.of_nat (matches ys (List.map np_round predictions)))
                          (Z.of_nat (length ys))))
                   area).
Proof.
  intros H Hwf Hfresh.
  destruct (preprocess_inv df files H)
    as (dropped & md & train & validation & test & Hd & Hl & Hmd & Hs & ->).
  pose proof (split_data_partition sample_order sample_order_perm md train validation
                test Hs)
    as (a & b & _ & _ & _ & Etr & Eva & Ete & _ & _ & _ & Hrows).
  destruct (label_first_header _ _ Hl) as [Hhead Hfalse].
  destruct (file_rows_uniform df dropped md train validation test Hwf Hd Hl Hs)
    as [Hwidth Huniform].
  assert (Hfirst : forall d, first_column (to_csv d) = column_values d 0).
  { intros d. unfold first_column, to_csv, column_values, cell.
    now rewrite List.map_map. }
  assert (Hbin : forall file,
            In file [to_csv train; to_csv validation; to_csv test] ->
            forall row, In row file ->
              exists y features, row = VInt y :: features /\ (y = 0 \/ y = 1)%Z).
  { intros file Hfile row Hrow.
    destruct (file_rows_from_model_data md train validation test Hs file Hfile row Hrow)
      as (r & Hr & ->).
    apply (label_cells_binary float_repr value_leb dropped md); try assumption.
    + now apply (drop_features_well_formed df).
    + intros Hin. apply (drop_features_names df dropped _ Hd) in Hin as [Hin _].
      contradiction. }
  assert (Hread : forall strtod,
            to_csv test <> [] ->
            read_csv_headerless strtod (to_csv test)
            = Ok (List.map (List.map (read_value strtod)) (to_csv test))).
  { intros strtod Hne. apply (read_csv_headerless_uniform strtod (length (columns md))).
    - lia.
    - apply Huniform. right. right. now left.
    - exact Hne. }
  assert (Hlabels : forall strtod,
            first_column (List.map (List.map (read_value strtod)) (to_csv test))
            = column_values test 0).
  { intros strtod. rewrite <- Hfirst. unfold first_column. rewrite List.map_map.
    apply List.map_ext_in. intros row Hrow.
    destruct (Hbin (to_csv test) ltac:(cbn; tauto) row Hrow) as (y & features & -> & _).
    reflexivity. }
  assert (Hrest : forall strtod,
            drop_first_column (List.map (List.map (read_value strtod)) (to_csv test))
            = List.map (fun r => List.map (read_value strtod) (tail (snd r))) (rows test)).
  { intros strtod. unfold drop_first_column, to_csv. rewrite !List.map_map.
    apply List.map_ext. intros r. destruct (snd r); reflexivity. }
  exists md, train, validation, test.
  split; [exact Hmd|]. split; [exact Hs|]. split; [exact Hhead|]. split; [exact Hfalse|].
  split; [subst; repeat split|]. split; [repeat split|].
  cbn [train_csv validation_csv test_csv].
  split; [rewrite !Hfirst; repeat split|]. split; [exact Hbin|].
  split.
  { intros Hnd Htext.
    exact (model_data_label_cells float_repr value_leb df md Hmd Hwf Hnd Hfresh Htext). }
  split.
  { intros strtod Hne. unfold load_test. rewrite (Hread strtod Hne). cbn [bind].
    now rewrite Hlabels, Hrest. }
  intros DMatrix env report Hfile Hev.
  destruct (evaluate_inv env report Hev)
    as (model & df' & X_test & predictions & acc & area
        & _ & H2 & H3 & H4 & H5 & Hm & _ & ->).
  rewrite Hfile in H3.
  assert (Hne : to_csv test <> []).
  { intros E. rewrite E in H3. discriminate H3. }
  rewrite (Hread _ Hne) in H3. injection H3 as <-.
  rewrite Hrest in H4. rewrite Hlabels in Hm.
  assert (Hnum : numeric_target (column_values test 0) = true).
  { apply numeric_target_binary. rewrite <- Hfirst. unfold first_column.
    apply List.Forall_forall. intros v Hv.
    apply List.in_map_iff in Hv as (row & <- & Hrow).
    destruct (Hbin (to_csv test) ltac:(cbn; tauto) row Hrow) as (y & features & -> & Hy).
    exists y. split; [reflexivity | exact Hy]. }
  rewrite Hnum in Hm. destruct Hm as (ys & Hys & _ & _ & Hacc & _).
  exists model, X_test, predictions, ys, area. rewrite <- Hacc. auto.
Qed.

End Preprocess.

(** ** The script on the sample table *)

Lemma reversed_order_perm (n : nat) : Permutation (reversed_order n) (seq 0 n).
Proof. unfold reversed_order. symmetry. apply Permutation_rev. Qed.

Lemma churn_sample_well_formed : well_formed churn_sample.
Proof. unfold well_formed. cbn. repeat constructor. Qed.

(** Ten rows are cut at 7 and 9. *)
Lemma split_is_a_partition_of_the_rows_witness :
  exists files,
    preprocess ratio_repr level_leb reversed_order churn_sample = Ok files
    /\ length (train_csv files) = 7
    /\ length (validation_csv files) = 2
    /\ length (test_csv files) = 1.
Proof.
  destruct (preprocess ratio_repr level_leb reversed_order churn_sample)
    as [files|e] eqn:E; [|vm_compute in E; discriminate E].
  exists files. split; [reflexivity|].
  destruct (split_is_a_partition_of_the_rows ratio_repr level_leb reversed_order
              reversed_order_perm churn_sample files E)
    as (md & tr & va & te & a & b & _ & _ & _ & _ & Ha & Hb & _ & _ & _
        & (Ht & Hv & He) & _).
  vm_compute in Ha, Hb. injection Ha as <-. injection Hb as <-.
  rewrite Ht, Hv, He. repeat split.
Defined.


(** Every row of the three files starts with the churn indicator. *)
Lemma label_column_written_first_and_read_first_witness :
  exists files,
    preprocess ratio_repr level_leb reversed_order churn_sample = Ok files
    /\ forall row, In row (test_csv files) ->
         exists y features, row = VInt y :: features /\ (y = 0 \/ y = 1)%Z.
Proof.
  destruct (preprocess ratio_repr level_leb reversed_order churn_sample)
    as [files|e] eqn:E; [|vm_compute in E; discriminate E].
  exists files. split; [reflexivity|].
  assert (Hfresh : ~ In "Churn?_True." (column_names churn_sample)).
  { cbn. intros H. repeat (destruct H as [H|H]; [discriminate H|]). exact H. }
  destruct (label_column_written_first_and_read_first ratio_repr level_leb
              reversed_order reversed_order_perm churn_sample files E
              churn_sample_well_formed Hfresh)
    as (md & tr & va & te & _ & _ & _ & _ & _ & _ & _ & Hbin & _).
  intros row Hrow.
  apply Hbin with (file := test_csv files).
  - cbn. tauto.
  - exact Hrow.
Defined.

(** C9, as stated, fails: in a table whose raw data has a numeric column
    labelled "Churn?_True.", that column comes first in the files (here
    with the values 7 and 9), and the indicator of the churn is the second
    cell of each row. *)
Lemma raw_label_column_comes_first :
  exists files,
    preprocess ratio_repr level_leb reversed_order relabelled_sample = Ok files
    /\ train_csv files = [[VInt 7; VInt 1; VInt 1; VInt 0]]
    /\ validation_csv files = []
    /\ test_csv files = [[VInt 9; VInt 0; VInt 0; VInt 1]]
    /\ first_column (test_csv files) = [VInt 9]
    /\ List.map (fun r => (fst r, churn_indicator relabelled_sample r))
         (rows relabelled_sample)
       = [(0, VInt 0); (1, VInt 1)].
Proof.
  eexists. split; [vm_compute; reflexivity|]. repeat split.
Qed.

(** * Further properties of the scripts and of the notebook cells *)

(** ** The input location *)

(** X1. A location [scheme/authority/bucket/key], where the first three
    parts hold no slash, is taken apart into its bucket and its key, the
    key keeping its own slashes; for ["s3://bucket/key"] the scheme is
    ["s3:"] and the authority is empty. *)
Theorem parse_input_data_round_trip (scheme authority bucket key : string) :
  count_char "/" scheme = 0 ->
  count_char "/" authority = 0 ->
  count_char "/" bucket = 0 ->
  parse_input_data (scheme ++ "/" ++ authority ++ "/" ++ bucket ++ "/" ++ key)
  = Ok (bucket, key).
Proof.
  intros Hs Ha Hb. unfold parse_input_data.
  change ("/" ++ authority ++ "/" ++ bucket ++ "/" ++ key)%string
    with (String "/" (authority ++ String "/" (bucket ++ String "/" key))).
  rewrite !split_on_part by assumption.
  cbn [nth_error skipn]. rewrite drop_0. now rewrite join_split_on.
Qed.

Lemma parse_input_data_round_trip_witness :
  parse_input_data "s3://sagemaker-eu-west-1-123/sagemaker/DEMO-xgboost-churn/data/RawData.csv"
  = Ok ("sagemaker-eu-west-1-123", "sagemaker/DEMO-xgboost-churn/data/RawData.csv").
Proof.
  apply (parse_input_data_round_trip "s3:" EmptyString "sagemaker-eu-west-1-123"
           "sagemaker/DEMO-xgboost-churn/data/RawData.csv"); reflexivity.
Defined.

(** X2. The script stops with an [IndexError] exactly on a location with
    fewer than two slashes.  Otherwise the bucket is the text between the
    second slash and the third (or the end), so it holds no slash, and the
    location is the first two parts, the bucket and, after a third slash
    if there is one, the key. *)
Theorem parse_input_data_needs_two_slashes (input_data : string) :
  (parse_input_data input_data = Raise IndexError <-> count_char "/" input_data < 2)
  /\ (forall bucket key,
        parse_input_data input_data = Ok (bucket, key) ->
        count_char "/" bucket = 0
        /\ exists scheme authority,
             input_data
             = (scheme ++ "/" ++ authority ++ "/" ++ bucket
                ++ (if Nat.eqb (count_char "/" input_data) 2 then EmptyString
                    else "/" ++ key))%string).
Proof.
  unfold parse_input_data.
  pose proof (length_split_on "/" input_data) as Hlen.
  pose proof (split_on_parts_clean "/" input_data) as Hclean.
  pose proof (join_split_on "/" input_data) as Hjoin.
  destruct (split_on "/" input_data) as [|a [|b [|c rest]]] eqn:E;
    cbn [length nth_error skipn] in *.
  - discriminate.
  - split; [split; [lia | reflexivity]|]. intros bucket key H. discriminate.
  - split; [split; [lia | reflexivity]|]. intros bucket key H. discriminate.
  - split; [split; [discriminate | lia]|].
    intros bucket key H. injection H as <- <-.
    split.
    { apply Forall_cons in Hclean as [_ Hclean].
      apply Forall_cons in Hclean as [_ Hclean].
      now apply Forall_cons in Hclean as [Hc _]. }
    exists a, b. rewrite <- Hjoin at 1. cbn [join].
    destruct rest as [|d rest].
    + cbn [length] in Hlen. injection Hlen as Hlen. rewrite <- Hlen.
      cbn [Nat.eqb]. now rewrite append_EmptyString_r.
    + cbn [length] in Hlen. injection Hlen as Hlen. rewrite <- Hlen.
      cbn [Nat.eqb]. reflexivity.
Qed.

(** ** Names made from the clock *)

Lemma append_cancel_l (a b c : string) : (a ++ b)%string = (a ++ c)%string -> b = c.
Proof.
  induction a as [|x a IH]; intros H; [exact H|].
  rewrite !append_String in H. injection H as H. now apply IH.
Qed.

Lemma digit_inj (a b : Z) :
  (0 <= a < 10)%Z -> (0 <= b < 10)%Z -> digit a = digit b -> a = b.
Proof.
  intros Ha Hb H. unfold digit in H.
  apply (f_equal nat_of_ascii) in H.
  rewrite !nat_ascii_embedding in H by lia. lia.
Qed.

Lemma two_digits_inj (a b : Z) :
  (0 <= a < 100)%Z -> (0 <= b < 100)%Z -> two_digits a = two_digits b -> a = b.
Proof.
  intros Ha Hb H. unfold two_digits in H. injection H as H1 H2.
  apply digit_inj in H1; [|Z.to_euclidean_division_equations; lia..].
  apply digit_inj in H2; [|Z.to_euclidean_division_equations; lia..].
  Z.to_euclidean_division_equations; lia.
Qed.

Lemma strftime_MS_eq (t1 t2 : Z) :
  strftime_MS t1 = strftime_MS t2 <-> (t1 mod 3600 = t2 mod 3600)%Z.
Proof.
  unfold strftime_MS. split.
  - intros H.
    assert (Hm : two_digits ((t1 / 60) mod 60) = two_digits ((t2 / 60) mod 60)
                 /\ two_digits (t1 mod 60) = two_digits (t2 mod 60)).
    { unfold two_digits in *. rewrite !append_String in H.
      change (EmptyString ++ ?x)%string with x in H.
      injection H as H1 H2 H3 H4. now rewrite H1, H2, H3, H4. }
    destruct Hm as [Hm Hs].
    apply two_digits_inj in Hm; [|Z.to_euclidean_division_equations; lia..].
    apply two_digits_inj in Hs; [|Z.to_euclidean_division_equations; lia..].
    Z.to_euclidean_division_equations; lia.
  - intros H.
    assert (Hm : ((t1 / 60) mod 60 = (t2 / 60) mod 60)%Z)
      by (Z.to_euclidean_division_equations; lia).
    assert (Hs : (t1 mod 60 = t2 mod 60)%Z)
      by (Z.to_euclidean_division_equations; lia).
    now rewrite Hm, Hs.
Qed.

(** X3. The pipeline name and the model name hold the minute and the
    second of the clock only: two runs get the same name exactly when
    their times differ by a whole number of hours. *)
Theorem clock_names_repeat_every_hour (t1 t2 : Z) :
  (pipeline_name_at t1 = pipeline_name_at t2 <-> (t1 mod 3600 = t2 mod 3600)%Z)
  /\ (model_name_at t1 = model_name_at t2 <-> (t1 mod 3600 = t2 mod 3600)%Z)
  /\ pipeline_name_at (t1 + 3600) = pipeline_name_at t1.
Proof.
  unfold pipeline_name_at, model_name_at.
  assert (Hiff : forall prefix,
            (prefix ++ strftime_MS t1)%string = (prefix ++ strftime_MS t2)%string
            <-> (t1 mod 3600 = t2 mod 3600)%Z).
  { intros prefix. rewrite <- strftime_MS_eq. split.
    - apply append_cancel_l.
    - now intros ->. }
  split; [apply Hiff|]. split; [apply Hiff|].
  f_equal. apply strftime_MS_eq. Z.to_euclidean_division_equations; lia.
Qed.

(** ** How the wait for the endpoint ends *)

(** X4. Once [describe_endpoint] reports a status other than "Creating",
    [wait_for_response] ends, and that status decides how: "InService"
    returns normally; "Failed" raises [Exception('Creating Endpoint
    failed')], or a [KeyError] when the response has no [FailureReason];
    any other status raises [Exception('Creating job stopped')].  Except
    on "Failed" the function sleeps once more after the last call. *)
Theorem wait_for_response_outcome
  (describe : nat -> endpoint_description) (poll_interval k fuel : nat) :
  (forall i, i < k -> EndpointStatus (describe i) = "Creating") ->
  EndpointStatus (describe k) <> "Creating" ->
  k < fuel ->
  let status := EndpointStatus (describe k) in
  exists tr,
    wait_for_response fuel describe poll_interval
    = Some (tr,
            if String.eqb status "Failed" then
              match FailureReason (describe k) with
              | Some _ => Raise (Exception "Creating Endpoint failed")
              | None => Raise (KeyError "FailureReason")
              end
            else if String.eqb status "InService" then Ok tt
            else Raise (Exception "Creating job stopped"))
    /\ sleeps tr
       = repeat poll_interval (if String.eqb status "Failed" then k else S k).
Proof.
  intros Hbefore Hat Hfuel status. unfold wait_for_response.
  replace fuel with (k + S (fuel - S k)) by lia.
  rewrite wait_loop_unroll by exact Hbefore.
  cbn [Nat.add wait_loop]. fold status.
  assert (Hcr : sleeps (concat (repeat (creating_trace poll_interval) k))
                = repeat poll_interval k).
  { clear. induction k as [|k IH]; [reflexivity|].
    cbn [repeat concat]. rewrite sleeps_app, IH. reflexivity. }
  assert (Hsnoc : repeat poll_interval k ++ [poll_interval] = repeat poll_interval (S k)).
  { clear. induction k as [|k IH]; [reflexivity|]. cbn [repeat app]. now rewrite IH. }
  destruct (String.eqb status "Failed") eqn:EF.
  - destruct (FailureReason (describe k)); eexists; (split; [reflexivity|]);
      rewrite sleeps_app, Hcr; cbn [sleeps app]; apply app_nil_r.
  - apply String.eqb_neq in Hat. fold status in Hat. rewrite Hat.
    destruct (String.eqb status "InService"); eexists; (split; [reflexivity|]);
      rewrite ?sleeps_app, Hcr; cbn [sleeps app]; rewrite ?app_nil_r; exact Hsnoc.
Qed.

(** One "Creating" response, then "OutOfService": the job has stopped. *)
Lemma wait_for_response_outcome_witness :
  exists tr,
    wait_for_response 4
      (fun k => {| EndpointStatus := if Nat.ltb k 1 then "Creating" else "OutOfService";
                   FailureReason := None |})
      30
    = Some (tr, Raise (Exception "Creating job stopped"))
    /\ sleeps tr = [30; 30].
Proof.
  apply (wait_for_response_outcome
           (fun k => {| EndpointStatus := if Nat.ltb k 1 then "Creating" else "OutOfService";
                        FailureReason := None |})
           30 1 4).
  - intros i Hi. destruct i as [|i]; [reflexivity | lia].
  - discriminate.
  - lia.
Defined.

(** ** The newest package again *)

Lemma NoDup_map_inj_in {A B} (f : A -> B) (l : list A) (x y : A) :
  NoDup (List.map f l) -> In x l -> In y l -> f x = f y -> x = y.
Proof.
  induction l as [|z l IH]; intros Hnd Hx Hy Hxy; [contradiction|].
  cbn [List.map] in Hnd. apply NoDup_cons in Hnd as [Hz Hnd].
  rewrite list_elem_of_In in Hz.
  destruct Hx as [->|Hx], Hy as [->|Hy].
  - reflexivity.
  - exfalso. apply Hz. rewrite Hxy. now apply List.in_map.
  - exfalso. apply Hz. rewrite <- Hxy. now apply List.in_map.
  - now apply IH.
Qed.

(** X5. When the listed packages have distinct creation times, the
    package chosen does not depend on the order in which the platform
    lists them. *)
Theorem latest_model_package_arn_any_order (l1 l2 : list ModelPackageSummary) :
  Permutation l1 l2 ->
  NoDup (List.map CreationTime l1) ->
  latest_model_package_arn l1 = latest_model_package_arn l2.
Proof.
  intros Hperm Hnd. unfold latest_model_package_arn.
  destruct (sorted_reverse CreationTime l1) as [|b1 r1] eqn:E1;
    destruct (sorted_reverse CreationTime l2) as [|b2 r2] eqn:E2.
  - reflexivity.
  - apply sorted_reverse_nil in E1. subst l1. apply Permutation_nil in Hperm.
    subst l2. discriminate.
  - apply sorted_reverse_nil in E2. subst l2. symmetry in Hperm.
    apply Permutation_nil in Hperm. subst l1. discriminate.
  - destruct (sorted_reverse_head CreationTime _ _ _ E1) as [Hmax1 _].
    destruct (sorted_reverse_head CreationTime _ _ _ E2) as [Hmax2 _].
    assert (Hb1 : In b1 l1).
    { apply (Permutation_in _ (sorted_reverse_perm CreationTime l1)).
      rewrite E1. now left. }
    assert (Hb2 : In b2 l2).
    { apply (Permutation_in _ (sorted_reverse_perm CreationTime l2)).
      rewrite E2. now left. }
    assert (Hb2' : In b2 l1) by (apply (Permutation_in _ (Permutation_sym Hperm)), Hb2).
    assert (Hb1' : In b1 l2) by (apply (Permutation_in _ Hperm), Hb1).
    f_equal. f_equal. apply (NoDup_map_inj_in CreationTime l1); try assumption.
    specialize (Hmax1 b2 Hb2'). specialize (Hmax2 b1 Hb1'). lia.
Qed.

Lemma latest_model_package_arn_any_order_witness :
  latest_model_package_arn
    [{| ModelPackageArn := "arn:1"; CreationTime := 100; ModelApprovalStatus := "Approved" |};
     {| ModelPackageArn := "arn:2"; CreationTime := 200;
        ModelApprovalStatus := "PendingManualApproval" |}]
  = latest_model_package_arn
      [{| ModelPackageArn := "arn:2"; CreationTime := 200;
          ModelApprovalStatus := "PendingManualApproval" |};
       {| ModelPackageArn := "arn:1"; CreationTime := 100;
          ModelApprovalStatus := "Approved" |}].
Proof.
  apply latest_model_package_arn_any_order.
  - apply perm_swap.
  - cbn. repeat constructor; rewrite ?list_elem_of_In; cbn; intuition discriminate.
Defined.

(** ** When the preprocessing script stops *)

(** The labels a frame keeps when columns are dropped by label. *)
Lemma select_columns_column_names (labels : list string) (df : DataFrame) :
  column_names
    (select_columns (List.map (fun c => negb (mem_label labels c)) (columns df)) df)
  = List.filter (fun n => negb (List.existsb (String.eqb n) labels)) (column_names df).
Proof.
  unfold column_names, select_columns. cbn [columns].
  rewrite select_map_filter. unfold mem_label. now rewrite filter_map_comm.
Qed.

Lemma has_column_false (df : DataFrame) (label : string) :
  ~ In label (column_names df) -> has_column df label = false.
Proof.
  intros H. destruct (has_column df label) eqn:E; [|reflexivity].
  apply has_column_In in E. contradiction.
Qed.

Section PreprocessStops.

Variable float_repr : Qc -> string.
Variable value_leb : value -> value -> bool.
Variable sample_order : nat -> list nat.

(** X7. Over raw data with distinct column labels, as [read_csv] gives
    them: without "Phone" the script stops with
    [KeyError("['Phone'] not found in axis")]; with "Phone" and without
    "Area Code" it stops with [KeyError('Area Code')]; with both and
    without some of the four charge columns it stops with the [KeyError]
    whose message lists the charge labels that are missing, in the order
    of the script.  In each case no file is written. *)
Theorem preprocess_missing_column (df : DataFrame) :
  NoDup (column_names df) ->
  let charges := ["Day Charge"; "Eve Charge"; "Night Charge"; "Intl Charge"] in
  let missing := List.filter (fun l => negb (has_column df l)) charges in
  (~ In "Phone" (column_names df) ->
   preprocess float_repr value_leb sample_order df
   = Raise (KeyError "['Phone'] not found in axis"))
  /\ (In "Phone" (column_names df) -> ~ In "Area Code" (column_names df) ->
      preprocess float_repr value_leb sample_order df = Raise (KeyError "Area Code"))
  /\ (In "Phone" (column_names df) -> In "Area Code" (column_names df) ->
      missing <> [] ->
      preprocess float_repr value_leb sample_order df
      = Raise (KeyError (labels_str missing ++ " not found in axis"))).
Proof.
  intros Hnd charges missing. unfold preprocess, model_data_of, drop_features.
  split; [|split].
  - intros Hout. unfold drop_columns. cbn [List.filter].
    rewrite (has_column_false df "Phone" Hout). cbn [negb bind].
    destruct (is_unique (column_names df)); reflexivity.
  - intros Hin Hout. rewrite (drop_columns_complete ["Phone"] df).
    2:{ intros l [<-|[]]. exact Hin. }
    cbn [bind]. unfold astype_object. rewrite has_column_false; [reflexivity|].
    intros H. apply select_columns_names in H as [H _]. contradiction.
  - intros Hphone Harea Hmiss. rewrite (drop_columns_complete ["Phone"] df).
    2:{ intros l [<-|[]]. exact Hphone. }
    cbn [bind]. unfold astype_object.
    set (df1 := select_columns _ df).
    assert (Hnames1 : column_names df1
                      = List.filter (fun n => negb (List.existsb (String.eqb n) ["Phone"]))
                          (column_names df)) by apply select_columns_column_names.
    assert (Hhas : has_column df1 "Area Code" = true).
    { apply has_column_In. rewrite Hnames1. apply List.filter_In. split; [exact Harea|].
      reflexivity. }
    rewrite Hhas. cbn [bind].
    set (df2 := {| columns := List.map (relabel_object "Area Code") (columns df1);
                   rows := rows df1 |}).
    assert (Hnames2 : column_names df2 = column_names df1).
    { unfold column_names, df2. cbn [columns]. rewrite List.map_map.
      apply List.map_ext. intros c. apply fst_relabel_object. }
    assert (Hsame : forall l, In l charges -> has_column df2 l = has_column df l).
    { intros l Hl.
      assert (Hne : String.eqb l "Phone" = false).
      { cbn [charges In] in Hl.
        repeat (destruct Hl as [<-|Hl]; [reflexivity|]). contradiction. }
      destruct (has_column df l) eqn:E.
      - apply has_column_In. rewrite Hnames2, Hnames1. apply List.filter_In.
        split; [now apply has_column_In|]. cbn [List.existsb]. now rewrite Hne.
      - apply has_column_false. rewrite Hnames2, Hnames1. intros H.
        apply List.filter_In in H as [H _]. apply has_column_In in H. congruence. }
    assert (Hfilter : List.filter (fun l => negb (has_column df2 l)) charges = missing).
    { unfold missing. apply List.filter_ext_in. intros l Hl. now rewrite Hsame. }
    assert (Huniq : is_unique (column_names df2) = true).
    { apply is_unique_NoDup. rewrite Hnames2, Hnames1. now apply NoDup_list_filter. }
    unfold drop_columns. fold charges. rewrite Hfilter, Huniq.
    destruct missing as [|l ls]; [contradiction | reflexivity].
Qed.

(** X8. When, after the encoding, no column is labelled "Churn?_True."
    (no customer has left) the script stops with
    [KeyError('Churn?_True.')].  When that column is there and
    "Churn?_False." is not (every customer has left) it stops in [drop]
    with [KeyError("['Churn?_False.'] not found in axis")]; should the
    encoded frame hold a label twice, the message lists both labels
    passed to [drop]. *)
Theorem preprocess_needs_both_labels (df dropped : DataFrame) :
  drop_features df = Ok dropped ->
  let names := column_names (get_dummies float_repr value_leb dropped) in
  (~ In "Churn?_True." names ->
   preprocess float_repr value_leb sample_order df = Raise (KeyError "Churn?_True."))
  /\ (In "Churn?_True." names -> ~ In "Churn?_False." names ->
      preprocess float_repr value_leb sample_order df
      = Raise (KeyError
                 (if is_unique names
                  then "['Churn?_False.'] not found in axis"
                  else "['Churn?_False.' 'Churn?_True.'] not found in axis"))).
Proof.
  intros Hd names. unfold preprocess, model_data_of. rewrite Hd. cbn [bind].
  unfold label_first, getitem. split.
  - intros HT. now rewrite has_column_false.
  - intros HT HF. rewrite (proj2 (has_column_In _ _) HT). cbn [bind].
    unfold drop_columns. cbn [List.filter].
    rewrite (has_column_false _ _ HF), (proj2 (has_column_In _ _) HT).
    cbn [negb bind]. fold names. destruct (is_unique names); reflexivity.
Qed.

End PreprocessStops.

(** A table without the "Phone" column. *)
Lemma preprocess_missing_column_witness :
  preprocess ratio_repr level_leb reversed_order
    {| columns := [("State", object); ("Area Code", int64); ("Churn?", object)];
       rows := [(0, [VStr "KS"; VInt 415; VStr "False."])] |}
  = Raise (KeyError "['Phone'] not found in axis").
Proof.
  apply (proj1 (preprocess_missing_column ratio_repr level_leb reversed_order
                  {| columns := [("State", object); ("Area Code", int64);
                                 ("Churn?", object)];
                     rows := [(0, [VStr "KS"; VInt 415; VStr "False."])] |}
                  ltac:(apply is_unique_NoDup; reflexivity))).
  cbn. intuition discriminate.
Defined.

Lemma preprocess_needs_both_labels_witness :
  preprocess ratio_repr level_leb reversed_order loyal_sample
  = Raise (KeyError "Churn?_True.").
Proof.
  destruct (drop_features loyal_sample) as [dropped|e] eqn:E;
    [|vm_compute in E; discriminate E].
  apply (proj1 (preprocess_needs_both_labels ratio_repr level_leb reversed_order
                  loyal_sample dropped E)).
  vm_compute in E. injection E as <-. vm_compute.
  intros H. repeat (destruct H as [H|H]; [discriminate H|]). exact H.
Defined.

(** ** The shape and the sizes of the files *)

(** Exact conversion of a row count below [2^53]. *)
Lemma round53_small (n : Z) : (0 <= n < 2 ^ 53)%Z -> round53 n = n.
Proof.
  intros Hn. unfold round53.
  destruct (Z.eq_dec n 0%Z) as [->|Hne]; [reflexivity|].
  assert (Hlog : (Z.log2 n < 53)%Z) by (apply Z.log2_lt_pow2; lia).
  destruct (Z.log2 n - 52 <=? 0)%Z eqn:E; [reflexivity|].
  apply Z.leb_gt in E. lia.
Qed.

(** The cuts are the tenths of the row count, or one row less. *)
Lemma int_of_product_share (n a b : nat) :
  (Z.of_nat n < 2 ^ 49)%Z ->
  int_of_product m07 n = Ok a -> int_of_product m09 n = Ok b ->
  7 * n <= 10 * a + 10 /\ 10 * a <= 7 * n
  /\ 9 * n <= 10 * b + 10 /\ 10 * b <= 9 * n.
Proof.
  intros Hn. unfold int_of_product, float_of_int.
  rewrite round53_small by lia.
  destruct (2 ^ 1024 <=? Z.of_nat n)%Z; [discriminate|].
  cbn [bind]. intros Ha Hb. injection Ha as <-. injection Hb as <-.
  destruct (round53_error (m07 * Z.of_nat n) ltac:(unfold m07; lia)) as (H70 & H71 & H72).
  destruct (round53_error (m09 * Z.of_nat n) ltac:(unfold m09; lia)) as (H90 & H91 & H92).
  set (R7 := round53 (m07 * Z.of_nat n)) in *.
  set (R9 := round53 (m09 * Z.of_nat n)) in *.
  unfold m07, m09 in *.
  pose proof (Z.div_mod R7 (2 ^ 53) ltac:(lia)) as Hd7.
  pose proof (Z.mod_pos_bound R7 (2 ^ 53) ltac:(lia)) as Hm7.
  pose proof (Z.div_mod R9 (2 ^ 53) ltac:(lia)) as Hd9.
  pose proof (Z.mod_pos_bound R9 (2 ^ 53) ltac:(lia)) as Hm9.
  assert (Hq7 : (0 <= R7 / 2 ^ 53)%Z) by (apply Z.div_pos; lia).
  assert (Hq9 : (0 <= R9 / 2 ^ 53)%Z) by (apply Z.div_pos; lia).
  set (q7 := (R7 / 2 ^ 53)%Z) in *. set (q9 := (R9 / 2 ^ 53)%Z) in *.
  assert (H2 : (2 ^ 49 = 562949953421312)%Z) by reflexivity.
  assert (H3 : (2 ^ 53 = 9007199254740992)%Z) by reflexivity.
  rewrite H2 in Hn. rewrite H3 in *.
  repeat split; apply Nat2Z.inj_le; rewrite ?Nat2Z.inj_add, ?Nat2Z.inj_mul,
    ?Z2Nat.id by assumption; lia.
Qed.

Section Files.

Variable float_repr : Qc -> string.
Variable value_leb : value -> value -> bool.
Variable sample_order : nat -> list nat.
Hypothesis sample_order_perm : forall n, Permutation (sample_order n) (seq 0 n).

(** X9. The files are rectangular: when every row of the raw data has
    one cell per column, every row of the three files has one cell per
    column of the model data, the label among them. *)
Theorem csv_rows_have_one_cell_per_column (df : DataFrame) (files : csv_files) :
  preprocess float_repr value_leb sample_order df = Ok files ->
  well_formed df ->
  exists model_data,
    model_data_of float_repr value_leb df = Ok model_data
    /\ 1 <= length (columns model_data)
    /\ forall file,
         In file [train_csv files; validation_csv files; test_csv files] ->
         forall row, In row file -> length row = length (columns model_data).
Proof.
  intros H Hwf.
  destruct (preprocess_inv float_repr value_leb sample_order df files H)
    as (dropped & md & train & validation & test & Hd & Hl & Hmd & Hs & ->).
  pose proof (split_data_partition sample_order sample_order_perm md train validation
                test Hs)
    as (a & b & _ & _ & _ & _ & _ & _ & _ & _ & _ & Hrows).
  assert (Hwfmd : well_formed md).
  { apply (label_first_well_formed (get_dummies float_repr value_leb dropped)); [|exact Hl].
    apply get_dummies_well_formed. now apply (drop_features_well_formed df). }
  destruct (label_first_header _ _ Hl) as [(dt & cols & Hhead) _].
  exists md. split; [exact Hmd|]. split; [rewrite Hhead; cbn [length]; lia|].
  intros file Hfile row Hrow. cbn [train_csv validation_csv test_csv] in Hfile.
  assert (Hin : In row (to_csv train ++ to_csv validation ++ to_csv test)).
  { cbn [In] in Hfile. apply List.in_or_app.
    destruct Hfile as [<-|[<-|[<-|[]]]]; [left; exact Hrow|right|right];
      apply List.in_or_app; [left|right]; exact Hrow. }
  unfold to_csv in Hin. rewrite <- !List.map_app, Hrows in Hin.
  apply List.in_map_iff in Hin as (r & <- & Hr).
  apply (Permutation_in _ (sample_rows_perm sample_order sample_order_perm md)) in Hr.
  unfold well_formed in Hwfmd. rewrite List.Forall_forall in Hwfmd. now apply Hwfmd.
Qed.

(** X10. For fewer than [2^49] rows the cuts fall at seven and at nine
    tenths of the row count or one row below, so the test file holds at
    least a tenth of the rows: it is not empty when the data has a row,
    and (the raw data having one cell per column in every row)
    [pd.read_csv(test_path, header=None)] of the evaluation script raises
    nothing on it and returns its lines, field by field. *)
Theorem split_shares (df : DataFrame) (files : csv_files) :
  preprocess float_repr value_leb sample_order df = Ok files ->
  (Z.of_nat (len df) < 2 ^ 49)%Z ->
  let n := len df in
  let train := length (train_csv files) in
  let validation := length (validation_csv files) in
  let test := length (test_csv files) in
  train + validation + test = n
  /\ 7 * n <= 10 * train + 10 /\ 10 * train <= 7 * n
  /\ 9 * n <= 10 * (train + validation) + 10 /\ 10 * (train + validation) <= 9 * n
  /\ n <= 10 * test
  /\ (1 <= n ->
      test_csv files <> []
      /\ (well_formed df ->
          forall strtod,
            read_csv_headerless strtod (test_csv files)
            = Ok (List.map (List.map (read_value strtod)) (test_csv files)))).
Proof.
  intros H Hn n train validation test.
  destruct (preprocess_inv float_repr value_leb sample_order df files H)
    as (dropped & md & tr & va & te & Hd & Hl & Hmd & Hs & ->).
  destruct (model_data_rows float_repr value_leb df dropped md Hd Hl) as [_ Hlen].
  destruct (split_data_partition sample_order sample_order_perm md tr va te Hs)
    as (a & b & Ha & Hb & Hab & _ & _ & _ & Hlt & Hlv & Hle & _).
  rewrite Hlen in *. fold n in Ha, Hb, Hab, Hle, Hn.
  destruct (int_of_product_share n a b Hn Ha Hb) as (H1 & H2 & H3 & H4).
  unfold train, validation, test. cbn [train_csv validation_csv test_csv].
  rewrite !length_to_csv, Hlt, Hlv, Hle.
  do 6 (split; [lia|]). intros Hn1.
  assert (Hne : to_csv te <> []).
  { intros Hnil. apply (f_equal (@length _)) in Hnil.
    rewrite length_to_csv, Hle in Hnil. cbn [length] in Hnil. lia. }
  split; [exact Hne|]. intros Hwf strtod.
  destruct (file_rows_uniform float_repr value_leb sample_order sample_order_perm
              df dropped md tr va te Hwf Hd Hl Hs) as [Hw Hu].
  apply (read_csv_headerless_uniform strtod (length (columns md))); [lia| |exact Hne].
  apply Hu. cbn. tauto.
Qed.

End Files.

(** ** The metrics of the evaluation script *)

(** X11. A predicted probability counts as a churn exactly when it is
    above one half: [predictions.round()] sends a value of [[0, 1]] to 1
    when it exceeds 1/2 and to 0 otherwise, one half itself included. *)
Theorem np_round_threshold (p : Qc) :
  (0 <= p)%Qc -> (p <= 1)%Qc ->
  (np_round p = 1%Z <-> (Q2Qc (1 # 2) < p)%Qc)
  /\ (np_round p = 0%Z <-> (p <= Q2Qc (1 # 2))%Qc).
Proof.
  intros H0 H1. rewrite np_round_compare. cbv zeta.
  unfold Qcle, Qclt in *. cbn [this Q2Qc] in *.
  change (Qred 0) with 0%Q in H0. change (Qred 1) with 1%Q in H1.
  change (Qred (1 # 2)) with (1 # 2)%Q.
  set (x := this p) in *.
  pose proof (Qfloor_le x) as Hfl. pose proof (Qlt_floor x) as Hfu.
  assert (Hf : (Qfloor x = 0 \/ Qfloor x = 1)%Z).
  { assert (0 <= Qfloor x)%Z.
    { change 0%Z with (Qfloor 0). now apply Qfloor_resp_le. }
    assert (Qfloor x <= 1)%Z.
    { change 1%Z with (Qfloor 1). now apply Qfloor_resp_le. }
    lia. }
  destruct Hf as [Hf|Hf]; rewrite Hf in *; cbn [Z.even Z.add] in *.
  - change (inject_Z 0) with 0%Q in *.
    destruct (x - 0 ?= 1 # 2)%Q eqn:E;
      [apply Qeq_alt in E | apply Qlt_alt in E | apply Qgt_alt in E];
      (split; split; intros HH; try reflexivity; try discriminate HH;
       try lra; exfalso; lra).
  - change (inject_Z 1) with 1%Q in *.
    destruct (x - 1 ?= 1 # 2)%Q eqn:E;
      [apply Qeq_alt in E | apply Qlt_alt in E | apply Qgt_alt in E];
      (split; split; intros HH; try reflexivity; try discriminate HH;
       try lra; exfalso; lra).
Qed.

Lemma np_round_threshold_witness : np_round (Q2Qc (1 # 2)) = 0%Z.
Proof.
  apply (proj2 (np_round_threshold (Q2Qc (1 # 2)) ltac:(discriminate) ltac:(discriminate))).
  discriminate.
Defined.

(** X12. Because the predictions are rounded before they are scored, the
    ROC curve that [roc_auc_score] integrates (for a target of numbers)
    has one point besides the corners, and the AUC in the report is the
    area under these three points as numpy computes it in double
    precision.  It lies within [2^-50] of the balanced accuracy: the mean
    of the share of the positive class predicted 1 and the share of the
    negative class predicted 0. *)
Theorem auc_of_rounded_scores_is_balanced_accuracy
  (y_true : list value) (y_score : list Z) (area : Qc) :
  numeric_target y_true = true ->
  roc_auc_score y_true y_score = Ok area ->
  binary y_score ->
  exists ys c c',
    labels_of y_true = Ok ys
    /\ remove_dups ys = [c; c']
    /\ let pos := scores_of (Z.max c c') ys y_score in
       let neg := scores_of (Z.min c c') ys y_score in
       let tpr := Zfrac (count_score 1 pos) (Z.of_nat (length pos)) in
       let fpr := Zfrac (count_score 1 neg) (Z.of_nat (length neg)) in
       pos <> [] /\ neg <> []
       /\ area = three_point (fl fpr) (fl tpr)
       /\ (area - (tpr + (1 - fpr)) / Q2Qc 2 <= Q2Qc (1 # 2 ^ 50))%Qc
       /\ ((tpr + (1 - fpr)) / Q2Qc 2 - area <= Q2Qc (1 # 2 ^ 50))%Qc.
Proof. intros _. exact (roc_auc_score_binary y_true y_score area). Qed.

(** Labels 1 0 1 0 1 and predictions 1 0 0 1 1: two of three positives
    and one of two negatives are right; the area is the double
    0.5833333333333333, which is [2627099782632789 / 2^52], not 7/12. *)
Lemma auc_of_rounded_scores_is_balanced_accuracy_witness :
  exists area,
    roc_auc_score [VInt 1; VInt 0; VInt 1; VInt 0; VInt 1] [1; 0; 0; 1; 1]%Z = Ok area
    /\ area = three_point (fl (Zfrac 1 2)) (fl (Zfrac 2 3))
    /\ area = Q2Qc (2627099782632789 # 2 ^ 52).
Proof.
  destruct (roc_auc_score [VInt 1; VInt 0; VInt 1; VInt 0; VInt 1] [1; 0; 0; 1; 1]%Z)
    as [area|e] eqn:E; [|vm_compute in E; discriminate E].
  exists area. split; [reflexivity|].
  assert (Hbin : binary [1; 0; 0; 1; 1]%Z) by (repeat constructor; auto).
  assert (Hnum : numeric_target [VInt 1; VInt 0; VInt 1; VInt 0; VInt 1] = true)
    by reflexivity.
  destruct (auc_of_rounded_scores_is_balanced_accuracy _ _ _ Hnum E Hbin)
    as (ys & c & c' & Hys & Hcls & _ & _ & Harea & _).
  vm_compute in Hys. injection Hys as <-.
  vm_compute in Hcls. injection Hcls as <- <-.
  split; [exact Harea|]. rewrite Harea. apply Qc_is_canon. vm_compute. reflexivity.
Defined.

(** X13. From the evaluation to the registration: with the report the
    script writes, the pipeline registers the model exactly when the
    accuracy in the report is at least four fifths.  For a test file of
    fewer than [2^53] lines whose first column holds numbers, that is
    exactly when at least four fifths of the test rows are predicted
    right; the accuracy is then a double, and comparing it with the double
    nearest to 0.8 decides the same as comparing it with four fifths. *)
Theorem model_registered_iff_four_fifths_right {DMatrix : Type}
  (name : string) (env : environment DMatrix) (report : json) :
  evaluate env = Ok report ->
  (Z.of_nat (length (test_file env)) < 2 ^ 53)%Z ->
  exists df model X_test predictions acc,
    read_csv_headerless (float_parser env) (test_file env) = Ok df
    /\ load_model env = Ok model
    /\ xgboost_DMatrix env (drop_first_column df) = Ok X_test
    /\ predict model X_test = Ok predictions
    /\ json_get report accuracy_path = Some (JNum acc)
    /\ (In "CustomerChurnRegisterModel"
          (run_pipeline (files_with_report report) (pipeline name))
        <-> (threshold <= acc)%Qc)
    /\ (numeric_target (first_column df) = true ->
        exists ys,
          labels_of (first_column df) = Ok ys
          /\ length ys = length df
          /\ acc = fl (Zfrac (Z.of_nat (matches ys (List.map np_round predictions)))
                        (Z.of_nat (length ys)))
          /\ (In "CustomerChurnRegisterModel"
                (run_pipeline (files_with_report report) (pipeline name))
              <-> 4 * length ys <= 5 * matches ys (List.map np_round predictions))
          /\ ((fl threshold <= acc)%Qc <-> (threshold <= acc)%Qc)).
Proof.
  intros H Hsize.
  destruct (evaluate_inv env report H)
    as (model & df & X_test & predictions & acc & area
        & _ & H2 & H3 & H4 & H5 & Hm & _ & ->).
  exists df, model, X_test, predictions, acc.
  do 4 (split; [assumption|]). split; [reflexivity|].
  assert (Hreg : In "CustomerChurnRegisterModel"
                   (run_pipeline (files_with_report (report_dict acc area))
                      (pipeline name))
                 <-> (threshold <= acc)%Qc).
  { rewrite (run_pipeline_with_accuracy name (report_dict acc area) acc eq_refl).
    rewrite <- Qc_geb_spec. destruct (Qc_geb acc threshold).
    - split; [reflexivity | intros _; cbn; tauto].
    - split; [|discriminate].
      cbn. intros HH. repeat (destruct HH as [HH|HH]; [discriminate HH|]). contradiction. }
  split; [exact Hreg|]. intros Hnum. rewrite Hnum in Hm.
  destruct Hm as (ys & Hys & _ & Hlen & Hacc & _).
  exists ys. split; [exact Hys|]. split; [exact Hlen|]. split; [exact Hacc|].
  set (m := matches ys (List.map np_round predictions)) in *.
  pose proof (matches_le ys (List.map np_round predictions)) as Hm. fold m in Hm.
  pose proof (read_csv_headerless_nonempty _ _ _ H3) as Hne.
  pose proof (read_csv_headerless_length _ _ _ H3) as Hle.
  assert (Hpos : 0 < length ys).
  { rewrite Hlen. destruct df; [contradiction | cbn [length]; lia]. }
  destruct (fl_Zfrac_threshold (Z.of_nat m) (Z.of_nat (length ys))
              ltac:(lia) ltac:(lia)) as [Hexact Hdouble].
  rewrite <- Hacc in Hexact, Hdouble.
  split; [rewrite Hreg, Hexact; lia|]. rewrite Hexact, Hdouble. reflexivity.
Qed.

(** Three of five test rows are right: not enough. *)
Lemma model_registered_iff_four_fifths_right_witness :
  exists report,
    evaluate
      (plain_run
         (fun row => match row with VInt z :: _ => Q2Qc (z # 10) | _ => Q2Qc 0 end)
         [[VInt 1; VInt 9]; [VInt 0; VInt 2]; [VInt 1; VInt 5]; [VInt 0; VInt 7];
          [VInt 1; VInt 6]])
    = Ok report
    /\ ~ In "CustomerChurnRegisterModel"
           (run_pipeline (files_with_report report) (pipeline "CustomerChurn-Pipe-0000")).
Proof.
  destruct (evaluate
              (plain_run
                 (fun row => match row with VInt z :: _ => Q2Qc (z # 10) | _ => Q2Qc 0 end)
                 [[VInt 1; VInt 9]; [VInt 0; VInt 2]; [VInt 1; VInt 5]; [VInt 0; VInt 7];
                  [VInt 1; VInt 6]]))
    as [report|e] eqn:E; [|vm_compute in E; discriminate E].
  exists report. split; [reflexivity|].
  destruct (model_registered_iff_four_fifths_right "CustomerChurn-Pipe-0000" _ _ E
              ltac:(reflexivity))
    as (df & model & X_test & predictions & acc
        & Hdf & Hmodel & HX & Hp & _ & _ & Hnum).
  vm_compute in Hdf. injection Hdf as <-.
  injection Hmodel as <-. injection HX as <-. injection Hp as <-.
  destruct (Hnum eq_refl) as (ys & Hys & _ & _ & Hiff & _).
  vm_compute in Hys. injection Hys as <-.
  intros Hin. apply Hiff in Hin. vm_compute in Hin. lia.
Defined.

(** The exceptions of the evaluation script. *)
Lemma labels_of_error (vs : list value) (e : exn) :
  labels_of vs = Raise e -> exists msg, e = ValueError msg.
Proof.
  induction vs as [|v vs IH]; cbn [labels_of]; [discriminate|].
  destruct (label_of_value v) as [z|e'] eqn:Ev; cbn [bind].
  - destruct (labels_of vs) as [zs|e'']; cbn [bind]; [discriminate|].
    intros H. injection H as <-. now apply IH.
  - intros H. injection H as <-.
    destruct v; cbn [label_of_value] in Ev; try discriminate Ev;
      try (injection Ev as <-; eauto).
    destruct (decide _); [discriminate Ev | injection Ev as <-; eauto].
Qed.

Lemma remove_dups_constant (c : Z) (ys : list Z) :
  ys <> [] -> (forall y, In y ys -> y = c) -> remove_dups ys = [c].
Proof.
  induction ys as [|y ys IH]; intros Hne Hall; [contradiction|].
  assert (y = c) by (apply Hall; now left). subst y.
  destruct ys as [|y' ys]; [reflexivity|].
  assert (IH' : remove_dups (y' :: ys) = [c]).
  { apply IH; [discriminate|]. intros y Hy. apply Hall. now right. }
  change (remove_dups (c :: y' :: ys))
    with (if decide_rel elem_of c (y' :: ys) then remove_dups (y' :: ys)
          else c :: remove_dups (y' :: ys)).
  destruct (decide_rel elem_of c (y' :: ys)) as [_|Hn]; [exact IH'|].
  exfalso. apply Hn. apply list_elem_of_In. left. apply Hall. right. now left.
Qed.

(** X14. Where the evaluation script stops.  Reading the test file
    raises [EmptyDataError] exactly when the file has no line that is not
    blank, and a [ParserError] at the first line that has more fields than
    the first line that is not blank.  The steps run in the order of the
    script and the exception of the first step that raises is the
    exception of the script, which then writes no report: unpacking the
    archive, unpickling the model, reading the test file, building the
    matrix, predicting, the accuracy, the AUC, writing the report.  With
    predictions in hand and a first column of numbers the script raises a
    [ValueError]: for a number of predictions other than the number of
    rows, for labels that are missing or not whole, for labels of one
    class only (the message of [roc_auc_score]) and for labels of more
    than two classes; with labels of two classes, only writing the report
    is left to fail. *)
Theorem evaluate_stops {DMatrix : Type} (env : environment DMatrix) :
  (read_csv_headerless (float_parser env) (test_file env) = Raise EmptyDataError
   <-> Forall (fun line => line = []) (test_file env))
  /\ (forall blanks first pre l post,
        test_file env = blanks ++ first :: pre ++ l :: post ->
        Forall (fun x => x = []) blanks -> first <> [] ->
        Forall (fun x => length x <= length first) pre -> length first < length l ->
        read_csv_headerless (float_parser env) (test_file env)
        = Raise (ParserError (length first) (length blanks + length pre + 2)
                   (length l)))
  /\ (forall e, extract_model env = Raise e -> evaluate env = Raise e)
  /\ (extract_model env = Ok tt ->
      (forall e, load_model env = Raise e -> evaluate env = Raise e)
      /\ forall model,
           load_model env = Ok model ->
           (forall e,
              read_csv_headerless (float_parser env) (test_file env) = Raise e ->
              evaluate env = Raise e)
           /\ forall df,
                read_csv_headerless (float_parser env) (test_file env) = Ok df ->
                (forall e,
                   xgboost_DMatrix env (drop_first_column df) = Raise e ->
                   evaluate env = Raise e)
                /\ forall X_test,
                     xgboost_DMatrix env (drop_first_column df) = Ok X_test ->
                     (forall e, predict model X_test = Raise e -> evaluate env = Raise e)
                     /\ forall predictions,
                          predict model X_test = Ok predictions ->
                          let y_test := first_column df in
                          let rounded := List.map np_round predictions in
                          (forall e,
                             on_target accuracy_score (accuracy_score_objects env)
                               y_test rounded
                             = Raise e ->
                             evaluate env = Raise e)
                          /\ (forall acc e,
                                on_target accuracy_score (accuracy_score_objects env)
                                  y_test rounded
                                = Ok acc ->
                                on_target roc_auc_score (roc_auc_score_objects env)
                                  y_test rounded
                                = Raise e ->
                                evaluate env = Raise e)
                          /\ (forall acc area e,
                                on_target accuracy_score (accuracy_score_objects env)
                                  y_test rounded
                                = Ok acc ->
                                on_target roc_auc_score (roc_auc_score_objects env)
                                  y_test rounded
                                = Ok area ->
                                write_report env = Raise e ->
                                evaluate env = Raise e)
                          /\ (numeric_target y_test = true ->
                              (length predictions <> length df ->
                               evaluate env
                               = Raise (inconsistent_lengths (length df)
                                          (length predictions)))
                              /\ (length predictions = length df ->
                                  (forall e,
                                     labels_of y_test = Raise e ->
                                     exists msg, evaluate env = Raise (ValueError msg))
                                  /\ forall ys,
                                       labels_of y_test = Ok ys ->
                                       (forall c,
                                          (forall y, In y ys -> y = c) ->
                                          evaluate env
                                          = Raise (ValueError
                                                     "Only one class present in y_true. ROC AUC score is not defined in that case."))
                                       /\ (2 < length (remove_dups ys) ->
                                           evaluate env
                                           = Raise (ValueError
                                                      "multi_class must be in ('ovo', 'ovr')"))))).
Proof.
  split.
  { split; [|apply read_csv_headerless_blank].
    intros H. destruct (read_csv_headerless_raises _ _ _ H) as [[_ Hb]|(a & b & c & Hc)];
      [exact Hb | discriminate Hc]. }
  split.
  { intros blanks first pre l post -> Hb Hf Hpre Hl.
    now apply read_csv_headerless_long_line. }
  unfold evaluate, load_test.
  split; [intros e ->; reflexivity|]. intros ->. cbn [bind].
  split; [intros e ->; reflexivity|]. intros model ->. cbn [bind].
  split; [intros e ->; reflexivity|]. intros df Hdf.
  pose proof (read_csv_headerless_nonempty _ _ _ Hdf) as Hne.
  rewrite Hdf. cbn [bind fst snd].
  split; [intros e ->; reflexivity|]. intros X_test ->. cbn [bind].
  split; [intros e ->; reflexivity|]. intros predictions ->. cbn [bind].
  split; [intros e ->; reflexivity|].
  split; [intros acc e -> ->; reflexivity|].
  split; [intros acc area e -> -> ->; reflexivity|].
  intros Hnum. unfold on_target. rewrite Hnum. unfold accuracy_score.
  assert (Hl : length (first_column df) = length df)
    by (unfold first_column; apply List.length_map).
  rewrite Hl, List.length_map. split.
  - intros Hlen. destruct (Nat.eqb_spec (length df) (length predictions)) as [Heq|_];
      [congruence | reflexivity].
  - intros Hlen. rewrite Hlen, Nat.eqb_refl. cbn [negb]. split.
    + intros e He. rewrite He. cbn [bind].
      apply labels_of_error in He as [msg ->]. eauto.
    + intros ys Hys. rewrite Hys. cbn [bind]. unfold roc_auc_score.
      rewrite Hys. cbn [bind]. split.
      * intros c Hall. rewrite (remove_dups_constant c ys); [reflexivity| |exact Hall].
        apply labels_of_length in Hys. rewrite Hl in Hys.
        intros ->. destruct df; [contradiction | discriminate Hys].
      * intros Hmany. destruct (remove_dups ys) as [|a [|b [|c l]]];
          cbn [length] in Hmany; try lia. reflexivity.
Qed.

(** A test file of blank lines only, one with a line of three fields
    after lines of two, and one whose labels are all 1. *)
Lemma evaluate_stops_examples :
  evaluate (plain_run (fun _ => Q2Qc 0) [[]; []]) = Raise EmptyDataError
  /\ evaluate (plain_run (fun _ => Q2Qc 0)
                 [[VInt 1; VInt 9]; []; [VInt 0; VInt 2; VInt 5]])
     = Raise (ParserError 2 3 3)
  /\ evaluate (plain_run (fun _ => Q2Qc 1) [[VInt 1; VInt 9]; [VInt 1; VInt 2]])
     = Raise (ValueError
                "Only one class present in y_true. ROC AUC score is not defined in that case.").
Proof. repeat split. Qed.

(** ** The sample table again *)

(** Every row of the training file of the sample has the 17 cells of the
    model data. *)
Lemma csv_rows_have_one_cell_per_column_witness :
  exists files,
    preprocess ratio_repr level_leb reversed_order churn_sample = Ok files
    /\ forall row, In row (train_csv files) -> length row = 17.
Proof.
  destruct (preprocess ratio_repr level_leb reversed_order churn_sample)
    as [files|e] eqn:E; [|vm_compute in E; discriminate E].
  exists files. split; [reflexivity|].
  destruct (csv_rows_have_one_cell_per_column ratio_repr level_leb reversed_order
              reversed_order_perm churn_sample files E churn_sample_well_formed)
    as (md & Hmd & _ & Hall).
  vm_compute in Hmd. injection Hmd as <-.
  intros row Hrow. apply (Hall (train_csv files)); [now left | exact Hrow].
Defined.

(** The test file of the sample is not empty. *)
Lemma split_shares_witness :
  exists files,
    preprocess ratio_repr level_leb reversed_order churn_sample = Ok files
    /\ test_csv files <> [].
Proof.
  destruct (preprocess ratio_repr level_leb reversed_order churn_sample)
    as [files|e] eqn:E; [|vm_compute in E; discriminate E].
  exists files. split; [reflexivity|].
  assert (Hn : (Z.of_nat (len churn_sample) < 2 ^ 49)%Z) by reflexivity.
  destruct (split_shares ratio_repr level_leb reversed_order reversed_order_perm
              churn_sample files E Hn)
    as (_ & _ & _ & _ & _ & _ & Htest).
  apply Htest. cbn. lia.
Defined.

(** ** The label of each customer *)

Section LabelOfCustomer.

Variable float_repr : Qc -> string.
Variable value_leb : value -> value -> bool.

(** X15. In the model data the label of each customer is 1 when the
    "Churn?" cell of the raw data reads "True." and 0 otherwise, under
    the customer's own index label; this holds for raw data with distinct
    column labels, none of them "Churn?_True.", whose "Churn?" column
    holds text. *)
Theorem label_is_the_churn_indicator (df model_data : DataFrame) :
  model_data_of float_repr value_leb df = Ok model_data ->
  well_formed df ->
  NoDup (column_names df) ->
  ~ In "Churn?_True." (column_names df) ->
  (forall r v,
     In r (rows df) -> lookup_cell (columns df) (snd r) "Churn?" = Some v ->
     v = VNaN \/ exists s, v = VStr s) ->
  List.map (fun r => (fst r, nth 0 (snd r) VNaN)) (rows model_data)
  = List.map (fun r => (fst r, churn_indicator df r)) (rows df).
Proof. exact (model_data_label_cells float_repr value_leb df model_data). Qed.

End LabelOfCustomer.

(** In the sample, customers 4, 7 and 9 have left. *)
Lemma label_is_the_churn_indicator_witness :
  exists model_data,
    model_data_of ratio_repr level_leb churn_sample = Ok model_data
    /\ List.map (fun r => (fst r, nth 0 (snd r) VNaN)) (rows model_data)
       = [(0, VInt 0); (1, VInt 0); (2, VInt 0); (3, VInt 0); (4, VInt 1);
          (5, VInt 0); (6, VInt 0); (7, VInt 1); (8, VInt 0); (9, VInt 1)].
Proof.
  destruct (model_data_of ratio_repr level_leb churn_sample) as [md|e] eqn:E;
    [|vm_compute in E; discriminate E].
  exists md. split; [reflexivity|].
  rewrite (label_is_the_churn_indicator ratio_repr level_leb churn_sample md E
             churn_sample_well_formed).
  - reflexivity.
  - cbn. repeat (apply NoDup_cons; split;
                 [rewrite list_elem_of_In; cbn; intuition discriminate|]).
    apply NoDup_nil. exact I.
  - cbn. intuition discriminate.
  - intros r v Hr Hv. cbn [churn_sample rows In] in Hr.
    repeat (destruct Hr as [<-|Hr];
            [vm_compute in Hv; injection Hv as <-; right; eexists; reflexivity|]).
    contradiction.
Defined.
